(** * Stationary wavelet decomposition of [radiomics/imageoperations.py]

    A shallow embedding of [getWaveletImage], [_swt3] and the three axis
    decomposers [_decompose_i], [_decompose_j], [_decompose_k], together with
    the parts of numpy, SimpleITK and PyWavelets they call.

    - A numpy array is its shape and its C-order sample buffer.
    - Python exceptions are the [Raise] outcome of an error monad which also
      records, in call order, every line handed to the 1D transform.
    - A generator is an explicit object whose body runs on [next].
    - A dict is an association list in insertion order (the order of
      [dict.items] in CPython 3.7 and later). *)

From Stdlib Require Import String Ascii DecimalString DecimalNat.
From Stdlib Require Import List ZArith Lia Bool Arith PeanoNat Permutation.
Import ListNotations.

Set Implicit Arguments.

(** ** External collaborators *)

(** What the code takes from outside the repository: the sample type of the
    arrays with the value numpy fills new entries with, the spatial metadata
    of a SimpleITK image (origin, spacing, direction) with the value a fresh
    image carries, and PyWavelets: wavelet objects, the lookup of a wavelet
    by name ([None] when the name is unknown) and the approximation and detail
    coefficients of one level of the stationary transform of a line. *)
Class Collaborators : Type := {
  Sample : Type;
  zero : Sample;
  Info : Type;
  default_info : Info;
  Wavelet : Type;
  pywt_Wavelet : string -> option Wavelet;
  swt_cA : Wavelet -> list Sample -> list Sample;
  swt_cD : Wavelet -> list Sample -> list Sample
}.

(** ** Exceptions and the call-recording error monad *)

Inductive exn : Type :=
| ValueError (msg : string)
| RuntimeError (msg : string)
| ZeroDivisionError (msg : string)
| IndexError (msg : string).

Inductive result (X : Type) : Type :=
| Ok (x : X)
| Raise (e : exn).

Arguments Ok {X} x.
Arguments Raise {X} e.

Section Monad.

Context {C : Collaborators}.

(** A computation yields the lines it passed to the 1D transform, in call
    order, and either a value or the exception that stopped it. *)
Definition M (X : Type) : Type := (list (list Sample) * result X)%type.

Definition ret {X} (x : X) : M X := ([], Ok x).

Definition raise {X} (e : exn) : M X := ([], Raise e).

Definition bind {X Y} (m : M X) (f : X -> M Y) : M Y :=
  match m with
  | (calls, Ok x) => let (calls', r) := f x in (calls ++ calls', r)
  | (calls, Raise e) => (calls, Raise e)
  end.

Definition calls_of {X} (m : M X) : list (list Sample) := fst m.

Definition outcome {X} (m : M X) : result X := snd m.

End Monad.

Notation "x <- m ;; k" := (bind m (fun x => k))
  (at level 61, m at next level, right associativity).
Notation "' pat <- m ;; k" := (bind m (fun x => match x with pat => k end))
  (at level 61, pat pattern, m at next level, right associativity).

Section Model.

Context {C : Collaborators}.

(** ** numpy arrays *)

Record ndarray : Type := mk_ndarray {
  shape : list nat;
  flat : list Sample
}.

Definition size_of (sh : list nat) : nat := fold_right Nat.mul 1 sh.

Definition ndim (a : ndarray) : nat := length (shape a).

Definition shape_at (a : ndarray) (axis : nat) : nat := nth axis (shape a) 0.

(** [a[k, j, i]] of a 3D array. *)
Definition get3 (a : ndarray) (k j i : nat) : Sample :=
  nth ((k * shape_at a 1 + j) * shape_at a 2 + i) (flat a) zero.

Definition tab {X} (n : nat) (f : nat -> X) : list X := map f (seq 0 n).

(** [R x0 x1] for every [x0 < s0] and [x1 < s1], first index slowest. *)
Definition lines3 {X} (s0 s1 : nat) (R : nat -> nat -> X) : list X :=
  concat (tab s0 (fun x0 => tab s1 (fun x1 => R x0 x1))).

(** The C-order buffer of the [s0 x s1 x s2] array whose entry at
    [(x0, x1, x2)] is [f x0 x1 x2]. *)
Definition tabulate3 (s0 s1 s2 : nat) (f : nat -> nat -> nat -> Sample)
  : list Sample :=
  concat (lines3 s0 s1 (fun x0 x1 => tab s2 (fun x2 => f x0 x1 x2))).

(** [count] consecutive pieces of [m] entries each. *)
Definition chunks {X} (m count : nat) (l : list X) : list (list X) :=
  tab count (fun r => firstn m (skipn (r * m) l)).

(** [a.resize(new_shape, refcheck=False)]: the buffer is cut or extended
    with zeros to the new size and read with the new shape. *)
Definition ndarray_resize (a : ndarray) (new_shape : list nat) : ndarray :=
  let n := size_of new_shape in
  mk_ndarray new_shape
    (firstn n (flat a) ++ repeat zero (n - length (flat a))).

(** [numpy.resize(a, new_shape)]: the raveled array, repeated as often as
    needed, cut to the new size. *)
Definition numpy_resize (a : ndarray) (new_shape : list nat) : ndarray :=
  let new_size := size_of new_shape in
  if (length (flat a) =? 0) || (new_size =? 0) then
    mk_ndarray new_shape (repeat zero new_size)
  else
    let repeats := (new_size + length (flat a) - 1) / length (flat a) in
    mk_ndarray new_shape
      (firstn new_size (concat (repeat (flat a) repeats))).

(** [numpy.transpose(a, (0, 2, 1))] and [a.transpose((0, 2, 1))]. *)
Definition transpose_021 (a : ndarray) : M ndarray :=
  match shape a with
  | [s0; s1; s2] =>
      ret (mk_ndarray [s0; s2; s1]
             (tabulate3 s0 s2 s1 (fun k i j => get3 a k j i)))
  | _ => raise (ValueError "axes don't match array")
  end.

(** [numpy.transpose(a, (2, 1, 0))]. *)
Definition transpose_210 (a : ndarray) : M ndarray :=
  match shape a with
  | [s0; s1; s2] =>
      ret (mk_ndarray [s2; s1; s0]
             (tabulate3 s2 s1 s0 (fun i j k => get3 a k j i)))
  | _ => raise (ValueError "axes don't match array")
  end.

(** [a.T]: the axes reversed.  The code takes it of 3D arrays only; for
    another rank only the shape is right here. *)
Definition T (a : ndarray) : ndarray :=
  match shape a with
  | [s0; s1; s2] =>
      mk_ndarray [s2; s1; s0]
        (tabulate3 s2 s1 s0 (fun i j k => get3 a k j i))
  | _ => mk_ndarray (rev (shape a)) (flat a)
  end.

(** [chain.from_iterable(a)] for a 3D array: the lines along the last axis,
    first axis slowest. *)
Definition chain_from_iterable (a : ndarray) : list (list Sample) :=
  chunks (shape_at a 2) (shape_at a 0 * shape_at a 1) (flat a).

(** [numpy.hstack] of 1D arrays. *)
Definition hstack (arrays : list (list Sample)) : M (list Sample) :=
  match arrays with
  | [] => raise (ValueError "need at least one array to concatenate")
  | _ => ret (concat arrays)
  end.

(** [x.reshape(sh)] of a 1D array. *)
Definition reshape (x : list Sample) (sh : list nat) : M ndarray :=
  if length x =? size_of sh then ret (mk_ndarray sh x)
  else raise (ValueError "cannot reshape array").

(** [numpy.vstack] of 1D arrays: one row each. *)
Definition vstack (arrays : list (list Sample)) : M ndarray :=
  match arrays with
  | [] => raise (ValueError "need at least one array to concatenate")
  | x :: rest =>
      if forallb (fun y => length y =? length x) rest then
        ret (mk_ndarray [length arrays; length x] (concat arrays))
      else raise (ValueError "all the input array dimensions must match")
  end.

(** [numpy.split(a, sections)] along the first axis. *)
Definition numpy_split (a : ndarray) (sections : nat) : M (list ndarray) :=
  match shape a with
  | [] => raise (IndexError "tuple index out of range")
  | n :: rest =>
      if sections =? 0 then
        raise (ZeroDivisionError "integer division or modulo by zero")
      else if n mod sections =? 0 then
        let m := (n / sections) * size_of rest in
        ret (tab sections (fun s =>
               mk_ndarray ((n / sections) :: rest)
                          (firstn m (skipn (s * m) (flat a)))))
      else
        raise (ValueError "array split does not result in an equal division")
  end.

(** [numpy.asarray] of a list of equally shaped arrays, as [numpy.split]
    returns them. *)
Definition asarray (arrays : list ndarray) : ndarray :=
  match arrays with
  | [] => mk_ndarray [0] []
  | x :: _ => mk_ndarray (length arrays :: shape x) (concat (map flat arrays))
  end.

(** ** PyWavelets *)

(** [pywt.swt(x, wavelet, level=1, start_level=0)[0]]: the pair [(cA, cD)].
    The transform refuses a line of odd length and then an empty line. *)
Definition pywt_swt (x : list Sample) (w : Wavelet)
  : M (list Sample * list Sample) :=
  ([x], if Nat.odd (length x)
        then Raise (ValueError "Length of data must be even.")
        else if length x =? 0
        then Raise (ValueError "Data must have non-zero size")
        else Ok (swt_cA w x, swt_cD w x)).

(** The loop shared by the three decomposers:
    [for x in arrays: cA, cD = pywt.swt(...)[0]; H.append(cD); L.append(cA)]. *)
Fixpoint swt_lines (arrays : list (list Sample)) (w : Wavelet)
  (H L : list (list Sample)) : M (list (list Sample) * list (list Sample)) :=
  match arrays with
  | [] => ret (H, L)
  | x :: rest =>
      '(cA, cD) <- pywt_swt x w ;;
      swt_lines rest w (H ++ [cD]) (L ++ [cA])
  end.

(** ** The axis decomposers *)

Definition _decompose_i (data : ndarray) (w : Wavelet)
  : M (ndarray * ndarray) :=
  '(H, L) <- swt_lines (chain_from_iterable data) w [] [] ;;
  Hs <- hstack H ;;
  H' <- reshape Hs (shape data) ;;
  Ls <- hstack L ;;
  L' <- reshape Ls (shape data) ;;
  ret (H', L').

Definition _decompose_j (data : ndarray) (w : Wavelet)
  : M (ndarray * ndarray) :=
  let s := shape data in
  dataT <- transpose_021 data ;;
  '(H, L) <- swt_lines (chain_from_iterable dataT) w [] [] ;;
  Hs <- hstack H ;;
  Hr <- reshape Hs [nth 0 s 0; nth 2 s 0; nth 1 s 0] ;;
  H' <- transpose_021 Hr ;;
  Ls <- hstack L ;;
  Lr <- reshape Ls [nth 0 s 0; nth 2 s 0; nth 1 s 0] ;;
  L' <- transpose_021 Lr ;;
  ret (H', L').

Definition _decompose_k (data : ndarray) (w : Wavelet)
  : M (ndarray * ndarray) :=
  dataT <- transpose_210 data ;;
  '(H, L) <- swt_lines (chain_from_iterable dataT) w [] [] ;;
  Hv <- vstack H ;;
  Hs <- numpy_split Hv (shape_at data 2) ;;
  let H' := T (asarray Hs) in
  Lv <- vstack L ;;
  Ls <- numpy_split Lv (shape_at data 2) ;;
  let L' := T (asarray Ls) in
  ret (H', L').

(** ** SimpleITK images *)

Record Image : Type := mk_Image {
  pixels : ndarray;
  info : Info
}.

Definition GetArrayFromImage (img : Image) : ndarray := pixels img.

Definition GetImageFromArray (a : ndarray) : Image :=
  mk_Image a default_info.

(** [dst.CopyInformation(src)]: origin, spacing and direction of [src] are
    put on [dst]; SimpleITK refuses images of different sizes. *)
Definition CopyInformation (dst src : Image) : M Image :=
  if list_eq_dec Nat.eq_dec (shape (pixels dst)) (shape (pixels src)) then
    ret (mk_Image (pixels dst) (info src))
  else raise (RuntimeError "Source image size does not match this image").

(** ** [_swt3] *)

(** The [wavelet] argument: a name or an already built [pywt.Wavelet]. *)
Inductive wavelet_arg : Type :=
| WaveletName (name : string)
| WaveletObject (w : Wavelet).

(** [if not isinstance(wavelet, pywt.Wavelet): wavelet = pywt.Wavelet(wavelet)] *)
Definition resolve_wavelet (wavelet : wavelet_arg) : M Wavelet :=
  match wavelet with
  | WaveletObject w => ret w
  | WaveletName name =>
      match pywt_Wavelet name with
      | Some w => ret w
      | None => raise (ValueError "Invalid wavelet name.")
      end
  end.

(** [range(a, b)] *)
Definition range (a b : Z) : list Z :=
  map (fun n => (a + Z.of_nat n)%Z) (seq 0 (Z.to_nat (b - a))).

(** A dict with string keys, in insertion order. *)
Definition dict (V : Type) : Type := list (string * V).

(** The body of the warm-up loop; its value is the new [data]. *)
Definition warmup_body (data : ndarray) (w : Wavelet) : M ndarray :=
  '(H, L) <- _decompose_i data w ;;
  '(LH, LL) <- _decompose_j L w ;;
  '(LLH, LLL) <- _decompose_k LL w ;;
  ret LLL.

Fixpoint warmup_loop (levels : list Z) (data : ndarray) (w : Wavelet)
  : M ndarray :=
  match levels with
  | [] => ret data
  | _ :: rest => data' <- warmup_body data w ;; warmup_loop rest data' w
  end.

(** [for decName, decImage in six.iteritems(dec): ...; dec[decName] = sitkImage]:
    every value is replaced in place by its image. *)
Fixpoint images_of_dict (dec : dict ndarray) (original_shape : list nat)
  (inputImage : Image) : M (dict Image) :=
  match dec with
  | [] => ret []
  | (decName, decImage) :: rest =>
      let decTemp := numpy_resize decImage original_shape in
      sitkImage <- CopyInformation (GetImageFromArray decTemp) inputImage ;;
      rest' <- images_of_dict rest original_shape inputImage ;;
      ret ((decName, sitkImage) :: rest')
  end.

(** The body of the emission loop; its value is the new [data] and the
    [dec] appended to [ret]. *)
Definition emission_body (data : ndarray) (w : Wavelet)
  (original_shape : list nat) (inputImage : Image)
  : M (ndarray * dict Image) :=
  '(H, L) <- _decompose_i data w ;;
  '(HH, HL) <- _decompose_j H w ;;
  '(LH, LL) <- _decompose_j L w ;;
  '(HHH, HHL) <- _decompose_k HH w ;;
  '(HLH, HLL) <- _decompose_k HL w ;;
  '(LHH, LHL) <- _decompose_k LH w ;;
  '(LLH, LLL) <- _decompose_k LL w ;;
  let dec := [("HHH"%string, HHH); ("HHL"%string, HHL);
              ("HLH"%string, HLH); ("HLL"%string, HLL);
              ("LHH"%string, LHH); ("LHL"%string, LHL);
              ("LLH"%string, LLH)] in
  dec' <- images_of_dict dec original_shape inputImage ;;
  ret (LLL, dec').

Fixpoint emission_loop (levels : list Z) (data : ndarray) (w : Wavelet)
  (original_shape : list nat) (inputImage : Image)
  (acc : list (dict Image)) : M (ndarray * list (dict Image)) :=
  match levels with
  | [] => ret (data, acc)
  | _ :: rest =>
      '(data', dec) <- emission_body data w original_shape inputImage ;;
      emission_loop rest data' w original_shape inputImage (acc ++ [dec])
  end.

(** [adjusted_shape]: [dim + 1 if dim % 2 != 0 else dim] for every dim. *)
Definition adjust (dim : nat) : nat := if Nat.odd dim then dim + 1 else dim.

Definition adjust_shape (original_shape : list nat) : list nat :=
  map adjust original_shape.

Definition _swt3 (inputImage : Image) (wavelet : wavelet_arg)
  (level start_level : Z) : M (Image * list (dict Image)) :=
  let matrix := GetArrayFromImage inputImage in
  if negb (ndim matrix =? 3) then raise (ValueError "Expected 3D data array")
  else
    let original_shape := shape matrix in
    let adjusted_shape := adjust_shape original_shape in
    let data := ndarray_resize matrix adjusted_shape in
    w <- resolve_wavelet wavelet ;;
    data <- warmup_loop (range 0 start_level) data w ;;
    '(data, levels) <-
      emission_loop (range start_level (start_level + level)) data w
                    original_shape inputImage [] ;;
    let data := numpy_resize data original_shape in
    approximation <- CopyInformation (GetImageFromArray data) inputImage ;;
    ret (approximation, levels).

(** ** [getWaveletImage] *)

(** [**kwargs]: the three recognised options, each possibly absent, and the
    others, which the generator only passes on. *)
Record kwargs : Type := mk_kwargs {
  kw_wavelet : option wavelet_arg;
  kw_level : option Z;
  kw_start_level : option Z;
  kw_others : list (string * string)
}.

(** [kwargs.get(key, default)] *)
Definition kwargs_get {X} (v : option X) (default : X) : X :=
  match v with Some x => x | None => default end.

Definition item : Type := (Image * string * kwargs)%type.

Definition item_volume (x : item) : Image := fst (fst x).

Definition item_identifier (x : item) : string := snd (fst x).

(** What is left to run of a generator body: a yield and the rest, the end
    of the body, or an exception. *)
Inductive frame : Type :=
| Yield (x : item) (rest : frame)
| Return
| Throw (e : exn).

(** [str(n)] of a non-negative integer. *)
Definition str_of_nat (n : nat) : string :=
  NilZero.string_of_uint (Nat.to_uint n).

(** [for decompositionName, decompositionImage in wl.items(): ... yield ...] *)
Fixpoint yield_level (idx : nat) (wl : dict Image) (kw : kwargs)
  (rest : frame) : frame :=
  match wl with
  | [] => rest
  | (decompositionName, decompositionImage) :: wl' =>
      let inputImageName :=
        if idx =? 1 then ("wavelet-" ++ decompositionName)%string
        else ("wavelet" ++ str_of_nat idx ++ "-" ++ decompositionName)%string in
      Yield (decompositionImage, inputImageName, kw)
            (yield_level idx wl' kw rest)
  end.

(** [for idx, wl in enumerate(ret, start=idx): ...] *)
Fixpoint yield_levels (idx : nat) (levels : list (dict Image)) (kw : kwargs)
  (rest : frame) : frame :=
  match levels with
  | [] => rest
  | wl :: levels' =>
      yield_level idx wl kw (yield_levels (S idx) levels' kw rest)
  end.

(** The body of the generator function. *)
Definition getWaveletImage_body (inputImage : Image) (kw : kwargs) : frame :=
  match outcome (_swt3 inputImage
                   (kwargs_get (kw_wavelet kw) (WaveletName "coif1"))
                   (kwargs_get (kw_level kw) 1%Z)
                   (kwargs_get (kw_start_level kw) 0%Z)) with
  | Raise e => Throw e
  | Ok (approx, levels) =>
      yield_levels 1 levels kw
        (let inputImageName :=
           if length levels =? 1 then "wavelet-LLL"%string
           else ("wavelet" ++ str_of_nat (length levels) ++ "-LLL")%string in
         Yield (approx, inputImageName, kw) Return)
  end.

(** A generator object: created and not started, suspended at a yield, or
    finished. *)
Inductive generator : Type :=
| Created (inputImage : Image) (kw : kwargs)
| Suspended (rest : frame)
| Finished.

(** Calling the generator function runs nothing of its body. *)
Definition getWaveletImage (inputImage : Image) (kw : kwargs) : generator :=
  Created inputImage kw.

Inductive next_result : Type :=
| Item (x : item)
| StopIteration
| Raised (e : exn).

Definition resume (f : frame) : next_result * generator :=
  match f with
  | Yield x rest => (Item x, Suspended rest)
  | Return => (StopIteration, Finished)
  | Throw e => (Raised e, Finished)
  end.

(** [next(g)] *)
Definition next (g : generator) : next_result * generator :=
  match g with
  | Created inputImage kw => resume (getWaveletImage_body inputImage kw)
  | Suspended rest => resume rest
  | Finished => (StopIteration, Finished)
  end.

(** The items a body yields until it ends or raises, and the exception if
    it raises. *)
Fixpoint run_frame (f : frame) : list item * option exn :=
  match f with
  | Yield x rest => let (xs, e) := run_frame rest in (x :: xs, e)
  | Return => ([], None)
  | Throw e => ([], Some e)
  end.

(** Exhausting a generator with [next]. *)
Definition exhaust (g : generator) : list item * option exn :=
  match g with
  | Created inputImage kw => run_frame (getWaveletImage_body inputImage kw)
  | Suspended rest => run_frame rest
  | Finished => ([], None)
  end.

(** ** The decomposition stated line by line *)

(** The lines of a 3D array through one entry, along each axis. *)
Definition line_i (data : ndarray) (k j : nat) : list Sample :=
  tab (shape_at data 2) (fun i => get3 data k j i).

Definition line_j (data : ndarray) (k i : nat) : list Sample :=
  tab (shape_at data 1) (fun j => get3 data k j i).

Definition line_k (data : ndarray) (j i : nat) : list Sample :=
  tab (shape_at data 0) (fun k => get3 data k j i).

(** The array of the same shape whose every line along an axis is [f] of
    the line of [data] at the same place. *)
Definition along_i (f : list Sample -> list Sample) (data : ndarray)
  : ndarray :=
  mk_ndarray (shape data)
    (tabulate3 (shape_at data 0) (shape_at data 1) (shape_at data 2)
       (fun k j i => nth i (f (line_i data k j)) zero)).

Definition along_j (f : list Sample -> list Sample) (data : ndarray)
  : ndarray :=
  mk_ndarray (shape data)
    (tabulate3 (shape_at data 0) (shape_at data 1) (shape_at data 2)
       (fun k j i => nth j (f (line_j data k i)) zero)).

Definition along_k (f : list Sample -> list Sample) (data : ndarray)
  : ndarray :=
  mk_ndarray (shape data)
    (tabulate3 (shape_at data 0) (shape_at data 1) (shape_at data 2)
       (fun k j i => nth k (f (line_k data j i)) zero)).

(** The outcome of the 1D transform a letter of a label stands for. *)
Inductive band : Type := Low | High.

Definition coefficients (w : Wavelet) (b : band)
  : list Sample -> list Sample :=
  match b with
  | Low => swt_cA w
  | High => swt_cD w
  end.

Definition letter (b : band) : string :=
  match b with
  | Low => "L"
  | High => "H"
  end.

(** The label whose first letter is [bi], second [bj] and third [bk]. *)
Definition label (bi bj bk : band) : string :=
  (letter bi ++ letter bj ++ letter bk)%string.

(** The sub-band with outcome [bi] along axis i, then [bj] along axis j,
    then [bk] along axis k. *)
Definition subband (w : Wavelet) (bi bj bk : band) (data : ndarray)
  : ndarray :=
  along_k (coefficients w bk)
    (along_j (coefficients w bj) (along_i (coefficients w bi) data)).

(** The working volume after [n] levels: the padded input, then [n] times
    the all-low sub-band. *)
Definition padded (inputImage : Image) : ndarray :=
  ndarray_resize (GetArrayFromImage inputImage)
                 (adjust_shape (shape (GetArrayFromImage inputImage))).

Definition working (inputImage : Image) (w : Wavelet) (n : nat) : ndarray :=
  Nat.iter n (subband w Low Low Low) (padded inputImage).

(** A volume handed out: a working array resized to the shape of the input,
    with the metadata of the input. *)
Definition emitted (inputImage : Image) (a : ndarray) : Image :=
  mk_Image (numpy_resize a (shape (GetArrayFromImage inputImage)))
           (info inputImage).

Definition detail_bands : list (band * band * band) :=
  [(High, High, High); (High, High, Low); (High, Low, High);
   (High, Low, Low); (Low, High, High); (Low, High, Low);
   (Low, Low, High)].

(** The seven labelled volumes of the level whose input is [data]. *)
Definition level_result (inputImage : Image) (w : Wavelet) (data : ndarray)
  : dict Image :=
  map (fun b => match b with
                | (bi, bj, bk) =>
                    (label bi bj bk, emitted inputImage (subband w bi bj bk data))
                end)
      detail_bands.

Definition seven_labels : list string :=
  ["HHH"; "HHL"; "HLH"; "HLL"; "LHH"; "LHL"; "LLH"]%string.

(** The identifier of a detail item of emitted level [idx] and of the last
    item of a run of [n] levels. *)
Definition detail_identifier (idx : nat) (l : string) : string :=
  if idx =? 1 then ("wavelet-" ++ l)%string
  else ("wavelet" ++ str_of_nat idx ++ "-" ++ l)%string.

Definition approximation_identifier (n : nat) : string :=
  if n =? 1 then "wavelet-LLL"%string
  else ("wavelet" ++ str_of_nat n ++ "-LLL")%string.

(** A 3D shape with no empty dimension. *)
Definition valid_shape (sh : list nat) : Prop :=
  exists d0 d1 d2, sh = [d0; d1; d2] /\ 1 <= d0 /\ 1 <= d1 /\ 1 <= d2.

(** A line of even length. *)
Definition even_line (x : list Sample) : Prop := Nat.even (length x) = true.

(** Every line passed to the 1D transform has even length. *)
Definition even_calls {X} (m : M X) : Prop :=
  Forall even_line (calls_of m).

(** [m] ends with value [x] and has passed only even lines. *)
Definition runs_to {X} (m : M X) (x : X) : Prop :=
  outcome m = Ok x /\ even_calls m.

(** Lists of lines of one length. *)
Definition uniform {X} (m : nat) (rows : list (list X)) : Prop :=
  Forall (fun r => length r = m) rows.

(** A 3D array of shape [(s0, s1, s2)] with a buffer of that size. *)
Definition wf3 (s0 s1 s2 : nat) (a : ndarray) : Prop :=
  shape a = [s0; s1; s2] /\ length (flat a) = s0 * s1 * s2.

(** A working shape: no empty dimension and every dimension even. *)
Definition even_shape (s0 s1 s2 : nat) : Prop :=
  (0 < s0 /\ 0 < s1 /\ 0 < s2)
  /\ Nat.even s0 = true /\ Nat.even s1 = true /\ Nat.even s2 = true.

(** The levels [_swt3] returns and its approximation. *)
Definition levels_of (inputImage : Image) (w : Wavelet) (start count : nat)
  : list (dict Image) :=
  map (fun n => level_result inputImage w (working inputImage w (start + n)))
      (seq 0 count).

Definition approximation_of (inputImage : Image) (w : Wavelet)
  (start count : nat) : Image :=
  emitted inputImage (working inputImage w (start + count)).

(** The item of label [b] of the emitted level number [m] (from 0) of a run
    starting at level [start], and all the items of a run of [count]
    levels. *)
Definition detail_item (inputImage : Image) (w : Wavelet) (kw : kwargs)
  (start m : nat) (b : band * band * band) : item :=
  match b with
  | (bi, bj, bk) =>
      (emitted inputImage
         (subband w bi bj bk (working inputImage w (start + m))),
       detail_identifier (S m) (label bi bj bk), kw)
  end.

Definition approximation_item (inputImage : Image) (w : Wavelet)
  (kw : kwargs) (start count : nat) : item :=
  (emitted inputImage (working inputImage w (start + count)),
   approximation_identifier count, kw).

Definition expected_items (inputImage : Image) (w : Wavelet) (kw : kwargs)
  (start count : nat) : list item :=
  flat_map (fun m => map (detail_item inputImage w kw start m) detail_bands)
           (seq 0 count)
  ++ [approximation_item inputImage w kw start count].

(** What a consumer can observe of an item apart from the options passed
    through: the volume and the identifier. *)
Definition observable (x : item) : Image * string :=
  (item_volume x, item_identifier x).

End Model.

(** ** A concrete instance: integer samples, unnormalised Haar filters *)

Module IntHaar.

(** Periodic correlation of a line with a list of taps:
    [out[n] = sum_t taps[t] * x[(n + t) mod N]]. *)
Definition correlate (taps : list Z) (x : list Z) : list Z :=
  map (fun n =>
         fold_right Z.add 0%Z
           (map (fun t => (nth t taps 0 * nth ((n + t) mod length x) x 0)%Z)
                (seq 0 (length taps))))
      (seq 0 (length x)).

(** A wavelet is its low-pass and its high-pass taps. *)
Definition haar : list Z * list Z := ([1; 1]%Z, [1; -1]%Z).

#[export] Instance collaborators : Collaborators := {
  Sample := Z;
  zero := 0%Z;
  Info := list Z;
  default_info := [0; 0; 0; 1; 1; 1]%Z;
  Wavelet := list Z * list Z;
  pywt_Wavelet := fun name =>
    if String.eqb name "haar" then Some haar else None;
  swt_cA := fun w x => correlate (fst w) x;
  swt_cD := fun w x => correlate (snd w) x
}.

(** The [2 x 2 x 3] volume holding 1 to 12, with its own metadata. *)
Definition volume_2_2_3 : Image :=
  mk_Image (mk_ndarray [2; 2; 3] (map Z.of_nat (seq 1 12)))
           [7; 8; 9; 2; 2; 3]%Z.

(** A 2D image. *)
Definition image_2_3 : Image :=
  mk_Image (mk_ndarray [2; 3] (map Z.of_nat (seq 1 6))) [7; 8; 2; 2]%Z.

Definition kw_haar (level start_level : Z) : kwargs :=
  mk_kwargs (Some (WaveletName "haar")) (Some level) (Some start_level) [].

(** The [4 x 4 x 4] volume of zeros. *)
Definition zeros_4_4_4 : Image :=
  mk_Image (mk_ndarray [4; 4; 4] (repeat 0%Z 64)) [0; 0; 0; 1; 1; 1]%Z.

(** The [5 x 4 x 6] volume holding 1 to 120. *)
Definition volume_5_4_6 : Image :=
  mk_Image (mk_ndarray [5; 4; 6] (map Z.of_nat (seq 1 120)))
           [0; 0; 0; 1; 1; 1]%Z.

End IntHaar.

(** ** Definitions for further properties *)

Section MoreModel.

Context {C : Collaborators}.

(** The three axis decomposers under one name, and the extent of an array
    along the axis each one transforms. *)
Inductive axis : Type := axis_i | axis_j | axis_k.

Definition decompose_along (ax : axis)
  : ndarray -> Wavelet -> M (ndarray * ndarray) :=
  match ax with
  | axis_i => _decompose_i
  | axis_j => _decompose_j
  | axis_k => _decompose_k
  end.

Definition extent (ax : axis) (data : ndarray) : nat :=
  match ax with
  | axis_i => shape_at data 2
  | axis_j => shape_at data 1
  | axis_k => shape_at data 0
  end.

(** The pairs of an emitted level index and a label a run of [n] levels
    names, the approximation last. *)
Definition named_pairs (n : nat) : list (nat * string) :=
  flat_map (fun idx => map (pair idx) seven_labels) (seq 1 n)
  ++ [(n, "LLL"%string)].

Definition identifier_of (p : nat * string) : string :=
  detail_identifier (fst p) (snd p).

(** What stands between ["wavelet"] and ["-"] in an identifier. *)
Definition level_infix (idx : nat) : string :=
  if idx =? 1 then EmptyString else str_of_nat idx.

(** The working arrays behind the items of a run, in the order of the
    items: the seven sub-bands of each level, then the last all-low
    volume. *)
Definition working_arrays (inputImage : Image) (w : Wavelet)
  (start count : nat) : list ndarray :=
  flat_map
    (fun m => map (fun b => match b with
                            | (bi, bj, bk) =>
                                subband w bi bj bk
                                  (working inputImage w (start + m))
                            end)
                  detail_bands)
    (seq 0 count)
  ++ [working inputImage w (start + count)].

(** The 3D array of zeros of a shape. *)
Definition zeros3 (s0 s1 s2 : nat) : ndarray :=
  mk_ndarray [s0; s1; s2] (repeat zero (s0 * s1 * s2)).

(** [m] ends with value [x] after [n] calls of the 1D transform. *)
Definition runs_in {X} (m : M X) (x : X) (n : nat) : Prop :=
  outcome m = Ok x /\ length (calls_of m) = n.

(** The lines one warm-up level and one emission level transform in an
    array of shape [(s0, s1, s2)]: along i once, along j once or twice,
    along k once or four times. *)
Definition warmup_lines (s0 s1 s2 : nat) : nat :=
  s0 * s1 + s0 * s2 + s1 * s2.

Definition emission_lines (s0 s1 s2 : nat) : nat :=
  s0 * s1 + 2 * (s0 * s2) + 4 * (s1 * s2).

End MoreModel.

(** ** [generateAngles] *)

(** A row of the array of angles, and the [size] argument: three
    integers. *)
Definition angle : Type := (Z * Z * Z)%type.

(** What one turn of the outer loop appends:
    [(0, 0, z)], then for every [y] the angle [(0, z, y)] and for every [x]
    the angle [(z, y, x)]. *)
Definition angles_of (maxDistance z : Z) : list angle :=
  (0, 0, z)%Z
  :: flat_map
       (fun y => (0, z, y)%Z
                 :: map (fun x => (z, y, x))
                        (range (- maxDistance) (maxDistance + 1)))
       (range (- maxDistance) (maxDistance + 1)).

Definition all_angles (maxDistance : Z) : list angle :=
  flat_map (angles_of maxDistance) (range 1 (maxDistance + 1)).

(** [numpy.min(size - numpy.abs(angles), 1)] for one row. *)
Definition margin (size a : angle) : Z :=
  match size, a with
  | (s0, s1, s2), (a0, a1, a2) =>
      Z.min (Z.min (s0 - Z.abs a0) (s1 - Z.abs a1)) (s2 - Z.abs a2)
  end.

(** Without an angle the array of angles has shape [(0,)] and numpy cannot
    subtract it from [size]; otherwise the rows whose margin is at most 0
    are deleted. *)
Definition generateAngles (size : angle) (maxDistance : Z)
  : result (list angle) :=
  match all_angles maxDistance with
  | [] => Raise (ValueError "operands could not be broadcast together")
  | angles => Ok (filter (fun a => negb (margin size a <=? 0)%Z) angles)
  end.

(** An offset whose first non-zero component is positive. *)
Definition forward (a : angle) : Prop :=
  match a with
  | (a0, a1, a2) =>
      (0 < a0 \/ (a0 = 0 /\ 0 < a1) \/ (a0 = 0 /\ a1 = 0 /\ 0 < a2))%Z
  end.

(** An offset of at most [d] along every axis. *)
Definition within (d : Z) (a : angle) : Prop :=
  match a with
  | (a0, a1, a2) => (Z.abs a0 <= d /\ Z.abs a1 <= d /\ Z.abs a2 <= d)%Z
  end.

(** An offset that stays inside a box of the given size from some voxel of
    the box. *)
Definition fits (size a : angle) : Prop :=
  match size, a with
  | (s0, s1, s2), (a0, a1, a2) =>
      (Z.abs a0 < s0 /\ Z.abs a1 < s1 /\ Z.abs a2 < s2)%Z
  end.

Definition opposite (a : angle) : angle :=
  match a with
  | (a0, a1, a2) => (- a0, - a1, - a2)%Z
  end.

(** ** [getHistogram] and [binImage] on integer gray levels *)

(** The matrix of gray levels is an array of one of numpy's integer types
    of at most 32 bits.  It is its flat buffer, every entry in the range of
    the type, and the coordinates are positions in that buffer.  The bin
    width is a positive Python integer.  The arithmetic is that of NumPy 2:
    a Python integer met by a numpy scalar takes the type of the scalar, and
    is refused when that type does not hold it, and the result of an
    operation on scalars wraps around in their type. *)

Inductive dtype : Type := int8 | uint8 | int16 | uint16 | int32 | uint32.

Definition dtype_bits (dt : dtype) : Z :=
  match dt with
  | int8 | uint8 => 8
  | int16 | uint16 => 16
  | int32 | uint32 => 32
  end.

(** [numpy.iinfo(dt).min] and [numpy.iinfo(dt).max] *)
Definition dtype_min (dt : dtype) : Z :=
  match dt with
  | int8 => -128
  | int16 => -32768
  | int32 => -2147483648
  | uint8 | uint16 | uint32 => 0
  end.

Definition dtype_max (dt : dtype) : Z :=
  match dt with
  | int8 => 127
  | uint8 => 255
  | int16 => 32767
  | uint16 => 65535
  | int32 => 2147483647
  | uint32 => 4294967295
  end.

Definition in_dtype (dt : dtype) (v : Z) : bool :=
  (dtype_min dt <=? v)%Z && (v <=? dtype_max dt)%Z.

(** The value of the type that differs from [v] by a multiple of
    [2 ^ bits]: what an operation on scalars of the type gives when its
    exact result is [v], and what storing [v] in an array of the type
    gives. *)
Definition wrap (dt : dtype) (v : Z) : Z :=
  ((v - dtype_min dt) mod 2 ^ dtype_bits dt + dtype_min dt)%Z.

Inductive py_exception : Type :=
| PyValueError (msg : string)
| PyTypeError (msg : string)
| PyIndexError (msg : string)
| PyOverflowError (msg : string).

Inductive attempt (X : Type) : Type :=
| Returned (x : X)
| Failed (e : py_exception).

Arguments Returned {X} x.
Arguments Failed {X} e.

(** The next statement runs when the previous one returned. *)
Definition and_then {X Y} (a : attempt X) (k : X -> attempt Y) : attempt Y :=
  match a with
  | Returned x => k x
  | Failed e => Failed e
  end.

Notation "x <~ a ;; k" := (and_then a (fun x => k))
  (at level 61, a at next level, right associativity).

(** What the model leaves open: the array [numpy.arange] returns for two
    scalars whose difference [stop - start] is outside their type. *)
Class NumpyArange : Type := {
  arange_of_wrapped_span : dtype -> Z -> Z -> positive -> attempt (list Z)
}.

(** A Python integer met by a scalar of type [dt]. *)
Definition python_int (dt : dtype) (n : positive) : attempt Z :=
  if in_dtype dt (Z.pos n) then Returned (Z.pos n)
  else Failed (PyOverflowError "Python integer out of bounds for the dtype").

(** [min(values)] and [max(values)] *)
Definition py_min (values : list Z) : attempt Z :=
  match values with
  | [] => Failed (PyValueError "min() arg is an empty sequence")
  | v :: rest => Returned (fold_left Z.min rest v)
  end.

Definition py_max (values : list Z) : attempt Z :=
  match values with
  | [] => Failed (PyValueError "max() arg is an empty sequence")
  | v :: rest => Returned (fold_left Z.max rest v)
  end.

(** [m] values from [start] on, [step] apart. *)
Definition grid (step : positive) (start : Z) (m : nat) : list Z :=
  map (fun n => (start + Z.of_nat n * Z.pos step)%Z) (seq 0 m).

(** [ceil((stop - start) / step)] values from [start] on, none when
    [stop <= start]. *)
Definition arange (start stop : Z) (step : positive) : list Z :=
  grid step start
       (Z.to_nat ((stop - start + Z.pos step - 1) / Z.pos step)).

(** [numpy.arange(start, stop, step)] for two scalars of type [dt] and a
    positive Python integer that the type holds: an array of 64-bit
    integers, [ceil((stop - start) / step)] of them. *)
Definition numpy_arange {NA : NumpyArange} (dt : dtype) (start stop : Z)
  (step : positive) : attempt (list Z) :=
  if in_dtype dt (stop - start) then Returned (arange start stop step)
  else arange_of_wrapped_span dt start stop step.

(** The sum of a list of counts. *)
Definition total (counts : list Z) : Z := fold_right Z.add 0%Z counts.

(** [bins[:-1] <= bins[1:]] everywhere, and the same with [>=]. *)
Fixpoint increasing (bins : list Z) : bool :=
  match bins with
  | a :: (b :: _) as rest => (a <=? b)%Z && increasing rest
  | _ => true
  end.

Fixpoint decreasing (bins : list Z) : bool :=
  match bins with
  | a :: (b :: _) as rest => (b <=? a)%Z && decreasing rest
  | _ => true
  end.

(** Whether [v] falls in bin [i] of [numpy.histogram]: every bin is closed
    on the left and open on the right, but the last one, closed on both
    sides. *)
Definition in_bin (edges : list Z) (i : nat) (v : Z) : bool :=
  (nth i edges 0 <=? v)%Z
  && (if S (S i) =? length edges then (v <=? nth (S i) edges 0)%Z
      else (v <? nth (S i) edges 0)%Z).

(** [numpy.histogram(values, bins=edges)] for an array of edges. *)
Definition numpy_histogram (values edges : list Z)
  : attempt (list Z * list Z) :=
  if increasing edges then
    Returned
      (map (fun i => Z.of_nat (length (filter (in_bin edges i) values)))
           (seq 0 (length edges - 1)),
       edges)
  else Failed (PyValueError "bins must increase monotonically.").

(** [getHistogram]: both bounds are computed on scalars of the type of the
    values; when [arange] gives one edge, [binedges] becomes the integer 1,
    and [len(binedges)] among the arguments of the logging call raises. *)
Definition getHistogram {NA : NumpyArange} (dt : dtype) (binwidth : positive)
  (parameterValues : list Z) : attempt (list Z * list Z) :=
  mn <~ py_min parameterValues ;;
  b <~ python_int dt binwidth ;;
  let lowBound := wrap dt (mn - mn mod b)%Z in
  mx <~ py_max parameterValues ;;
  let highBound := wrap dt (mx + b)%Z in
  binedges <~ numpy_arange dt lowBound highBound binwidth ;;
  if length binedges =? 1 then
    Failed (PyTypeError "object of type 'int' has no len()")
  else numpy_histogram parameterValues binedges.

(** [parameterMatrix[coordinates]] *)
Definition take_at (matrix : list Z) (coordinates : list nat)
  : attempt (list Z) :=
  if forallb (fun p => p <? length matrix) coordinates then
    Returned (map (fun p => nth p matrix 0%Z) coordinates)
  else Failed (PyIndexError "index out of bounds").

Fixpoint set_nth (l : list Z) (p : nat) (v : Z) : list Z :=
  match l, p with
  | [], _ => []
  | _ :: rest, O => v :: rest
  | x :: rest, S p' => x :: set_nth rest p' v
  end.

(** [parameterMatrix[coordinates] = values], one position after the
    other. *)
Definition put_at (matrix : list Z) (coordinates : list nat)
  (values : list Z) : list Z :=
  fold_left (fun m pv => set_nth m (fst pv) (snd pv))
            (combine coordinates values) matrix.

(** [edges[-1] += 1] *)
Definition increment_last (edges : list Z) : attempt (list Z) :=
  match rev edges with
  | [] => Failed (PyIndexError "index -1 is out of bounds")
  | last :: front => Returned (rev front ++ [(last + 1)%Z])
  end.

(** [numpy.digitize(values, bins)]: for increasing bins the number of
    edges at most the value, for decreasing bins the number of edges above
    it. *)
Definition digitize (values bins : list Z) : attempt (list Z) :=
  if increasing bins then
    Returned (map (fun v => Z.of_nat
                              (length (filter (fun e => (e <=? v)%Z) bins)))
                  values)
  else if decreasing bins then
    Returned (map (fun v => Z.of_nat
                              (length (filter (fun e => (v <? e)%Z) bins)))
                  values)
  else Failed (PyValueError "bins must be monotonically increasing or decreasing").

(** [binImage]: the matrix it returns is the one it was given, changed in
    place, the levels stored in its type; the edges of the histogram it
    returns have their last one incremented. *)
Definition binImage {NA : NumpyArange} (dt : dtype) (binwidth : positive)
  (parameterMatrix : list Z) (parameterMatrixCoordinates : list nat)
  : attempt (list Z * (list Z * list Z)) :=
  values <~ take_at parameterMatrix parameterMatrixCoordinates ;;
  histogram <~ getHistogram dt binwidth values ;;
  edges <~ increment_last (snd histogram) ;;
  values' <~ take_at parameterMatrix parameterMatrixCoordinates ;;
  levels <~ digitize values' edges ;;
  Returned
    (put_at parameterMatrix parameterMatrixCoordinates
            (map (wrap dt) levels),
     (fst histogram, edges)).

(** The gray level [binImage] gives to the value [v] when the smallest
    value of the region is [mn] and there are [bins] bins. *)
Definition level_of (binwidth : positive) (mn : Z) (bins : nat) (v : Z) : Z :=
  Z.min (Z.of_nat bins)
        ((v - (mn - mn mod Z.pos binwidth)) / Z.pos binwidth + 1).

(** The first edge: the multiple of the bin width at or below the smallest
    value. *)
Definition lower_bound (binwidth : positive) (mn : Z) : Z :=
  (mn - mn mod Z.pos binwidth)%Z.

(** How many of the values have a given level. *)
Definition count_level (binwidth : positive) (mn : Z) (bins : nat)
  (values : list Z) (l : Z) : Z :=
  Z.of_nat
    (length (filter (fun v => (level_of binwidth mn bins v =? l)%Z) values)).

(** The values of the region: the matrix at the coordinates. *)
Definition region (matrix : list Z) (coordinates : list nat) : list Z :=
  map (fun p => nth p matrix 0%Z) coordinates.

(** The region is one value, a multiple of the bin width. *)
Definition flat_on_an_edge (binwidth : positive) (values : list Z) : Prop :=
  exists c, Forall (fun v => v = c) values /\ (c mod Z.pos binwidth = 0)%Z.

(** No operation on scalars wraps around when the smallest value is [mn]
    and the largest [mx]: the first edge, the bound past the largest value
    and their difference are in the type. *)
Definition no_wrap (dt : dtype) (binwidth : positive) (mn mx : Z) : Prop :=
  (dtype_min dt <= lower_bound binwidth mn
   /\ mx + Z.pos binwidth <= dtype_max dt
   /\ mx + Z.pos binwidth - lower_bound binwidth mn <= dtype_max dt)%Z.

(** An instance to evaluate the definitions on examples, none of which
    reaches it. *)
Module EmptyArange.

#[export] Instance numpy_arange_instance : NumpyArange := {
  arange_of_wrapped_span := fun _ _ _ _ => Returned []
}.

End EmptyArange.

(** ** Facts on lists *)

Unset Implicit Arguments.

Section ListFacts.

Context {X : Type}.

Lemma tab_length (n : nat) (f : nat -> X) : length (tab n f) = n.
Proof. unfold tab. now rewrite length_map, length_seq. Qed.

Lemma nth_tab (n i : nat) (f : nat -> X) (d : X) :
  i < n -> nth i (tab n f) d = f i.
Proof.
  intros Hi. unfold tab.
  rewrite (nth_indep _ d (f 0)) by now rewrite length_map, length_seq.
  rewrite (map_nth f (seq 0 n) 0 i), seq_nth by assumption. reflexivity.
Qed.

Lemma tab_ext (n : nat) (f g : nat -> X) :
  (forall i, i < n -> f i = g i) -> tab n f = tab n g.
Proof.
  intros E. unfold tab. apply map_ext_in.
  intros i Hi. apply in_seq in Hi. apply E. lia.
Qed.

Lemma seq_from (n m : nat) : seq n m = map (fun i => n + i) (seq 0 m).
Proof.
  induction n as [|n IH].
  - now rewrite map_id.
  - rewrite <- seq_shift, IH, map_map. reflexivity.
Qed.

Lemma tab_app (n m : nat) (f : nat -> X) :
  tab (n + m) f = tab n f ++ tab m (fun i => f (n + i)).
Proof.
  unfold tab. rewrite seq_app, map_app. f_equal.
  simpl. now rewrite seq_from, map_map.
Qed.

Lemma tab_S (n : nat) (f : nat -> X) :
  tab (S n) f = f 0 :: tab n (fun i => f (S i)).
Proof. exact (tab_app 1 n f). Qed.

Lemma tab_nth_id (n : nat) (l : list X) (d : X) :
  length l = n -> tab n (fun i => nth i l d) = l.
Proof.
  revert n. induction l as [|x l IH]; intros n E; subst n; simpl.
  - reflexivity.
  - rewrite tab_S. f_equal. now apply IH.
Qed.

Lemma Forall_tab (P : X -> Prop) (n : nat) (f : nat -> X) :
  (forall i, i < n -> P (f i)) -> Forall P (tab n f).
Proof.
  intros E. apply Forall_forall. intros x Hx.
  apply in_map_iff in Hx. destruct Hx as (i & <- & Hi).
  apply in_seq in Hi. apply E. lia.
Qed.

End ListFacts.

Section ConcatFacts.

Context {X : Type}.

Lemma concat_uniform_length (m : nat) (rows : list (list X)) :
  uniform m rows -> length (concat rows) = length rows * m.
Proof.
  induction 1 as [|r rows Hr _ IH]; simpl.
  - reflexivity.
  - rewrite length_app, IH, Hr. reflexivity.
Qed.

Lemma nth_concat_uniform (m : nat) (rows : list (list X)) (r i : nat) (d : X) :
  uniform m rows -> i < m ->
  nth (r * m + i) (concat rows) d = nth i (nth r rows []) d.
Proof.
  intros U Hi. revert r. induction U as [|row rows Hrow _ IH]; intros r.
  - simpl. destruct r, i; simpl; try reflexivity;
      now destruct (_ + _).
  - destruct r as [|r]; simpl.
    + apply app_nth1. lia.
    + rewrite app_nth2 by lia.
      replace (m + r * m + i - length row) with (r * m + i) by lia.
      apply IH.
Qed.

Lemma concat_chunks (m count : nat) (l : list X) :
  length l = count * m -> concat (chunks m count l) = l.
Proof.
  revert l. induction count as [|c IH]; intros l E.
  - destruct l; [reflexivity | discriminate].
  - unfold chunks. rewrite tab_S. simpl.
    transitivity (firstn m l ++ skipn m l); [|apply firstn_skipn].
    f_equal.
    rewrite <- (IH (skipn m l)).
    + f_equal. apply tab_ext. intros r _.
      now rewrite skipn_skipn, (Nat.add_comm (r * m)).
    + rewrite length_skipn. lia.
Qed.

End ConcatFacts.

Lemma map_tab {X Y} (g : X -> Y) (n : nat) (f : nat -> X) :
  map g (tab n f) = tab n (fun i => g (f i)).
Proof. unfold tab. now rewrite map_map. Qed.

Section Lines3Facts.

Context {X : Type}.

Lemma lines3_uniform (s0 s1 : nat) (R : nat -> nat -> X) :
  uniform s1 (tab s0 (fun x0 => tab s1 (fun x1 => R x0 x1))).
Proof. apply Forall_tab. intros. apply tab_length. Qed.

Lemma lines3_length (s0 s1 : nat) (R : nat -> nat -> X) :
  length (lines3 s0 s1 R) = s0 * s1.
Proof.
  unfold lines3.
  now rewrite (concat_uniform_length s1), tab_length by apply lines3_uniform.
Qed.

Lemma nth_lines3 (s0 s1 : nat) (R : nat -> nat -> X) (k j : nat) (d : X) :
  k < s0 -> j < s1 -> nth (k * s1 + j) (lines3 s0 s1 R) d = R k j.
Proof.
  intros Hk Hj. unfold lines3.
  rewrite nth_concat_uniform by (apply lines3_uniform || assumption).
  now rewrite nth_tab, nth_tab.
Qed.

Lemma lines3_ext (s0 s1 : nat) (R R' : nat -> nat -> X) :
  (forall k j, k < s0 -> j < s1 -> R k j = R' k j) ->
  lines3 s0 s1 R = lines3 s0 s1 R'.
Proof.
  intros E. unfold lines3. f_equal.
  apply tab_ext. intros k Hk. apply tab_ext. intros j Hj. now apply E.
Qed.

Lemma Forall_lines3 (P : X -> Prop) (s0 s1 : nat) (R : nat -> nat -> X) :
  (forall k j, k < s0 -> j < s1 -> P (R k j)) -> Forall P (lines3 s0 s1 R).
Proof.
  intros E. unfold lines3. apply Forall_concat, Forall_tab.
  intros k Hk. apply Forall_tab. intros j Hj. now apply E.
Qed.

Lemma lines3_tab (s0 s1 : nat) (R : nat -> nat -> X) :
  lines3 s0 s1 R = tab (s0 * s1) (fun r => R (r / s1) (r mod s1)).
Proof.
  revert R. induction s0 as [|s0 IH]; intros R.
  - reflexivity.
  - unfold lines3. rewrite tab_S. simpl.
    fold (lines3 s0 s1 (fun k => R (S k))).
    rewrite IH, tab_app. f_equal.
    + apply tab_ext. intros r Hr.
      now rewrite Nat.div_small, Nat.mod_small.
    + apply tab_ext. intros r Hr.
      assert (s1 <> 0) by (intros ->; lia).
      replace (s1 + r) with (r + 1 * s1) by lia.
      now rewrite Nat.div_add, Nat.Div0.mod_add, Nat.add_1_r.
Qed.

Lemma firstn_skipn_tab (m o : nat) (l : list X) (d : X) :
  o + m <= length l ->
  firstn m (skipn o l) = tab m (fun i => nth (o + i) l d).
Proof.
  intros E.
  rewrite <- (tab_nth_id m (firstn m (skipn o l)) d).
  - apply tab_ext. intros i Hi.
    now rewrite nth_firstn, (proj2 (Nat.ltb_lt i m) Hi), nth_skipn.
  - rewrite length_firstn, length_skipn. lia.
Qed.

End Lines3Facts.

Lemma map_lines3 {X Y} (g : X -> Y) (s0 s1 : nat) (R : nat -> nat -> X) :
  map g (lines3 s0 s1 R) = lines3 s0 s1 (fun k j => g (R k j)).
Proof.
  unfold lines3. rewrite concat_map, map_tab. f_equal.
  apply tab_ext. intros. apply map_tab.
Qed.

(** ** Facts on the monad and on arrays *)

Section ArrayFacts.

Context {C : Collaborators}.

Lemma bind_ret_l {X Y} (x : X) (f : X -> M Y) : bind (ret x) f = f x.
Proof. unfold bind, ret. now destruct (f x). Qed.

Lemma bind_ok {X Y} (calls : list (list Sample)) (x : X) (f : X -> M Y) :
  bind (calls, Ok x) f = (calls ++ calls_of (f x), outcome (f x)).
Proof. unfold bind. now destruct (f x). Qed.

Lemma runs_ret {X} (x : X) : runs_to (ret x) x.
Proof. split; [reflexivity | constructor]. Qed.

Lemma runs_bind {X Y} (m : M X) (f : X -> M Y) (x : X) (y : Y) :
  runs_to m x -> runs_to (f x) y -> runs_to (bind m f) y.
Proof.
  destruct m as [calls r]. intros [E1 F1] [E2 F2].
  simpl in E1. subst r. rewrite bind_ok. split.
  - exact E2.
  - apply Forall_app. split; assumption.
Qed.

Lemma tabulate3_length (s0 s1 s2 : nat) (f : nat -> nat -> nat -> Sample) :
  length (tabulate3 s0 s1 s2 f) = s0 * s1 * s2.
Proof.
  unfold tabulate3. rewrite (concat_uniform_length s2), lines3_length.
  - reflexivity.
  - apply Forall_lines3. intros. apply tab_length.
Qed.

Lemma tabulate3_ext (s0 s1 s2 : nat) (f g : nat -> nat -> nat -> Sample) :
  (forall k j i, k < s0 -> j < s1 -> i < s2 -> f k j i = g k j i) ->
  tabulate3 s0 s1 s2 f = tabulate3 s0 s1 s2 g.
Proof.
  intros E. unfold tabulate3. f_equal. apply lines3_ext.
  intros k j Hk Hj. apply tab_ext. intros i Hi. now apply E.
Qed.

Lemma nth_tabulate3 (s0 s1 s2 : nat) (f : nat -> nat -> nat -> Sample)
  (k j i : nat) :
  k < s0 -> j < s1 -> i < s2 ->
  nth ((k * s1 + j) * s2 + i) (tabulate3 s0 s1 s2 f) zero = f k j i.
Proof.
  intros Hk Hj Hi. unfold tabulate3.
  rewrite nth_concat_uniform.
  - now rewrite nth_lines3, nth_tab.
  - apply Forall_lines3. intros. apply tab_length.
  - assumption.
Qed.

Lemma get3_tabulate3 (s0 s1 s2 : nat) (f : nat -> nat -> nat -> Sample)
  (k j i : nat) :
  k < s0 -> j < s1 -> i < s2 ->
  get3 (mk_ndarray [s0; s1; s2] (tabulate3 s0 s1 s2 f)) k j i = f k j i.
Proof. intros. unfold get3, shape_at. simpl. now apply nth_tabulate3. Qed.

Lemma wf3_tabulate3 (s0 s1 s2 : nat) (f : nat -> nat -> nat -> Sample) :
  wf3 s0 s1 s2 (mk_ndarray [s0; s1; s2] (tabulate3 s0 s1 s2 f)).
Proof. split; [reflexivity | apply tabulate3_length]. Qed.

(** The lines [chain.from_iterable] gives are the lines along axis i. *)
Lemma chain_lines (s0 s1 s2 : nat) (a : ndarray) :
  wf3 s0 s1 s2 a -> chain_from_iterable a = lines3 s0 s1 (line_i a).
Proof.
  intros [Hs Hl]. unfold chain_from_iterable, chunks, line_i, get3, shape_at.
  rewrite Hs. simpl. rewrite lines3_tab. apply tab_ext. intros r Hr.
  rewrite (firstn_skipn_tab s2 (r * s2) (flat a) zero) by nia.
  apply tab_ext. intros i Hi. do 2 f_equal.
  rewrite (Nat.div_mod_eq r s1) at 1. lia.
Qed.

Lemma chain_tabulate3 (s0 s1 s2 : nat) (f : nat -> nat -> nat -> Sample) :
  chain_from_iterable (mk_ndarray [s0; s1; s2] (tabulate3 s0 s1 s2 f))
  = lines3 s0 s1 (fun k j => tab s2 (fun i => f k j i)).
Proof.
  rewrite (chain_lines s0 s1 s2) by apply wf3_tabulate3.
  apply lines3_ext. intros k j Hk Hj. unfold line_i, shape_at. simpl.
  apply tab_ext. intros i Hi. now apply get3_tabulate3.
Qed.

End ArrayFacts.

(** ** The axis decomposers work line by line *)

Section Decomposers.

Context {C : Collaborators}.

(** The 1D transform keeps the length of an even line. *)
Hypothesis swt_length : forall (w : Wavelet) (x : list Sample),
  Nat.even (length x) = true ->
  length (swt_cA w x) = length x /\ length (swt_cD w x) = length x.

Lemma swt_lines_eq (arrays : list (list Sample)) (w : Wavelet)
  (H L : list (list Sample)) :
  Forall even_line arrays -> Forall (fun x => 0 < length x) arrays ->
  swt_lines arrays w H L
  = (arrays, Ok (H ++ map (swt_cD w) arrays, L ++ map (swt_cA w) arrays)).
Proof.
  intros F. revert H L. induction F as [|x arrays Hx _ IH]; intros H L P.
  - simpl. now rewrite !app_nil_r.
  - inversion P as [|x' arrays' Px P']; subst x' arrays'.
    cbn [swt_lines]. unfold pywt_swt. red in Hx.
    rewrite <- Nat.negb_even, Hx. cbn [negb].
    rewrite (proj2 (Nat.eqb_neq (length x) 0)) by lia.
    rewrite bind_ok, IH by exact P'. cbn [calls_of outcome fst snd app].
    now rewrite <- !app_assoc.
Qed.

Lemma hstack_eq (arrays : list (list Sample)) :
  0 < length arrays -> hstack arrays = ret (concat arrays).
Proof. destruct arrays; simpl; [lia | reflexivity]. Qed.

Lemma reshape_eq (x : list Sample) (sh : list nat) :
  length x = size_of sh -> reshape x sh = ret (mk_ndarray sh x).
Proof. intros E. unfold reshape. now rewrite (proj2 (Nat.eqb_eq _ _) E). Qed.

(** The lines of one length [m], transformed, then read back entry by
    entry, give the buffer of the transformed array. *)
Lemma concat_map_lines3 (s0 s1 m : nat) (f : list Sample -> list Sample)
  (R : nat -> nat -> list Sample) :
  (forall k j, k < s0 -> j < s1 -> length (f (R k j)) = m) ->
  concat (map f (lines3 s0 s1 R))
  = tabulate3 s0 s1 m (fun k j i => nth i (f (R k j)) zero).
Proof.
  intros E. unfold tabulate3. f_equal. rewrite map_lines3.
  apply lines3_ext. intros k j Hk Hj. symmetry.
  apply tab_nth_id. now apply E.
Qed.

Lemma line_i_length (s0 s1 s2 : nat) (a : ndarray) (k j : nat) :
  wf3 s0 s1 s2 a -> length (line_i a k j) = s2.
Proof. intros [Hs _]. unfold line_i, shape_at. rewrite Hs. apply tab_length. Qed.

Lemma line_j_length (s0 s1 s2 : nat) (a : ndarray) (k i : nat) :
  wf3 s0 s1 s2 a -> length (line_j a k i) = s1.
Proof. intros [Hs _]. unfold line_j, shape_at. rewrite Hs. apply tab_length. Qed.

Lemma line_k_length (s0 s1 s2 : nat) (a : ndarray) (j i : nat) :
  wf3 s0 s1 s2 a -> length (line_k a j i) = s0.
Proof. intros [Hs _]. unfold line_k, shape_at. rewrite Hs. apply tab_length. Qed.

Lemma decompose_i_eq (s0 s1 s2 : nat) (data : ndarray) (w : Wavelet) :
  wf3 s0 s1 s2 data -> 0 < s0 -> 0 < s1 -> 0 < s2 -> Nat.even s2 = true ->
  _decompose_i data w
  = (lines3 s0 s1 (line_i data),
     Ok (along_i (swt_cD w) data, along_i (swt_cA w) data)).
Proof.
  intros W H0 H1 H2 E2. pose proof W as [Hs Hl].
  assert (EL : forall k j, even_line (line_i data k j)).
  { intros. red. now rewrite (line_i_length s0 s1 s2). }
  assert (PL : forall k j, 0 < length (line_i data k j)).
  { intros. now rewrite (line_i_length s0 s1 s2). }
  assert (LA : forall k j, k < s0 -> j < s1 ->
            length (swt_cA w (line_i data k j)) = s2).
  { intros. rewrite (proj1 (swt_length _ _ (EL _ _))).
    now apply (line_i_length s0 s1 s2). }
  assert (LD : forall k j, k < s0 -> j < s1 ->
            length (swt_cD w (line_i data k j)) = s2).
  { intros. rewrite (proj2 (swt_length _ _ (EL _ _))).
    now apply (line_i_length s0 s1 s2). }
  unfold _decompose_i. rewrite (chain_lines s0 s1 s2), Hs by assumption.
  rewrite swt_lines_eq
    by (apply Forall_lines3; intros; first [apply EL | apply PL]).
  rewrite bind_ok. cbn [app].
  repeat first
    [ rewrite bind_ret_l
    | rewrite hstack_eq by (rewrite length_map, lines3_length; nia)
    | rewrite (concat_map_lines3 s0 s1 s2 _ _ LA)
    | rewrite (concat_map_lines3 s0 s1 s2 _ _ LD)
    | rewrite reshape_eq by (rewrite tabulate3_length; simpl; lia) ].
  unfold along_i, shape_at. rewrite Hs. simpl.
  now rewrite app_nil_r.
Qed.

Lemma transpose_021_eq (s0 s1 s2 : nat) (a : ndarray) :
  shape a = [s0; s1; s2] ->
  transpose_021 a
  = ret (mk_ndarray [s0; s2; s1]
           (tabulate3 s0 s2 s1 (fun k i j => get3 a k j i))).
Proof. intros Hs. unfold transpose_021. now rewrite Hs. Qed.

Lemma transpose_021_tabulate3 (s0 s1 s2 : nat)
  (f : nat -> nat -> nat -> Sample) :
  transpose_021 (mk_ndarray [s0; s1; s2] (tabulate3 s0 s1 s2 f))
  = ret (mk_ndarray [s0; s2; s1]
           (tabulate3 s0 s2 s1 (fun k i j => f k j i))).
Proof.
  rewrite (transpose_021_eq s0 s1 s2) by reflexivity. do 2 f_equal.
  apply tabulate3_ext. intros. now apply get3_tabulate3.
Qed.

Lemma decompose_j_eq (s0 s1 s2 : nat) (data : ndarray) (w : Wavelet) :
  wf3 s0 s1 s2 data -> 0 < s0 -> 0 < s1 -> 0 < s2 -> Nat.even s1 = true ->
  _decompose_j data w
  = (lines3 s0 s2 (line_j data),
     Ok (along_j (swt_cD w) data, along_j (swt_cA w) data)).
Proof.
  intros W H0 H1 H2 E1. pose proof W as [Hs Hl].
  assert (EL : forall k i, even_line (line_j data k i)).
  { intros. red. now rewrite (line_j_length s0 s1 s2). }
  assert (PL : forall k i, 0 < length (line_j data k i)).
  { intros. now rewrite (line_j_length s0 s1 s2). }
  assert (LA : forall k i, k < s0 -> i < s2 ->
            length (swt_cA w (line_j data k i)) = s1).
  { intros. rewrite (proj1 (swt_length _ _ (EL _ _))).
    now apply (line_j_length s0 s1 s2). }
  assert (LD : forall k i, k < s0 -> i < s2 ->
            length (swt_cD w (line_j data k i)) = s1).
  { intros. rewrite (proj2 (swt_length _ _ (EL _ _))).
    now apply (line_j_length s0 s1 s2). }
  unfold _decompose_j.
  rewrite (transpose_021_eq s0 s1 s2), bind_ret_l, chain_tabulate3, Hs
    by assumption.
  replace (lines3 s0 s2 (fun k j => tab s1 (fun i => get3 data k i j)))
    with (lines3 s0 s2 (line_j data))
    by (unfold line_j, shape_at; now rewrite Hs).
  rewrite swt_lines_eq
    by (apply Forall_lines3; intros; first [apply EL | apply PL]).
  rewrite bind_ok. cbn [app nth].
  repeat first
    [ rewrite bind_ret_l
    | rewrite hstack_eq by (rewrite length_map, lines3_length; nia)
    | rewrite (concat_map_lines3 s0 s2 s1 _ _ LA)
    | rewrite (concat_map_lines3 s0 s2 s1 _ _ LD)
    | rewrite reshape_eq by (rewrite tabulate3_length; simpl; lia)
    | rewrite transpose_021_tabulate3 ].
  unfold along_j, shape_at. rewrite Hs. simpl.
  now rewrite app_nil_r.
Qed.

Lemma transpose_210_eq (s0 s1 s2 : nat) (a : ndarray) :
  shape a = [s0; s1; s2] ->
  transpose_210 a
  = ret (mk_ndarray [s2; s1; s0]
           (tabulate3 s2 s1 s0 (fun i j k => get3 a k j i))).
Proof. intros Hs. unfold transpose_210. now rewrite Hs. Qed.

Lemma T_tabulate3 (s0 s1 s2 : nat) (f : nat -> nat -> nat -> Sample) :
  T (mk_ndarray [s0; s1; s2] (tabulate3 s0 s1 s2 f))
  = mk_ndarray [s2; s1; s0] (tabulate3 s2 s1 s0 (fun i j k => f k j i)).
Proof.
  unfold T. simpl. f_equal.
  apply tabulate3_ext. intros. now apply get3_tabulate3.
Qed.

Lemma vstack_eq (m : nat) (arrays : list (list Sample)) :
  uniform m arrays -> 0 < length arrays ->
  vstack arrays = ret (mk_ndarray [length arrays; m] (concat arrays)).
Proof.
  intros U Hn. destruct arrays as [|x rest]; [simpl in Hn; lia|].
  inversion U as [|? ? Hx Hrest]; subst. unfold vstack.
  replace (forallb (fun y => length y =? length x) rest) with true.
  - reflexivity.
  - symmetry. apply forallb_forall. intros y Hy. apply Nat.eqb_eq.
    now rewrite (proj1 (Forall_forall _ _) Hrest y Hy).
Qed.

Lemma asarray_tab (n : nat) (sh : list nat) (g : nat -> list Sample) :
  0 < n ->
  asarray (tab n (fun s => mk_ndarray sh (g s)))
  = mk_ndarray (n :: sh) (concat (tab n g)).
Proof.
  intros Hn. destruct n as [|n]; [lia|].
  unfold asarray. rewrite !tab_S. cbn [shape length map flat concat].
  now rewrite tab_length, map_tab.
Qed.

Lemma numpy_split_eq (sections r c : nat) (l : list Sample) :
  0 < sections ->
  numpy_split (mk_ndarray [sections * r; c] l) sections
  = ret (tab sections (fun s =>
           mk_ndarray [r; c] (firstn (r * c) (skipn (s * (r * c)) l)))).
Proof.
  intros Hs. unfold numpy_split. cbn [shape flat].
  destruct (Nat.eqb_spec sections 0) as [->|_]; [lia|].
  rewrite (Nat.mul_comm sections r), Nat.Div0.mod_mul, Nat.div_mul by lia.
  cbn [Nat.eqb size_of fold_right]. now rewrite Nat.mul_1_r.
Qed.

(** The parts of an equal split, stacked again, read the same buffer as a
    3D array. *)
Lemma asarray_chunks (sections r c : nat) (l : list Sample) :
  0 < sections -> length l = sections * (r * c) ->
  asarray (tab sections (fun s =>
             mk_ndarray [r; c] (firstn (r * c) (skipn (s * (r * c)) l))))
  = mk_ndarray [sections; r; c] l.
Proof.
  intros Hs Hl. rewrite asarray_tab by assumption. f_equal.
  now apply (concat_chunks (r * c) sections l).
Qed.

Lemma decompose_k_eq (s0 s1 s2 : nat) (data : ndarray) (w : Wavelet) :
  wf3 s0 s1 s2 data -> 0 < s0 -> 0 < s1 -> 0 < s2 -> Nat.even s0 = true ->
  _decompose_k data w
  = (lines3 s2 s1 (fun i j => line_k data j i),
     Ok (along_k (swt_cD w) data, along_k (swt_cA w) data)).
Proof.
  intros W H0 H1 H2 E0. pose proof W as [Hs Hl].
  assert (EL : forall i j, even_line (line_k data j i)).
  { intros. red. now rewrite (line_k_length s0 s1 s2). }
  assert (PL : forall i j, 0 < length (line_k data j i)).
  { intros. now rewrite (line_k_length s0 s1 s2). }
  assert (LA : forall i j, i < s2 -> j < s1 ->
            length (swt_cA w (line_k data j i)) = s0).
  { intros. rewrite (proj1 (swt_length _ _ (EL _ _))).
    now apply (line_k_length s0 s1 s2). }
  assert (LD : forall i j, i < s2 -> j < s1 ->
            length (swt_cD w (line_k data j i)) = s0).
  { intros. rewrite (proj2 (swt_length _ _ (EL _ _))).
    now apply (line_k_length s0 s1 s2). }
  unfold _decompose_k.
  rewrite (transpose_210_eq s0 s1 s2), bind_ret_l, chain_tabulate3
    by assumption.
  replace (lines3 s2 s1 (fun k j => tab s0 (fun i => get3 data i j k)))
    with (lines3 s2 s1 (fun i j => line_k data j i))
    by (unfold line_k, shape_at; now rewrite Hs).
  rewrite swt_lines_eq
    by (apply Forall_lines3; intros; first [apply EL | apply PL]).
  rewrite bind_ok. cbn [app].
  replace (shape_at data 2) with s2 by (unfold shape_at; now rewrite Hs).
  repeat first
    [ rewrite bind_ret_l
    | rewrite (vstack_eq s0), length_map, lines3_length
        by first [ rewrite length_map, lines3_length; nia
                 | rewrite map_lines3; apply Forall_lines3; assumption ]
    | rewrite (concat_map_lines3 s2 s1 s0 _ _ LA)
    | rewrite (concat_map_lines3 s2 s1 s0 _ _ LD)
    | rewrite numpy_split_eq by assumption
    | rewrite asarray_chunks by (rewrite ?tabulate3_length; lia)
    | rewrite T_tabulate3 ].
  unfold along_k, shape_at. rewrite Hs. simpl.
  now rewrite app_nil_r.
Qed.

(** ** One level and the loops over levels *)

Lemma runs_of_eq {X} (m : M X) (calls : list (list Sample)) (x : X) :
  m = (calls, Ok x) -> Forall even_line calls -> runs_to m x.
Proof. intros -> F. split; [reflexivity | exact F]. Qed.

Lemma along_i_wf (s0 s1 s2 : nat) f (data : ndarray) :
  wf3 s0 s1 s2 data -> wf3 s0 s1 s2 (along_i f data).
Proof.
  intros [Hs _]. unfold along_i, shape_at. rewrite Hs. apply wf3_tabulate3.
Qed.

Lemma along_j_wf (s0 s1 s2 : nat) f (data : ndarray) :
  wf3 s0 s1 s2 data -> wf3 s0 s1 s2 (along_j f data).
Proof.
  intros [Hs _]. unfold along_j, shape_at. rewrite Hs. apply wf3_tabulate3.
Qed.

Lemma along_k_wf (s0 s1 s2 : nat) f (data : ndarray) :
  wf3 s0 s1 s2 data -> wf3 s0 s1 s2 (along_k f data).
Proof.
  intros [Hs _]. unfold along_k, shape_at. rewrite Hs. apply wf3_tabulate3.
Qed.

Lemma subband_wf (s0 s1 s2 : nat) (w : Wavelet) (bi bj bk : band)
  (data : ndarray) :
  wf3 s0 s1 s2 data -> wf3 s0 s1 s2 (subband w bi bj bk data).
Proof. intros W. now apply along_k_wf, along_j_wf, along_i_wf. Qed.

Section OneLevel.

Variables (s0 s1 s2 : nat) (w : Wavelet).
Hypothesis ES : even_shape s0 s1 s2.

Lemma decompose_i_runs (data : ndarray) :
  wf3 s0 s1 s2 data ->
  runs_to (_decompose_i data w)
          (along_i (swt_cD w) data, along_i (swt_cA w) data).
Proof.
  intros W. destruct ES as [(? & ? & ?) (? & ? & ?)].
  apply (runs_of_eq _ _ _ (decompose_i_eq s0 s1 s2 data w W
                             ltac:(assumption) ltac:(assumption)
                             ltac:(assumption) ltac:(assumption))).
  apply Forall_lines3. intros. red. now rewrite (line_i_length s0 s1 s2).
Qed.

Lemma decompose_j_runs (data : ndarray) :
  wf3 s0 s1 s2 data ->
  runs_to (_decompose_j data w)
          (along_j (swt_cD w) data, along_j (swt_cA w) data).
Proof.
  intros W. destruct ES as [(? & ? & ?) (? & ? & ?)].
  apply (runs_of_eq _ _ _ (decompose_j_eq s0 s1 s2 data w W
                             ltac:(assumption) ltac:(assumption)
                             ltac:(assumption) ltac:(assumption))).
  apply Forall_lines3. intros. red. now rewrite (line_j_length s0 s1 s2).
Qed.

Lemma decompose_k_runs (data : ndarray) :
  wf3 s0 s1 s2 data ->
  runs_to (_decompose_k data w)
          (along_k (swt_cD w) data, along_k (swt_cA w) data).
Proof.
  intros W. destruct ES as [(? & ? & ?) (? & ? & ?)].
  apply (runs_of_eq _ _ _ (decompose_k_eq s0 s1 s2 data w W
                             ltac:(assumption) ltac:(assumption)
                             ltac:(assumption) ltac:(assumption))).
  apply Forall_lines3. intros. red. now rewrite (line_k_length s0 s1 s2).
Qed.

(** One step of a run: the next call is a decomposer on a well-formed
    array, or the end of the body. *)
Ltac run_step :=
  first
    [ eapply runs_bind;
      [ first [ apply decompose_i_runs | apply decompose_j_runs
              | apply decompose_k_runs ];
        repeat first [ assumption | apply along_i_wf | apply along_j_wf
                     | apply along_k_wf ]
      | cbv beta iota ]
    | apply runs_ret ].

Lemma warmup_body_runs (data : ndarray) :
  wf3 s0 s1 s2 data ->
  runs_to (warmup_body data w) (subband w Low Low Low data).
Proof. intros W. unfold warmup_body. repeat run_step. Qed.

Lemma warmup_loop_runs (levels : list Z) (data : ndarray) :
  wf3 s0 s1 s2 data ->
  runs_to (warmup_loop levels data w)
          (Nat.iter (length levels) (subband w Low Low Low) data).
Proof.
  revert data. induction levels as [|l levels IH]; intros data W.
  - apply runs_ret.
  - cbn [warmup_loop length]. rewrite Nat.iter_succ_r.
    eapply runs_bind; [now apply warmup_body_runs|].
    now apply IH, subband_wf.
Qed.

Lemma iter_subband_wf (n : nat) (data : ndarray) :
  wf3 s0 s1 s2 data ->
  wf3 s0 s1 s2 (Nat.iter n (subband w Low Low Low) data).
Proof.
  intros W. induction n as [|n IH]; [exact W|]. now apply subband_wf.
Qed.

Variable inputImage : Image.

Lemma CopyInformation_eq (a : ndarray) :
  CopyInformation
    (GetImageFromArray
       (numpy_resize a (shape (GetArrayFromImage inputImage))))
    inputImage
  = ret (emitted inputImage a).
Proof.
  unfold CopyInformation, emitted, GetImageFromArray, GetArrayFromImage.
  cbn [pixels]. unfold numpy_resize.
  destruct (_ || _); cbn [shape];
    (destruct (list_eq_dec _ _ _) as [_|N]; [reflexivity | now destruct N]).
Qed.

Lemma images_of_dict_eq (dec : dict ndarray) :
  images_of_dict dec (shape (GetArrayFromImage inputImage)) inputImage
  = ret (map (fun e => (fst e, emitted inputImage (snd e))) dec).
Proof.
  induction dec as [|[decName decImage] dec IH].
  - reflexivity.
  - cbn [images_of_dict]. now rewrite CopyInformation_eq, bind_ret_l, IH.
Qed.

Lemma emission_body_runs (data : ndarray) :
  wf3 s0 s1 s2 data ->
  runs_to (emission_body data w (shape (GetArrayFromImage inputImage))
                         inputImage)
          (subband w Low Low Low data, level_result inputImage w data).
Proof.
  intros W. unfold emission_body. do 7 run_step.
  rewrite images_of_dict_eq, bind_ret_l. apply runs_ret.
Qed.

Lemma emission_loop_runs (levels : list Z) (data : ndarray)
  (acc : list (dict Image)) :
  wf3 s0 s1 s2 data ->
  runs_to (emission_loop levels data w
             (shape (GetArrayFromImage inputImage)) inputImage acc)
          (Nat.iter (length levels) (subband w Low Low Low) data,
           acc ++ map (fun n => level_result inputImage w
                                  (Nat.iter n (subband w Low Low Low) data))
                      (seq 0 (length levels))).
Proof.
  revert data acc. induction levels as [|l levels IH]; intros data acc W.
  - cbn. rewrite app_nil_r. apply runs_ret.
  - cbn [emission_loop length]. rewrite Nat.iter_succ_r.
    eapply runs_bind; [now apply emission_body_runs|]. cbv beta iota.
    replace (acc ++ map _ (seq 0 (S (length levels))))
      with ((acc ++ [level_result inputImage w data])
              ++ map (fun n => level_result inputImage w
                          (Nat.iter n (subband w Low Low Low)
                             (subband w Low Low Low data)))
                     (seq 0 (length levels))).
    + now apply IH, subband_wf.
    + rewrite <- app_assoc. f_equal. cbn [seq map Nat.iter app]. f_equal.
      rewrite <- seq_shift, map_map. apply map_ext. intros n.
      now rewrite Nat.iter_succ_r.
Qed.

End OneLevel.

(** ** The whole of [_swt3] *)

Lemma adjust_even (dim : nat) : Nat.even (adjust dim) = true.
Proof.
  unfold adjust. destruct (Nat.odd dim) eqn:E.
  - now rewrite Nat.add_1_r, Nat.even_succ.
  - now rewrite <- Nat.negb_odd, E.
Qed.

Lemma adjust_pos (dim : nat) : 1 <= dim -> 0 < adjust dim.
Proof. unfold adjust. destruct (Nat.odd dim); lia. Qed.

Lemma adjust_even_shape (d0 d1 d2 : nat) :
  1 <= d0 -> 1 <= d1 -> 1 <= d2 ->
  even_shape (adjust d0) (adjust d1) (adjust d2).
Proof.
  intros. repeat split; first [now apply adjust_pos | apply adjust_even].
Qed.

Lemma ndarray_resize_length (a : ndarray) (sh : list nat) :
  length (flat (ndarray_resize a sh)) = size_of sh.
Proof.
  unfold ndarray_resize. cbn [flat].
  rewrite length_app, length_firstn, repeat_length. lia.
Qed.

Lemma padded_wf (inputImage : Image) (d0 d1 d2 : nat) :
  shape (GetArrayFromImage inputImage) = [d0; d1; d2] ->
  wf3 (adjust d0) (adjust d1) (adjust d2) (padded inputImage).
Proof.
  intros Hs. unfold padded. split.
  - unfold ndarray_resize. cbn [shape]. now rewrite Hs.
  - rewrite ndarray_resize_length, Hs. cbn. fold (adjust d0) (adjust d1)
      (adjust d2). lia.
Qed.

Lemma range_length (a b : Z) : length (range a b) = Z.to_nat (b - a).
Proof. unfold range. now rewrite length_map, length_seq. Qed.

Lemma swt3_runs (inputImage : Image) (wavelet : wavelet_arg) (w : Wavelet)
  (level start_level : Z) :
  valid_shape (shape (GetArrayFromImage inputImage)) ->
  resolve_wavelet wavelet = ret w ->
  runs_to (_swt3 inputImage wavelet level start_level)
    (approximation_of inputImage w (Z.to_nat start_level) (Z.to_nat level),
     levels_of inputImage w (Z.to_nat start_level) (Z.to_nat level)).
Proof.
  intros (d0 & d1 & d2 & Hs & P0 & P1 & P2) Hw.
  pose proof (adjust_even_shape d0 d1 d2 P0 P1 P2) as ES.
  pose proof (padded_wf inputImage d0 d1 d2 Hs) as W.
  unfold _swt3, ndim. rewrite Hs. cbn [length Nat.eqb negb].
  rewrite Hw, bind_ret_l, <- Hs. fold (padded inputImage).
  eapply runs_bind; [now apply (warmup_loop_runs _ _ _ _ ES)|].
  rewrite range_length, Z.sub_0_r.
  eapply runs_bind.
  { apply (emission_loop_runs _ _ _ _ ES). now apply iter_subband_wf. }
  cbv beta iota. rewrite range_length, CopyInformation_eq, bind_ret_l.
  replace (start_level + level - start_level)%Z with level by lia.
  unfold approximation_of, levels_of, working. cbn [app].
  rewrite (Nat.add_comm (Z.to_nat start_level)), Nat.iter_add.
  replace (map _ (seq 0 (Z.to_nat level)))
    with (map (fun n => level_result inputImage w
                 (Nat.iter (Z.to_nat start_level + n)
                    (subband w Low Low Low) (padded inputImage)))
              (seq 0 (Z.to_nat level))).
  - apply runs_ret.
  - apply map_ext. intros n.
    now rewrite (Nat.add_comm (Z.to_nat start_level)), Nat.iter_add.
Qed.

Lemma swt3_not_3d (inputImage : Image) (wavelet : wavelet_arg)
  (level start_level : Z) :
  ndim (GetArrayFromImage inputImage) <> 3 ->
  _swt3 inputImage wavelet level start_level
  = ([], Raise (ValueError "Expected 3D data array")).
Proof.
  intros N. unfold _swt3.
  now rewrite (proj2 (Nat.eqb_neq _ _) N).
Qed.

(** ** The generator *)

Lemma run_frame_yield_level (idx : nat) (wl : dict Image) (kw : kwargs)
  (rest : frame) :
  run_frame (yield_level idx wl kw rest)
  = (map (fun e => (snd e, detail_identifier idx (fst e), kw)) wl
       ++ fst (run_frame rest),
     snd (run_frame rest)).
Proof.
  induction wl as [|[name image] wl IH]; cbn [yield_level map app].
  - now destruct (run_frame rest).
  - cbn [run_frame]. now rewrite IH.
Qed.

Lemma run_frame_yield_levels (inputImage : Image) (w : Wavelet)
  (kw : kwargs) (start count base : nat) (rest : frame) :
  run_frame
    (yield_levels (S base)
       (map (fun n => level_result inputImage w
                        (working inputImage w (start + n)))
            (seq base count))
       kw rest)
  = (flat_map (fun m => map (detail_item inputImage w kw start m)
                            detail_bands)
              (seq base count)
       ++ fst (run_frame rest),
     snd (run_frame rest)).
Proof.
  revert base. induction count as [|count IH]; intros base.
  - cbn. now destruct (run_frame rest).
  - cbn [seq map yield_levels flat_map].
    rewrite run_frame_yield_level, IH. cbn [fst snd].
    rewrite <- app_assoc. reflexivity.
Qed.

Lemma levels_of_length (inputImage : Image) (w : Wavelet)
  (start count : nat) :
  length (levels_of inputImage w start count) = count.
Proof. unfold levels_of. now rewrite length_map, length_seq. Qed.

Lemma body_eq (inputImage : Image) (kw : kwargs) (w : Wavelet) :
  valid_shape (shape (GetArrayFromImage inputImage)) ->
  resolve_wavelet (kwargs_get (kw_wavelet kw) (WaveletName "coif1"))
  = ret w ->
  run_frame (getWaveletImage_body inputImage kw)
  = (expected_items inputImage w kw
       (Z.to_nat (kwargs_get (kw_start_level kw) 0%Z))
       (Z.to_nat (kwargs_get (kw_level kw) 1%Z)),
     None).
Proof.
  intros V Hw. unfold getWaveletImage_body.
  rewrite (proj1 (swt3_runs inputImage _ w _ _ V Hw)).
  rewrite levels_of_length. unfold levels_of.
  now rewrite run_frame_yield_levels.
Qed.

End Decomposers.

(** ** The claims of the specification *)

Section Claims.

Context {C : Collaborators}.

(** The 1D transform keeps the length of an even line. *)
Hypothesis swt_length : forall (w : Wavelet) (x : list Sample),
  Nat.even (length x) = true ->
  length (swt_cA w x) = length x /\ length (swt_cD w x) = length x.

Lemma emitted_shape (inputImage : Image) (a : ndarray) :
  shape (pixels (emitted inputImage a))
  = shape (GetArrayFromImage inputImage).
Proof.
  unfold emitted, numpy_resize. cbn [pixels]. now destruct (_ || _).
Qed.

Lemma exhaust_eq (inputImage : Image) (kw : kwargs) (w : Wavelet) :
  valid_shape (shape (GetArrayFromImage inputImage)) ->
  resolve_wavelet (kwargs_get (kw_wavelet kw) (WaveletName "coif1"))
  = ret w ->
  exhaust (getWaveletImage inputImage kw)
  = (expected_items inputImage w kw
       (Z.to_nat (kwargs_get (kw_start_level kw) 0%Z))
       (Z.to_nat (kwargs_get (kw_level kw) 1%Z)),
     None).
Proof. intros V Hw. cbn [exhaust getWaveletImage]. now apply body_eq. Qed.

Lemma repeats_cover (n len : nat) :
  0 < len -> n <= (n + len - 1) / len * len.
Proof.
  intros P. pose proof (Nat.div_mod_eq (n + len - 1) len) as D.
  pose proof (Nat.mod_upper_bound (n + len - 1) len ltac:(lia)) as U.
  rewrite (Nat.mul_comm _ len). lia.
Qed.

(** Whatever the array, [numpy.resize] gives a buffer of the size of the
    new shape. *)
Lemma numpy_resize_length (a : ndarray) (sh : list nat) :
  length (flat (numpy_resize a sh)) = size_of sh.
Proof.
  unfold numpy_resize.
  destruct (Nat.eqb_spec (length (flat a)) 0) as [E0|N0]; cbn [orb flat].
  - apply repeat_length.
  - destruct (Nat.eqb_spec (size_of sh) 0) as [E1|N1]; cbn [flat].
    + apply repeat_length.
    + rewrite length_firstn. apply Nat.min_l.
      rewrite (concat_uniform_length (length (flat a))).
      * rewrite repeat_length. apply repeats_cover. lia.
      * apply Forall_forall. intros r Hr. now rewrite (repeat_spec _ _ _ Hr).
Qed.

Lemma emitted_size (inputImage : Image) (a : ndarray) :
  length (flat (pixels (emitted inputImage a)))
  = size_of (shape (GetArrayFromImage inputImage)).
Proof. unfold emitted. cbn [pixels]. apply numpy_resize_length. Qed.

(** C2: for a 3D input without an empty dimension and a wavelet that
    resolves, the run ends without an exception and every volume it emits,
    detail sub-band or approximation, has the shape of the input, not the
    padded one, a buffer of exactly as many samples as that shape holds,
    and the metadata of the input. *)
Theorem emitted_volumes_keep_shape_and_metadata
  (inputImage : Image) (kw : kwargs) (w : Wavelet) :
  valid_shape (shape (GetArrayFromImage inputImage)) ->
  resolve_wavelet (kwargs_get (kw_wavelet kw) (WaveletName "coif1"))
  = ret w ->
  snd (exhaust (getWaveletImage inputImage kw)) = None
  /\ fst (exhaust (getWaveletImage inputImage kw)) <> []
  /\ Forall (fun x : item =>
               shape (pixels (item_volume x))
               = shape (GetArrayFromImage inputImage)
               /\ length (flat (pixels (item_volume x)))
                  = size_of (shape (GetArrayFromImage inputImage))
               /\ info (item_volume x) = info inputImage)
            (fst (exhaust (getWaveletImage inputImage kw))).
Proof.
  intros V Hw. rewrite (exhaust_eq inputImage kw w V Hw). cbn [fst snd].
  split; [reflexivity|]. split.
  - unfold expected_items. intros E. now apply app_eq_nil in E.
  - unfold expected_items. apply Forall_app. split.
    + apply Forall_flat_map, Forall_forall. intros m _.
      apply Forall_map, Forall_forall. intros [[bi bj] bk] _.
      cbn [detail_item item_volume fst].
      split; [apply emitted_shape | split; [apply emitted_size | reflexivity]].
    + constructor; [|constructor].
      cbn [approximation_item item_volume fst].
      split; [apply emitted_shape | split; [apply emitted_size | reflexivity]].
Qed.

(** C3: a run of [level = n >= 0] levels yields exactly [7 n + 1] items:
    for each emitted level in increasing order its seven detail items, then
    once, as the last item, the approximation. *)
Theorem level_count_law (inputImage : Image) (kw : kwargs) (w : Wavelet) :
  valid_shape (shape (GetArrayFromImage inputImage)) ->
  resolve_wavelet (kwargs_get (kw_wavelet kw) (WaveletName "coif1"))
  = ret w ->
  (0 <= kwargs_get (kw_level kw) 1)%Z ->
  let start := Z.to_nat (kwargs_get (kw_start_level kw) 0%Z) in
  let n := Z.to_nat (kwargs_get (kw_level kw) 1%Z) in
  exists details approx,
    exhaust (getWaveletImage inputImage kw) = (details ++ [approx], None)
    /\ Z.of_nat (length (details ++ [approx]))
       = (7 * kwargs_get (kw_level kw) 1 + 1)%Z
    /\ length details = 7 * n
    /\ details
       = flat_map (fun m => map (detail_item inputImage w kw start m)
                                detail_bands)
                  (seq 0 n)
    /\ approx = approximation_item inputImage w kw start n.
Proof.
  intros V Hw Hl start n.
  assert (L : forall k base,
             length (flat_map
                       (fun m => map (detail_item inputImage w kw start m)
                                     detail_bands)
                       (seq base k)) = 7 * k).
  { induction k as [|k IH]; intros base; [reflexivity|].
    cbn [seq flat_map]. rewrite length_app, IH, length_map. cbn. lia. }
  exists (flat_map (fun m => map (detail_item inputImage w kw start m)
                                detail_bands) (seq 0 n)),
         (approximation_item inputImage w kw start n).
  split; [now apply exhaust_eq|].
  split; [|split; [apply L | split; reflexivity]].
  rewrite length_app, L. cbn [length]. subst n. lia.
Qed.

(** C4: every level [_swt3] returns carries exactly the seven labels HHH,
    HHL, HLH, HLL, LHH, LHL, LLH, each once and never LLL, and under each
    label the trimmed sub-band of that label of the level's input, a detail
    sub-band; the all-low sub-band of a level's input is under no label: it
    is the input of the next level and, after the last level, the
    approximation. *)
Theorem subband_completeness (inputImage : Image) (wavelet : wavelet_arg)
  (w : Wavelet) (level start_level : Z) :
  valid_shape (shape (GetArrayFromImage inputImage)) ->
  resolve_wavelet wavelet = ret w ->
  exists approx levels,
    outcome (_swt3 inputImage wavelet level start_level)
    = Ok (approx, levels)
    /\ length levels = Z.to_nat level
    /\ Forall (fun wl : dict Image =>
                 Permutation (map fst wl) seven_labels
                 /\ NoDup (map fst wl)
                 /\ ~ In "LLL"%string (map fst wl))
              levels
    /\ (forall m, m < Z.to_nat level ->
          let data := working inputImage w (Z.to_nat start_level + m) in
          nth m levels []
          = [("HHH"%string,
              emitted inputImage (subband w High High High data));
             ("HHL"%string,
              emitted inputImage (subband w High High Low data));
             ("HLH"%string,
              emitted inputImage (subband w High Low High data));
             ("HLL"%string,
              emitted inputImage (subband w High Low Low data));
             ("LHH"%string,
              emitted inputImage (subband w Low High High data));
             ("LHL"%string,
              emitted inputImage (subband w Low High Low data));
             ("LLH"%string,
              emitted inputImage (subband w Low Low High data))])
    /\ (forall n, working inputImage w (S n)
                  = subband w Low Low Low (working inputImage w n))
    /\ approx
       = emitted inputImage
           (working inputImage w (Z.to_nat start_level + Z.to_nat level)).
Proof.
  intros V Hw.
  destruct (swt3_runs swt_length inputImage wavelet w level start_level V Hw)
    as [E _].
  eexists _, _. split; [exact E|].
  split; [apply levels_of_length|]. split; [|split; [|split; reflexivity]].
  2:{ intros m Hm data. unfold levels_of.
      rewrite (nth_indep _ []
                 (level_result inputImage w
                    (working inputImage w (Z.to_nat start_level + 0))))
        by now rewrite length_map, length_seq.
      rewrite (map_nth (fun n => level_result inputImage w
                                   (working inputImage w
                                      (Z.to_nat start_level + n)))).
      rewrite seq_nth by exact Hm. reflexivity. }
  unfold levels_of. apply Forall_map, Forall_forall. intros n _.
  change (map fst (level_result inputImage w
                     (working inputImage w (Z.to_nat start_level + n))))
    with seven_labels.
  split; [reflexivity|]. split.
  - unfold seven_labels.
    repeat (constructor; [cbn; intuition discriminate|]). constructor.
  - cbn. intuition discriminate.
Qed.

Lemma expected_identifiers (inputImage : Image) (w : Wavelet) (kw : kwargs)
  (start count base : nat) :
  map item_identifier
      (flat_map (fun m => map (detail_item inputImage w kw start m)
                              detail_bands)
                (seq base count))
  = flat_map (fun idx => map (detail_identifier idx) seven_labels)
             (seq (S base) count).
Proof.
  revert base. induction count as [|count IH]; intros base.
  - reflexivity.
  - cbn [seq flat_map]. rewrite map_app, IH. reflexivity.
Qed.

(** C5: with [level = n >= 0], the detail item of label [l] of the emitted
    level [idx], counted from 1 whatever [start_level] is, is named
    ["wavelet-" + l] when [idx = 1] and ["wavelet" + idx + "-" + l]
    otherwise; the last item is named ["wavelet-LLL"] when [n = 1] and
    ["wavelet" + n + "-LLL"] otherwise. *)
Theorem naming_law (inputImage : Image) (kw : kwargs) (w : Wavelet) :
  valid_shape (shape (GetArrayFromImage inputImage)) ->
  resolve_wavelet (kwargs_get (kw_wavelet kw) (WaveletName "coif1"))
  = ret w ->
  (0 <= kwargs_get (kw_level kw) 1)%Z ->
  let n := Z.to_nat (kwargs_get (kw_level kw) 1%Z) in
  Z.of_nat n = kwargs_get (kw_level kw) 1%Z
  /\ map item_identifier (fst (exhaust (getWaveletImage inputImage kw)))
  = flat_map
      (fun idx =>
         map (fun l => if idx =? 1 then ("wavelet-" ++ l)%string
                       else ("wavelet" ++ str_of_nat idx ++ "-" ++ l)%string)
             seven_labels)
      (seq 1 n)
    ++ [if n =? 1 then "wavelet-LLL"%string
        else ("wavelet" ++ str_of_nat n ++ "-LLL")%string].
Proof.
  intros V Hw Hl n. split; [subst n; lia|].
  rewrite (exhaust_eq inputImage kw w V Hw). cbn [fst].
  unfold expected_items. rewrite map_app, expected_identifiers.
  reflexivity.
Qed.

Lemma get3_along_i (s0 s1 s2 : nat) f (data : ndarray) (k j i : nat) :
  wf3 s0 s1 s2 data -> k < s0 -> j < s1 -> i < s2 ->
  get3 (along_i f data) k j i = nth i (f (line_i data k j)) zero.
Proof.
  intros [Hs _] Hk Hj Hi. unfold along_i, shape_at. rewrite Hs. cbn [nth].
  now rewrite get3_tabulate3.
Qed.

Lemma get3_along_j (s0 s1 s2 : nat) f (data : ndarray) (k j i : nat) :
  wf3 s0 s1 s2 data -> k < s0 -> j < s1 -> i < s2 ->
  get3 (along_j f data) k j i = nth j (f (line_j data k i)) zero.
Proof.
  intros [Hs _] Hk Hj Hi. unfold along_j, shape_at. rewrite Hs. cbn [nth].
  now rewrite get3_tabulate3.
Qed.

Lemma get3_along_k (s0 s1 s2 : nat) f (data : ndarray) (k j i : nat) :
  wf3 s0 s1 s2 data -> k < s0 -> j < s1 -> i < s2 ->
  get3 (along_k f data) k j i = nth k (f (line_k data j i)) zero.
Proof.
  intros [Hs _] Hk Hj Hi. unfold along_k, shape_at. rewrite Hs. cbn [nth].
  now rewrite get3_tabulate3.
Qed.

(** C6: on a working array (3D, every dimension even and not empty) each
    decomposer returns the detail array first and the approximation array
    second, and transforms the lines along its own axis: [_decompose_i]
    the lines [data[k, j, :]], [_decompose_j] the lines [data[k, :, i]],
    [_decompose_k] the lines [data[:, j, i]].  One level applies them in
    the order i, j, k, and the volume under a label is the one whose first
    letter is the outcome along i, second along j, third along k, with H
    the detail and L the approximation coefficients. *)
Theorem composition_order_and_labels (s0 s1 s2 : nat) (data : ndarray)
  (w : Wavelet) (inputImage : Image) :
  wf3 s0 s1 s2 data -> even_shape s0 s1 s2 ->
  let D_i := along_i (swt_cD w) in let A_i := along_i (swt_cA w) in
  let D_j := along_j (swt_cD w) in let A_j := along_j (swt_cA w) in
  let D_k := along_k (swt_cD w) in let A_k := along_k (swt_cA w) in
  (outcome (_decompose_i data w) = Ok (D_i data, A_i data)
   /\ outcome (_decompose_j data w) = Ok (D_j data, A_j data)
   /\ outcome (_decompose_k data w) = Ok (D_k data, A_k data))
  /\ (forall f k j i, k < s0 -> j < s1 -> i < s2 ->
        get3 (along_i f data) k j i = nth i (f (line_i data k j)) zero
        /\ get3 (along_j f data) k j i = nth j (f (line_j data k i)) zero
        /\ get3 (along_k f data) k j i = nth k (f (line_k data j i)) zero)
  /\ outcome (warmup_body data w) = Ok (A_k (A_j (A_i data)))
  /\ outcome (emission_body data w (shape (GetArrayFromImage inputImage))
                            inputImage)
     = Ok (A_k (A_j (A_i data)),
           [("HHH"%string, emitted inputImage (D_k (D_j (D_i data))));
            ("HHL"%string, emitted inputImage (A_k (D_j (D_i data))));
            ("HLH"%string, emitted inputImage (D_k (A_j (D_i data))));
            ("HLL"%string, emitted inputImage (A_k (A_j (D_i data))));
            ("LHH"%string, emitted inputImage (D_k (D_j (A_i data))));
            ("LHL"%string, emitted inputImage (A_k (D_j (A_i data))));
            ("LLH"%string, emitted inputImage (D_k (A_j (A_i data))))]).
Proof.
  intros W ES D_i A_i D_j A_j D_k A_k. split; [|split; [|split]].
  - split; [|split].
    + apply (decompose_i_runs swt_length s0 s1 s2 w ES data W).
    + apply (decompose_j_runs swt_length s0 s1 s2 w ES data W).
    + apply (decompose_k_runs swt_length s0 s1 s2 w ES data W).
  - intros f k j i Hk Hj Hi. split; [|split].
    + now apply (get3_along_i s0 s1 s2).
    + now apply (get3_along_j s0 s1 s2).
    + now apply (get3_along_k s0 s1 s2).
  - apply (warmup_body_runs swt_length s0 s1 s2 w ES data W).
  - apply (emission_body_runs swt_length s0 s1 s2 w ES inputImage data W).
Qed.

(** C7: on an input whose array is not 3D, [_swt3] raises
    [ValueError("Expected 3D data array")] without having passed any line
    to the 1D transform, and the run of the generator raises it without
    having yielded any item. *)
Theorem shape_error (inputImage : Image) (kw : kwargs)
  (wavelet : wavelet_arg) (level start_level : Z) :
  ndim (GetArrayFromImage inputImage) <> 3 ->
  outcome (_swt3 inputImage wavelet level start_level)
  = Raise (ValueError "Expected 3D data array")
  /\ calls_of (_swt3 inputImage wavelet level start_level) = []
  /\ exhaust (getWaveletImage inputImage kw)
     = ([], Some (ValueError "Expected 3D data array")).
Proof.
  intros N. rewrite swt3_not_3d by assumption. repeat split.
  cbn [exhaust getWaveletImage]. unfold getWaveletImage_body.
  now rewrite swt3_not_3d.
Qed.

(** C9: calling [getWaveletImage] on an input whose array is not 3D only
    creates the generator; the first [next] raises
    [ValueError("Expected 3D data array")] and finishes the generator, which
    has then yielded no item and yields none later. *)
Theorem generator_raises_on_first_next (inputImage : Image) (kw : kwargs) :
  ndim (GetArrayFromImage inputImage) <> 3 ->
  getWaveletImage inputImage kw = Created inputImage kw
  /\ next (getWaveletImage inputImage kw)
     = (Raised (ValueError "Expected 3D data array"), Finished)
  /\ fst (exhaust (getWaveletImage inputImage kw)) = []
  /\ next (snd (next (getWaveletImage inputImage kw)))
     = (StopIteration, Finished).
Proof.
  intros N.
  assert (E : next (getWaveletImage inputImage kw)
              = (Raised (ValueError "Expected 3D data array"), Finished)).
  { cbn [next getWaveletImage]. unfold getWaveletImage_body.
    now rewrite swt3_not_3d. }
  split; [reflexivity|]. split; [exact E|]. split.
  - cbn [exhaust getWaveletImage]. unfold getWaveletImage_body.
    now rewrite swt3_not_3d.
  - now rewrite E.
Qed.

Lemma resolve_wavelet_cases (wavelet : wavelet_arg) :
  (exists w, resolve_wavelet wavelet = ret w)
  \/ resolve_wavelet wavelet = raise (ValueError "Invalid wavelet name.").
Proof.
  destruct wavelet as [name|w]; cbn.
  - destruct (pywt_Wavelet name) as [w|]; [left; now exists w | now right].
  - left. now exists w.
Qed.

(** C10: the padded shape of a 3D input without an empty dimension has only
    even dimensions, the working volume keeps that shape at every level,
    every line [_swt3] passes to the 1D transform, in the warm-up and in the
    emission levels, has even length, and the error of the transform on an
    odd length is never the outcome. *)
Theorem lines_passed_are_even (inputImage : Image) (wavelet : wavelet_arg)
  (level start_level : Z) :
  valid_shape (shape (GetArrayFromImage inputImage)) ->
  Forall (fun dim => Nat.even dim = true)
         (adjust_shape (shape (GetArrayFromImage inputImage)))
  /\ (forall w n, shape (working inputImage w n)
                  = adjust_shape (shape (GetArrayFromImage inputImage)))
  /\ even_calls (_swt3 inputImage wavelet level start_level)
  /\ outcome (_swt3 inputImage wavelet level start_level)
     <> Raise (ValueError "Length of data must be even.").
Proof.
  intros V. pose proof V as (d0 & d1 & d2 & Hs & P0 & P1 & P2).
  split; [|split].
  - rewrite Hs. cbn. repeat constructor; apply adjust_even.
  - intros w n. rewrite Hs.
    apply (iter_subband_wf _ _ _ w n (padded inputImage)
             (padded_wf inputImage d0 d1 d2 Hs)).
  - destruct (resolve_wavelet_cases wavelet) as [[w Hw]|Hw].
    + destruct (swt3_runs swt_length inputImage wavelet w level start_level
                  V Hw) as [E F].
      split; [exact F | now rewrite E].
    + unfold _swt3, ndim. rewrite Hs, Hw. cbn. split.
      * constructor.
      * discriminate.
Qed.

(** ** What trimming does to the place of a sample *)

Lemma numpy_resize_prefix (a : ndarray) (sh : list nat) :
  1 <= size_of sh -> size_of sh <= length (flat a) ->
  numpy_resize a sh = mk_ndarray sh (firstn (size_of sh) (flat a)).
Proof.
  intros H1 H2. unfold numpy_resize.
  destruct (Nat.eqb_spec (length (flat a)) 0) as [E|_]; [lia|].
  destruct (Nat.eqb_spec (size_of sh) 0) as [E|_]; [lia|]. cbn [orb].
  replace ((size_of sh + length (flat a) - 1) / length (flat a)) with 1.
  - cbn. now rewrite app_nil_r.
  - apply Nat.div_unique with (r := size_of sh - 1); lia.
Qed.

(** The trimmed volume reads the buffer of the working array with the
    strides of the original shape. *)
Lemma emitted_get3 (inputImage : Image) (a : ndarray) (d0 d1 d2 k j i : nat) :
  shape (GetArrayFromImage inputImage) = [d0; d1; d2] ->
  d0 * d1 * d2 <= length (flat a) ->
  k < d0 -> j < d1 -> i < d2 ->
  get3 (pixels (emitted inputImage a)) k j i
  = nth ((k * d1 + j) * d2 + i) (flat a) zero.
Proof.
  intros Hs Hl Hk Hj Hi. unfold emitted. cbn [pixels].
  assert (S : size_of [d0; d1; d2] = d0 * d1 * d2) by (cbn; lia).
  assert (P : 1 <= d0 * d1 * d2).
  { apply (Nat.le_trans _ (1 * 1 * 1)); [lia|].
    repeat apply Nat.mul_le_mono; lia. }
  assert (I : (k * d1 + j) * d2 + i < d0 * d1 * d2).
  { pose proof (Nat.mul_le_mono_r (k + 1) d0 d1 ltac:(lia)) as R.
    pose proof (Nat.mul_le_mono_r (k * d1 + j + 1) (d0 * d1) d2
                  ltac:(lia)) as R2.
    rewrite Nat.mul_add_distr_r in R2. lia. }
  rewrite numpy_resize_prefix; rewrite Hs, S; try assumption.
  unfold get3, shape_at. cbn [shape flat nth].
  rewrite nth_firstn.
  now rewrite (proj2 (Nat.ltb_lt _ _) I).
Qed.

(** When only the first dimension is odd, a trimmed volume holds at every
    place of the original shape the sample of the working array at the same
    place. *)
Lemma emitted_aligned_when_inner_dimensions_even
  (inputImage : Image) (a : ndarray) (d0 d1 d2 k j i : nat) :
  shape (GetArrayFromImage inputImage) = [d0; d1; d2] ->
  wf3 (adjust d0) (adjust d1) (adjust d2) a ->
  Nat.even d1 = true -> Nat.even d2 = true ->
  k < d0 -> j < d1 -> i < d2 ->
  get3 (pixels (emitted inputImage a)) k j i = get3 a k j i.
Proof.
  intros Hs [Ha Hl] E1 E2 Hk Hj Hi.
  assert (A1 : adjust d1 = d1)
    by (unfold adjust; now rewrite <- Nat.negb_even, E1).
  assert (A2 : adjust d2 = d2)
    by (unfold adjust; now rewrite <- Nat.negb_even, E2).
  assert (A0 : d0 <= adjust d0) by (unfold adjust; destruct (Nat.odd d0); lia).
  rewrite A1, A2 in *.
  rewrite (emitted_get3 inputImage a d0 d1 d2) by (assumption || nia).
  unfold get3, shape_at. now rewrite Ha.
Qed.

(** Exhausting a generator is asking for its items with [next] until it
    stops or raises. *)
Lemma exhaust_next (g : generator) :
  match next g with
  | (Item x, g') => exhaust g = (x :: fst (exhaust g'), snd (exhaust g'))
  | (StopIteration, _) => exhaust g = ([], None)
  | (Raised e, _) => exhaust g = ([], Some e)
  end.
Proof.
  assert (R : forall f, match resume f with
                        | (Item x, g') =>
                            run_frame f
                            = (x :: fst (exhaust g'), snd (exhaust g'))
                        | (StopIteration, _) => run_frame f = ([], None)
                        | (Raised e, _) => run_frame f = ([], Some e)
                        end).
  { intros [x rest| |e]; cbn; try reflexivity. now destruct (run_frame rest). }
  destruct g as [inputImage kw|rest|]; cbn [next exhaust].
  - apply R.
  - apply R.
  - reflexivity.
Qed.

End Claims.

(** ** Further properties of the wavelet run *)

Section WaveletRun.

Context {C : Collaborators}.

(** The 1D transform keeps the length of an even line. *)
Hypothesis swt_length : forall (w : Wavelet) (x : list Sample),
  Nat.even (length x) = true ->
  length (swt_cA w x) = length x /\ length (swt_cD w x) = length x.

Lemma adjust_ge (dim : nat) : dim <= adjust dim.
Proof. unfold adjust. destruct (Nat.odd dim); lia. Qed.

Lemma size_of_adjust_shape (sh : list nat) :
  size_of sh <= size_of (adjust_shape sh).
Proof.
  induction sh as [|d sh IH]; cbn [adjust_shape map size_of fold_right].
  - lia.
  - apply Nat.mul_le_mono; [apply adjust_ge | exact IH].
Qed.

(** Padding an array whose buffer has the size of its shape and trimming
    the result gives the array back. *)
Theorem trim_undoes_padding (inputImage : Image) :
  length (flat (GetArrayFromImage inputImage))
  = size_of (shape (GetArrayFromImage inputImage)) ->
  emitted inputImage (padded inputImage) = inputImage.
Proof.
  destruct inputImage as [[sh l] meta]. cbn [GetArrayFromImage pixels shape flat].
  intros E. unfold emitted, padded. cbn [GetArrayFromImage pixels shape info].
  f_equal. pose proof (size_of_adjust_shape sh) as G.
  assert (F : flat (ndarray_resize (mk_ndarray sh l) (adjust_shape sh))
              = l ++ repeat zero (size_of (adjust_shape sh) - size_of sh)).
  { unfold ndarray_resize. cbn [flat]. now rewrite firstn_all2, E by lia. }
  destruct (Nat.eq_dec (size_of sh) 0) as [Z0|NZ].
  - unfold numpy_resize. rewrite Z0, Nat.eqb_refl, orb_true_r. cbn.
    f_equal. destruct l; [reflexivity | cbn in E; lia].
  - rewrite numpy_resize_prefix.
    + f_equal. rewrite F, firstn_app, <- E, firstn_all, Nat.sub_diag.
      cbn. apply app_nil_r.
    + lia.
    + rewrite ndarray_resize_length. exact G.
Qed.

(** With no level requested the run still yields one item: the working
    volume after the warm-up levels, trimmed, under the name
    ["wavelet0-LLL"]. *)
Theorem no_level_yields_the_approximation_only
  (inputImage : Image) (kw : kwargs) (w : Wavelet) :
  valid_shape (shape (GetArrayFromImage inputImage)) ->
  resolve_wavelet (kwargs_get (kw_wavelet kw) (WaveletName "coif1"))
  = ret w ->
  (kwargs_get (kw_level kw) 1 <= 0)%Z ->
  exhaust (getWaveletImage inputImage kw)
  = ([(emitted inputImage
         (working inputImage w
            (Z.to_nat (kwargs_get (kw_start_level kw) 0%Z))),
       "wavelet0-LLL"%string, kw)],
     None).
Proof.
  intros V Hw Hl. rewrite (exhaust_eq swt_length inputImage kw w V Hw).
  replace (Z.to_nat (kwargs_get (kw_level kw) 1%Z)) with 0 by lia.
  unfold expected_items, approximation_item. cbn [seq flat_map app].
  now rewrite Nat.add_0_r.
Qed.

(** On a 3D input, a wavelet name PyWavelets does not know makes [_swt3]
    raise before any line is passed to the 1D transform, and the generator
    raise on its first [next] without having yielded an item. *)
Theorem unknown_wavelet_raises_before_any_transform
  (inputImage : Image) (kw : kwargs) (name : string) :
  ndim (GetArrayFromImage inputImage) = 3 ->
  kwargs_get (kw_wavelet kw) (WaveletName "coif1") = WaveletName name ->
  pywt_Wavelet name = None ->
  _swt3 inputImage (WaveletName name)
        (kwargs_get (kw_level kw) 1%Z) (kwargs_get (kw_start_level kw) 0%Z)
  = ([], Raise (ValueError "Invalid wavelet name."))
  /\ next (getWaveletImage inputImage kw)
     = (Raised (ValueError "Invalid wavelet name."), Finished)
  /\ exhaust (getWaveletImage inputImage kw)
     = ([], Some (ValueError "Invalid wavelet name.")).
Proof.
  intros N Ek Hn.
  assert (E : forall level start_level,
             _swt3 inputImage (WaveletName name) level start_level
             = ([], Raise (ValueError "Invalid wavelet name."))).
  { intros. unfold _swt3. rewrite N. cbn [Nat.eqb negb resolve_wavelet].
    now rewrite Hn. }
  split; [apply E|].
  cbn [next exhaust getWaveletImage]. unfold getWaveletImage_body.
  rewrite Ek, E. now split.
Qed.

Lemma run_frame_kwargs (levels : list (dict Image)) (idx : nat)
  (kw : kwargs) (rest : frame) :
  Forall (fun x : item => snd x = kw) (fst (run_frame rest)) ->
  Forall (fun x : item => snd x = kw)
         (fst (run_frame (yield_levels idx levels kw rest))).
Proof.
  intros F. revert idx.
  induction levels as [|wl levels IH]; intros idx; cbn [yield_levels].
  - exact F.
  - rewrite run_frame_yield_level. cbn [fst]. apply Forall_app. split.
    + apply Forall_map, Forall_forall. now intros.
    + apply IH.
Qed.

(** Whatever the input and the options are, every item the generator yields
    carries the options it was called with, unknown ones included. *)
Theorem options_are_passed_through (inputImage : Image) (kw : kwargs) :
  Forall (fun x : item => snd x = kw)
         (fst (exhaust (getWaveletImage inputImage kw))).
Proof.
  cbn [exhaust getWaveletImage]. unfold getWaveletImage_body.
  destruct (outcome _) as [[approx levels]|e].
  - apply run_frame_kwargs. cbn. now repeat constructor.
  - constructor.
Qed.

(** Asking for more levels only extends a run: the detail items of a run
    are, volume and identifier, the first items of every run on the same
    image with the same wavelet and start level and at least as many
    levels. *)
Theorem more_levels_extend_the_run
  (inputImage : Image) (kw1 kw2 : kwargs) (w : Wavelet) :
  valid_shape (shape (GetArrayFromImage inputImage)) ->
  resolve_wavelet (kwargs_get (kw_wavelet kw1) (WaveletName "coif1"))
  = ret w ->
  kwargs_get (kw_wavelet kw2) (WaveletName "coif1")
  = kwargs_get (kw_wavelet kw1) (WaveletName "coif1") ->
  kwargs_get (kw_start_level kw2) 0%Z = kwargs_get (kw_start_level kw1) 0%Z ->
  (0 <= kwargs_get (kw_level kw1) 1 <= kwargs_get (kw_level kw2) 1)%Z ->
  let n1 := Z.to_nat (kwargs_get (kw_level kw1) 1%Z) in
  length (fst (exhaust (getWaveletImage inputImage kw1))) = 7 * n1 + 1
  /\ firstn (7 * n1)
            (map observable (fst (exhaust (getWaveletImage inputImage kw1))))
     = firstn (7 * n1)
              (map observable (fst (exhaust (getWaveletImage inputImage kw2)))).
Proof.
  intros V Hw Ew Es Hl n1.
  rewrite (exhaust_eq swt_length inputImage kw1 w V Hw).
  rewrite (exhaust_eq swt_length inputImage kw2 w V) by now rewrite Ew.
  rewrite Es. cbn [fst]. fold n1.
  set (s := Z.to_nat (kwargs_get (kw_start_level kw1) 0%Z)).
  set (n2 := Z.to_nat (kwargs_get (kw_level kw2) 1%Z)).
  assert (L : forall kw k base,
             length (flat_map
                       (fun m => map (detail_item inputImage w kw s m)
                                     detail_bands)
                       (seq base k)) = 7 * k).
  { intros kw. induction k as [|k IH]; intros base; [reflexivity|].
    cbn [seq flat_map]. rewrite length_app, IH, length_map. cbn. lia. }
  assert (O : forall kw k base,
             map observable
                 (flat_map (fun m => map (detail_item inputImage w kw s m)
                                         detail_bands)
                           (seq base k))
             = map observable
                   (flat_map (fun m => map (detail_item inputImage w kw1 s m)
                                           detail_bands)
                             (seq base k))).
  { intros kw. induction k as [|k IH]; intros base; [reflexivity|].
    cbn [seq flat_map]. rewrite !map_app, IH. reflexivity. }
  unfold expected_items. split.
  - rewrite length_app, L. cbn. lia.
  - replace n2 with (n1 + (n2 - n1)) by (subst n1 n2; lia).
    rewrite seq_app, flat_map_app, !map_app, (O kw2).
    rewrite <- !app_assoc.
    rewrite !firstn_app, length_map, L, Nat.sub_diag. cbn [firstn].
    reflexivity.
Qed.

Lemma lines3_head {X} (s0 s1 : nat) (R : nat -> nat -> X) :
  0 < s0 -> 0 < s1 -> exists rest, lines3 s0 s1 R = R 0 0 :: rest.
Proof.
  intros H0 H1. destruct s0 as [|s0]; [lia|]. destruct s1 as [|s1]; [lia|].
  unfold lines3. rewrite tab_S. cbn [concat]. rewrite tab_S. cbn [app].
  now eexists.
Qed.

Lemma swt_lines_odd_head (x : list Sample) (rest : list (list Sample))
  (w : Wavelet) (H L : list (list Sample)) :
  Nat.odd (length x) = true ->
  swt_lines (x :: rest) w H L
  = ([x], Raise (ValueError "Length of data must be even.")).
Proof. intros O. cbn [swt_lines]. unfold pywt_swt. now rewrite O. Qed.

(** A decomposer refuses an array whose extent along its own axis is odd:
    the first line it passes to the 1D transform raises, and nothing else is
    transformed. *)
Theorem odd_extent_is_refused (ax : axis) (s0 s1 s2 : nat) (data : ndarray)
  (w : Wavelet) :
  wf3 s0 s1 s2 data -> 0 < s0 -> 0 < s1 -> 0 < s2 ->
  Nat.odd (extent ax data) = true ->
  outcome (decompose_along ax data w)
  = Raise (ValueError "Length of data must be even.")
  /\ length (calls_of (decompose_along ax data w)) = 1.
Proof.
  intros W H0 H1 H2 O. pose proof W as [Hs Hl].
  destruct ax; cbn [decompose_along extent] in *; unfold shape_at in O;
    rewrite Hs in O; cbn [nth] in O.
  - unfold _decompose_i. rewrite (chain_lines s0 s1 s2) by assumption.
    destruct (lines3_head s0 s1 (line_i data) H0 H1) as [rest ->].
    rewrite swt_lines_odd_head
      by now rewrite (line_i_length s0 s1 s2).
    now split.
  - unfold _decompose_j.
    rewrite (transpose_021_eq s0 s1 s2), bind_ret_l, chain_tabulate3
      by assumption.
    destruct (lines3_head s0 s2
                (fun k j => tab s1 (fun i => get3 data k i j)) H0 H2)
      as [rest ->].
    rewrite swt_lines_odd_head by now rewrite tab_length.
    now split.
  - unfold _decompose_k.
    rewrite (transpose_210_eq s0 s1 s2), bind_ret_l, chain_tabulate3
      by assumption.
    destruct (lines3_head s2 s1
                (fun k j => tab s0 (fun i => get3 data i j k)) H2 H1)
      as [rest ->].
    rewrite swt_lines_odd_head by now rewrite tab_length.
    now split.
Qed.

(** *** Identifiers never collide *)

Lemma string_length_append (a b : string) :
  String.length (a ++ b) = String.length a + String.length b.
Proof. induction a as [|c a IH]; cbn; [reflexivity | now rewrite IH]. Qed.

Lemma string_append_inj (a b c d : string) :
  String.length a = String.length b ->
  (a ++ c)%string = (b ++ d)%string -> a = b /\ c = d.
Proof.
  revert b. induction a as [|x a IH]; intros [|y b] E H; cbn in *;
    try discriminate.
  - now split.
  - injection H as -> H. injection E as E.
    destruct (IH b E H) as [-> ->]. now split.
Qed.

Lemma str_of_nat_inj (n m : nat) : str_of_nat n = str_of_nat m -> n = m.
Proof.
  assert (NN : forall k, Nat.to_uint k <> Decimal.Nil).
  { intros k E. pose proof (DecimalNat.Unsigned.of_to k) as Q.
    rewrite E in Q. cbn in Q. subst k. discriminate E. }
  unfold str_of_nat. intros E.
  apply (f_equal NilZero.uint_of_string) in E.
  rewrite !NilZero.usu in E by apply NN.
  injection E as E. now apply DecimalNat.Unsigned.to_uint_inj.
Qed.

Lemma str_of_nat_not_empty (n : nat) : str_of_nat n <> EmptyString.
Proof.
  unfold str_of_nat, NilZero.string_of_uint.
  destruct (Nat.to_uint n); discriminate.
Qed.

Lemma identifier_of_infix (p : nat * string) :
  identifier_of p
  = ("wavelet" ++ (level_infix (fst p) ++ ("-" ++ snd p)))%string.
Proof.
  destruct p as [idx l]. unfold identifier_of, detail_identifier, level_infix.
  cbn [fst snd]. now destruct (idx =? 1).
Qed.

Lemma level_infix_inj (n m : nat) : level_infix n = level_infix m -> n = m.
Proof.
  unfold level_infix.
  destruct (Nat.eqb_spec n 1) as [->|Hn], (Nat.eqb_spec m 1) as [->|Hm];
    intros E.
  - reflexivity.
  - now destruct (str_of_nat_not_empty m).
  - now destruct (str_of_nat_not_empty n).
  - now apply str_of_nat_inj.
Qed.

Lemma identifier_of_inj (p q : nat * string) :
  String.length (snd p) = 3 -> String.length (snd q) = 3 ->
  identifier_of p = identifier_of q -> p = q.
Proof.
  intros Lp Lq E. rewrite !identifier_of_infix in E.
  apply string_append_inj in E; [|reflexivity]. destruct E as [_ E].
  pose proof (f_equal String.length E) as EL.
  rewrite !string_length_append in EL. cbn [String.length] in EL.
  apply string_append_inj in E; [|lia]. destruct E as [E1 E2].
  injection E2 as E2. apply level_infix_inj in E1.
  destruct p, q; cbn in *; now subst.
Qed.

Lemma named_pairs_labels (n : nat) (p : nat * string) :
  In p (named_pairs n) -> String.length (snd p) = 3.
Proof.
  unfold named_pairs. intros H. apply in_app_or in H. destruct H as [H|H].
  - apply in_flat_map in H. destruct H as (idx & _ & H).
    apply in_map_iff in H. destruct H as (l & <- & H). cbn [snd].
    cbn in H. intuition (subst; reflexivity).
  - destruct H as [<-|[]]. reflexivity.
Qed.

Lemma NoDup_pairs_with (l : list nat) (labels : list string) :
  NoDup l -> NoDup labels ->
  NoDup (flat_map (fun idx => map (pair idx) labels) l).
Proof.
  intros Hl Hlabels. induction Hl as [|idx l Hidx _ IH]; cbn [flat_map].
  - constructor.
  - apply NoDup_app.
    + apply NoDup_map_NoDup_ForallPairs; [|assumption].
      now intros a b _ _ [= ->].
    + exact IH.
    + intros [a b] H1 H2. apply in_map_iff in H1.
      destruct H1 as (x & [= <- <-] & _). apply in_flat_map in H2.
      destruct H2 as (idx' & Hin & H2). apply in_map_iff in H2.
      destruct H2 as (y & [= -> _] & _). contradiction.
Qed.

Lemma named_pairs_NoDup (n : nat) : NoDup (named_pairs n).
Proof.
  unfold named_pairs. apply NoDup_app.
  - apply NoDup_pairs_with; [apply seq_NoDup|].
    unfold seven_labels.
    repeat (constructor; [cbn; intuition discriminate|]). constructor.
  - repeat constructor. intros [].
  - intros p H1 [<-|[]]. apply in_flat_map in H1.
    destruct H1 as (idx & _ & H1). apply in_map_iff in H1.
    destruct H1 as (l & [= _ ->] & H1). cbn in H1. intuition discriminate.
Qed.

Lemma expected_identifiers_named (inputImage : Image) (w : Wavelet)
  (kw : kwargs) (start count : nat) :
  map item_identifier (expected_items inputImage w kw start count)
  = map identifier_of (named_pairs count).
Proof.
  unfold expected_items, named_pairs.
  rewrite !map_app, expected_identifiers. f_equal.
  generalize 1. induction count as [|count IH]; intros base.
  - reflexivity.
  - cbn [seq flat_map]. rewrite map_app, <- IH. reflexivity.
Qed.

(** No two items of a run have the same identifier. *)
Theorem identifiers_are_distinct (inputImage : Image) (kw : kwargs)
  (w : Wavelet) :
  valid_shape (shape (GetArrayFromImage inputImage)) ->
  resolve_wavelet (kwargs_get (kw_wavelet kw) (WaveletName "coif1"))
  = ret w ->
  snd (exhaust (getWaveletImage inputImage kw)) = None
  /\ NoDup (map item_identifier
                (fst (exhaust (getWaveletImage inputImage kw)))).
Proof.
  intros V Hw. rewrite (exhaust_eq swt_length inputImage kw w V Hw).
  cbn [fst snd]. split; [reflexivity|].
  rewrite expected_identifiers_named.
  apply NoDup_map_NoDup_ForallPairs; [|apply named_pairs_NoDup].
  intros p q Hp Hq. apply identifier_of_inj; now apply named_pairs_labels
    with (n := Z.to_nat (kwargs_get (kw_level kw) 1%Z)).
Qed.

(** *** When trimming keeps every sample in place *)

Lemma expected_volumes (inputImage : Image) (w : Wavelet) (kw : kwargs)
  (start count : nat) :
  map item_volume (expected_items inputImage w kw start count)
  = map (emitted inputImage) (working_arrays inputImage w start count).
Proof.
  unfold expected_items, working_arrays. rewrite !map_app. f_equal.
  generalize 0. induction count as [|count IH]; intros base.
  - reflexivity.
  - cbn [seq flat_map]. rewrite !map_app, IH. reflexivity.
Qed.

Lemma working_arrays_wf (inputImage : Image) (w : Wavelet)
  (start count d0 d1 d2 : nat) :
  shape (GetArrayFromImage inputImage) = [d0; d1; d2] ->
  Forall (wf3 (adjust d0) (adjust d1) (adjust d2))
         (working_arrays inputImage w start count).
Proof.
  intros Hs.
  assert (W : forall n, wf3 (adjust d0) (adjust d1) (adjust d2)
                            (working inputImage w n)).
  { intros n. apply iter_subband_wf. now apply padded_wf. }
  unfold working_arrays. apply Forall_app. split.
  - apply Forall_flat_map, Forall_forall. intros m _.
    apply Forall_map, Forall_forall. intros [[bi bj] bk] _.
    apply subband_wf, W.
  - constructor; [apply W | constructor].
Qed.

(** When the two inner dimensions are even, so that only the first one may
    be padded, the padded volume holds the input at the places of the input
    and zeros in the added slice, and every volume of the run holds at every
    place of the input shape the sample the transform computed at that
    place. *)
Theorem samples_stay_in_place_when_inner_dimensions_even
  (inputImage : Image) (kw : kwargs) (w : Wavelet) (d0 d1 d2 : nat) :
  shape (GetArrayFromImage inputImage) = [d0; d1; d2] ->
  length (flat (GetArrayFromImage inputImage)) = d0 * d1 * d2 ->
  1 <= d0 -> 1 <= d1 -> 1 <= d2 ->
  Nat.even d1 = true -> Nat.even d2 = true ->
  resolve_wavelet (kwargs_get (kw_wavelet kw) (WaveletName "coif1"))
  = ret w ->
  let arrays :=
    working_arrays inputImage w
      (Z.to_nat (kwargs_get (kw_start_level kw) 0%Z))
      (Z.to_nat (kwargs_get (kw_level kw) 1%Z)) in
  (forall k j i, k < adjust d0 -> j < d1 -> i < d2 ->
     get3 (padded inputImage) k j i
     = if k <? d0 then get3 (GetArrayFromImage inputImage) k j i else zero)
  /\ map item_volume (fst (exhaust (getWaveletImage inputImage kw)))
     = map (emitted inputImage) arrays
  /\ Forall (fun a => forall k j i, k < d0 -> j < d1 -> i < d2 ->
               get3 (pixels (emitted inputImage a)) k j i = get3 a k j i)
            arrays.
Proof.
  intros Hs Hl P0 P1 P2 E1 E2 Hw arrays.
  assert (V : valid_shape (shape (GetArrayFromImage inputImage)))
    by (exists d0, d1, d2; now repeat split).
  assert (A1 : adjust d1 = d1)
    by (unfold adjust; now rewrite <- Nat.negb_even, E1).
  assert (A2 : adjust d2 = d2)
    by (unfold adjust; now rewrite <- Nat.negb_even, E2).
  split; [|split].
  - intros k j i Hk Hj Hi.
    pose proof (adjust_ge d0) as G.
    unfold padded, get3, shape_at, ndarray_resize. cbn [shape flat].
    rewrite Hs. cbn [adjust_shape map nth size_of fold_right].
    rewrite A1, A2, firstn_all2 by nia.
    destruct (Nat.ltb_spec k d0) as [Lt|Ge].
    + apply app_nth1.
      pose proof (Nat.mul_le_mono_r (k + 1) d0 d1 ltac:(lia)) as R.
      pose proof (Nat.mul_le_mono_r (k * d1 + j + 1) (d0 * d1) d2
                    ltac:(lia)) as R2.
      rewrite Nat.mul_add_distr_r in R2. lia.
    + rewrite app_nth2.
      * apply nth_repeat.
      * pose proof (Nat.mul_le_mono_r d0 k d1 Ge) as R.
        pose proof (Nat.mul_le_mono_r (d0 * d1) (k * d1 + j) d2
                      ltac:(lia)) as R2.
        lia.
  - rewrite (exhaust_eq swt_length inputImage kw w V Hw). cbn [fst].
    apply expected_volumes.
  - assert (F := working_arrays_wf inputImage w
                   (Z.to_nat (kwargs_get (kw_start_level kw) 0%Z))
                   (Z.to_nat (kwargs_get (kw_level kw) 1%Z)) d0 d1 d2 Hs).
    fold arrays in F. revert F. apply Forall_impl.
    intros a W k j i Hk Hj Hi.
    now apply (emitted_aligned_when_inner_dimensions_even inputImage a
                 d0 d1 d2).
Qed.

(** *** A volume of zeros *)

Lemma tab_const {X} (n : nat) (c : X) : tab n (fun _ => c) = repeat c n.
Proof.
  induction n as [|n IH]; [reflexivity|]. now rewrite tab_S, IH.
Qed.

Lemma concat_repeat_repeat {X} (c : X) (m k : nat) :
  concat (repeat (repeat c m) k) = repeat c (k * m).
Proof.
  induction k as [|k IH]; [reflexivity|].
  cbn [repeat concat Nat.mul]. now rewrite IH, repeat_app.
Qed.

Lemma tabulate3_const (s0 s1 s2 : nat) (c : Sample) :
  tabulate3 s0 s1 s2 (fun _ _ _ => c) = repeat c (s0 * s1 * s2).
Proof.
  unfold tabulate3, lines3.
  rewrite (tab_const s2), (tab_const s1), (tab_const s0).
  now rewrite !concat_repeat_repeat.
Qed.

Lemma get3_zeros3 (s0 s1 s2 k j i : nat) : get3 (zeros3 s0 s1 s2) k j i = zero.
Proof. unfold get3, zeros3. cbn [flat]. apply nth_repeat. Qed.

Section ZeroVolume.

(** The 1D transform of a line of zeros is two lines of zeros. *)
Hypothesis swt_zero : forall (w : Wavelet) (n : nat),
  swt_cA w (repeat zero n) = repeat zero n
  /\ swt_cD w (repeat zero n) = repeat zero n.

Lemma coefficients_zero (w : Wavelet) (b : band) (n : nat) :
  coefficients w b (repeat zero n) = repeat zero n.
Proof. destruct b; apply swt_zero. Qed.

Lemma zeros3_lines (s0 s1 s2 a b : nat) :
  line_i (zeros3 s0 s1 s2) a b = repeat zero s2
  /\ line_j (zeros3 s0 s1 s2) a b = repeat zero s1
  /\ line_k (zeros3 s0 s1 s2) a b = repeat zero s0.
Proof.
  unfold line_i, line_j, line_k, shape_at. cbn [zeros3 shape nth].
  repeat split; rewrite <- tab_const; apply tab_ext; intros;
    apply get3_zeros3.
Qed.

Lemma subband_zeros3 (w : Wavelet) (bi bj bk : band) (s0 s1 s2 : nat) :
  subband w bi bj bk (zeros3 s0 s1 s2) = zeros3 s0 s1 s2.
Proof.
  assert (Ei : forall b, along_i (coefficients w b) (zeros3 s0 s1 s2)
                         = zeros3 s0 s1 s2).
  { intros b. unfold along_i, shape_at. cbn [zeros3 shape nth].
    unfold zeros3 at 2. f_equal.
    transitivity (tabulate3 s0 s1 s2 (fun _ _ _ => zero));
      [|apply tabulate3_const].
    apply tabulate3_ext. intros k j i _ _ _.
    rewrite (proj1 (zeros3_lines s0 s1 s2 k j)), coefficients_zero.
    apply nth_repeat. }
  assert (Ej : forall b, along_j (coefficients w b) (zeros3 s0 s1 s2)
                         = zeros3 s0 s1 s2).
  { intros b. unfold along_j, shape_at. cbn [zeros3 shape nth].
    unfold zeros3 at 2. f_equal.
    transitivity (tabulate3 s0 s1 s2 (fun _ _ _ => zero));
      [|apply tabulate3_const].
    apply tabulate3_ext. intros k j i _ _ _.
    rewrite (proj1 (proj2 (zeros3_lines s0 s1 s2 k i))), coefficients_zero.
    apply nth_repeat. }
  assert (Ek : forall b, along_k (coefficients w b) (zeros3 s0 s1 s2)
                         = zeros3 s0 s1 s2).
  { intros b. unfold along_k, shape_at. cbn [zeros3 shape nth].
    unfold zeros3 at 2. f_equal.
    transitivity (tabulate3 s0 s1 s2 (fun _ _ _ => zero));
      [|apply tabulate3_const].
    apply tabulate3_ext. intros k j i _ _ _.
    rewrite (proj2 (proj2 (zeros3_lines s0 s1 s2 j i))), coefficients_zero.
    apply nth_repeat. }
  unfold subband. now rewrite Ei, Ej, Ek.
Qed.

(** A volume of zeros gives only volumes of zeros: the padding fills with
    zeros and the 1D transform keeps them. *)
Theorem zero_volume_gives_zero_volumes_only
  (inputImage : Image) (kw : kwargs) (w : Wavelet) (d0 d1 d2 : nat) :
  shape (GetArrayFromImage inputImage) = [d0; d1; d2] ->
  1 <= d0 -> 1 <= d1 -> 1 <= d2 ->
  flat (GetArrayFromImage inputImage) = repeat zero (d0 * d1 * d2) ->
  resolve_wavelet (kwargs_get (kw_wavelet kw) (WaveletName "coif1"))
  = ret w ->
  snd (exhaust (getWaveletImage inputImage kw)) = None
  /\ Forall (fun x : item =>
               pixels (item_volume x) = zeros3 d0 d1 d2)
            (fst (exhaust (getWaveletImage inputImage kw))).
Proof.
  intros Hs P0 P1 P2 Hz Hw.
  assert (V : valid_shape (shape (GetArrayFromImage inputImage)))
    by (exists d0, d1, d2; now repeat split).
  rewrite (exhaust_eq swt_length inputImage kw w V Hw). cbn [fst snd].
  split; [reflexivity|].
  set (a0 := adjust d0). set (a1 := adjust d1). set (a2 := adjust d2).
  assert (G : d0 * d1 * d2 <= a0 * a1 * a2).
  { repeat apply Nat.mul_le_mono; apply adjust_ge. }
  assert (Pd : padded inputImage = zeros3 a0 a1 a2).
  { unfold padded, ndarray_resize, zeros3. rewrite Hs, Hz.
    cbn [adjust_shape map size_of fold_right]. fold a0 a1 a2. f_equal.
    rewrite repeat_length, firstn_all2 by (rewrite repeat_length; lia).
    rewrite <- repeat_app. f_equal. lia. }
  assert (Wk : forall n, working inputImage w n = zeros3 a0 a1 a2).
  { intros n. unfold working. induction n as [|n IH]; [exact Pd|].
    now rewrite Nat.iter_succ, IH, subband_zeros3. }
  assert (Em : pixels (emitted inputImage (zeros3 a0 a1 a2))
               = zeros3 d0 d1 d2).
  { unfold emitted. cbn [pixels].
    assert (1 <= d0 * d1 * d2).
    { apply (Nat.le_trans _ (1 * 1 * 1)); [lia|].
      repeat apply Nat.mul_le_mono; lia. }
    rewrite numpy_resize_prefix; rewrite Hs;
      cbn [size_of fold_right zeros3 flat]; rewrite ?repeat_length; try lia.
    unfold zeros3. f_equal.
    replace (a0 * a1 * a2)
      with (d0 * (d1 * (d2 * 1)) + (a0 * a1 * a2 - d0 * d1 * d2)) by lia.
    rewrite repeat_app, firstn_app, repeat_length, Nat.sub_diag.
    rewrite firstn_all2 by (rewrite repeat_length; lia).
    cbn [firstn]. rewrite app_nil_r. f_equal. lia. }
  unfold expected_items. apply Forall_app. split.
  - apply Forall_flat_map, Forall_forall. intros m _.
    apply Forall_map, Forall_forall. intros [[bi bj] bk] _.
    unfold detail_item, item_volume. cbn [fst].
    now rewrite Wk, subband_zeros3.
  - constructor; [|constructor].
    unfold approximation_item, item_volume. cbn [fst]. now rewrite Wk.
Qed.

End ZeroVolume.

(** *** How many lines a run transforms *)

Lemma runs_in_ret {X} (x : X) : runs_in (ret x) x 0.
Proof. now split. Qed.

Lemma runs_in_bind {X Y} (m : M X) (f : X -> M Y) (x : X) (y : Y)
  (n1 n2 : nat) :
  runs_in m x n1 -> runs_in (f x) y n2 -> runs_in (bind m f) y (n1 + n2).
Proof.
  destruct m as [calls r]. intros [E1 L1] [E2 L2].
  cbn in E1. subst r. rewrite bind_ok. split.
  - exact E2.
  - unfold calls_of in *. cbn [fst] in *. rewrite length_app. lia.
Qed.

Lemma runs_in_of_eq {X} (m : M X) (calls : list (list Sample)) (x : X) :
  m = (calls, Ok x) -> runs_in m x (length calls).
Proof. intros ->. now split. Qed.

Section CountedLevel.

Variables (s0 s1 s2 : nat) (w : Wavelet).
Hypothesis ES : even_shape s0 s1 s2.

Lemma decompose_i_runs_in (data : ndarray) :
  wf3 s0 s1 s2 data ->
  runs_in (_decompose_i data w)
          (along_i (swt_cD w) data, along_i (swt_cA w) data) (s0 * s1).
Proof.
  intros W. destruct ES as [(? & ? & ?) (? & ? & ?)].
  rewrite <- (lines3_length s0 s1 (line_i data)).
  apply runs_in_of_eq. now apply (decompose_i_eq swt_length s0 s1 s2).
Qed.

Lemma decompose_j_runs_in (data : ndarray) :
  wf3 s0 s1 s2 data ->
  runs_in (_decompose_j data w)
          (along_j (swt_cD w) data, along_j (swt_cA w) data) (s0 * s2).
Proof.
  intros W. destruct ES as [(? & ? & ?) (? & ? & ?)].
  rewrite <- (lines3_length s0 s2 (line_j data)).
  apply runs_in_of_eq. now apply (decompose_j_eq swt_length s0 s1 s2).
Qed.

Lemma decompose_k_runs_in (data : ndarray) :
  wf3 s0 s1 s2 data ->
  runs_in (_decompose_k data w)
          (along_k (swt_cD w) data, along_k (swt_cA w) data) (s2 * s1).
Proof.
  intros W. destruct ES as [(? & ? & ?) (? & ? & ?)].
  rewrite <- (lines3_length s2 s1 (fun i j => line_k data j i)).
  apply runs_in_of_eq. now apply (decompose_k_eq swt_length s0 s1 s2).
Qed.

Ltac count_step :=
  lazymatch goal with
  | |- runs_in (ret _) _ _ => apply runs_in_ret
  | |- runs_in (bind (_decompose_i _ _) _) _ _ =>
      eapply runs_in_bind; [apply decompose_i_runs_in | cbv beta iota]
  | |- runs_in (bind (_decompose_j _ _) _) _ _ =>
      eapply runs_in_bind; [apply decompose_j_runs_in | cbv beta iota]
  | |- runs_in (bind (_decompose_k _ _) _) _ _ =>
      eapply runs_in_bind; [apply decompose_k_runs_in | cbv beta iota]
  | |- wf3 _ _ _ (along_i _ _) => apply along_i_wf
  | |- wf3 _ _ _ (along_j _ _) => apply along_j_wf
  | |- wf3 _ _ _ (along_k _ _) => apply along_k_wf
  | |- wf3 _ _ _ _ => assumption
  end.

Lemma runs_in_count {X} (m : M X) (x : X) (n n' : nat) :
  runs_in m x n -> n = n' -> runs_in m x n'.
Proof. now intros H <-. Qed.

Lemma warmup_body_runs_in (data : ndarray) :
  wf3 s0 s1 s2 data ->
  runs_in (warmup_body data w) (subband w Low Low Low data)
          (warmup_lines s0 s1 s2).
Proof.
  intros W. eapply runs_in_count.
  - unfold warmup_body. repeat count_step.
  - unfold warmup_lines. lia.
Qed.

Lemma warmup_loop_runs_in (levels : list Z) (data : ndarray) :
  wf3 s0 s1 s2 data ->
  runs_in (warmup_loop levels data w)
          (Nat.iter (length levels) (subband w Low Low Low) data)
          (length levels * warmup_lines s0 s1 s2).
Proof.
  revert data. induction levels as [|l levels IH]; intros data W.
  - apply runs_in_ret.
  - cbn [warmup_loop length]. rewrite Nat.iter_succ_r.
    eapply runs_in_count.
    + eapply runs_in_bind; [now apply warmup_body_runs_in|].
      now apply IH, subband_wf.
    + lia.
Qed.

Lemma emission_body_runs_in (inputImage : Image) (data : ndarray) :
  wf3 s0 s1 s2 data ->
  runs_in (emission_body data w (shape (GetArrayFromImage inputImage))
                         inputImage)
          (subband w Low Low Low data, level_result inputImage w data)
          (emission_lines s0 s1 s2).
Proof.
  intros W. eapply runs_in_count.
  - unfold emission_body.
    do 7 (count_step; [repeat count_step|]).
    rewrite images_of_dict_eq, bind_ret_l. apply runs_in_ret.
  - unfold emission_lines. lia.
Qed.

Lemma emission_loop_runs_in (inputImage : Image) (levels : list Z)
  (data : ndarray) (acc : list (dict Image)) :
  wf3 s0 s1 s2 data ->
  exists result,
    runs_in (emission_loop levels data w
               (shape (GetArrayFromImage inputImage)) inputImage acc)
            result (length levels * emission_lines s0 s1 s2).
Proof.
  revert data acc. induction levels as [|l levels IH]; intros data acc W.
  - eexists. apply runs_in_ret.
  - cbn [emission_loop length].
    destruct (IH (subband w Low Low Low data)
                 (acc ++ [level_result inputImage w data])
                 (subband_wf _ _ _ _ _ _ _ _ W)) as [result R].
    exists result. eapply runs_in_count.
    + eapply runs_in_bind; [now apply emission_body_runs_in|]. exact R.
    + lia.
Qed.

End CountedLevel.

(** A run on a 3D input without an empty dimension passes to the 1D
    transform, for each warm-up level, the lines of the padded shape along
    each axis once, and for each emission level the lines along i once,
    along j twice and along k four times. *)
Theorem number_of_lines_transformed (inputImage : Image)
  (wavelet : wavelet_arg) (w : Wavelet) (level start_level : Z)
  (d0 d1 d2 : nat) :
  shape (GetArrayFromImage inputImage) = [d0; d1; d2] ->
  1 <= d0 -> 1 <= d1 -> 1 <= d2 ->
  resolve_wavelet wavelet = ret w ->
  length (calls_of (_swt3 inputImage wavelet level start_level))
  = Z.to_nat start_level * warmup_lines (adjust d0) (adjust d1) (adjust d2)
    + Z.to_nat level * emission_lines (adjust d0) (adjust d1) (adjust d2).
Proof.
  intros Hs P0 P1 P2 Hw.
  pose proof (adjust_even_shape d0 d1 d2 P0 P1 P2) as ES.
  pose proof (padded_wf inputImage d0 d1 d2 Hs) as W.
  unfold _swt3, ndim. rewrite Hs. cbn [length Nat.eqb negb].
  rewrite Hw, bind_ret_l, <- Hs. fold (padded inputImage).
  destruct (emission_loop_runs_in _ _ _ w ES inputImage
              (range start_level (start_level + level))
              (Nat.iter (length (range 0 start_level))
                 (subband w Low Low Low) (padded inputImage)) []
              (iter_subband_wf _ _ _ w _ _ W)) as [[data levels] R].
  assert (T : runs_in
                (data <- warmup_loop (range 0 start_level)
                           (padded inputImage) w ;;
                 '(data0, levels0) <-
                   emission_loop (range start_level (start_level + level))
                     data w (shape (GetArrayFromImage inputImage))
                     inputImage [] ;;
                 approximation <-
                   CopyInformation
                     (GetImageFromArray
                        (numpy_resize data0
                           (shape (GetArrayFromImage inputImage))))
                     inputImage ;;
                 ret (approximation, levels0))
                (emitted inputImage data, levels)
                (length (range 0 start_level)
                 * warmup_lines (adjust d0) (adjust d1) (adjust d2)
                 + (length (range start_level (start_level + level))
                    * emission_lines (adjust d0) (adjust d1) (adjust d2)
                    + 0))).
  { eapply runs_in_bind; [now apply (warmup_loop_runs_in _ _ _ w ES)|].
    eapply runs_in_bind; [exact R|]. cbv beta iota.
    rewrite CopyInformation_eq, bind_ret_l. apply runs_in_ret. }
  destruct T as [_ T]. rewrite T, !range_length.
  replace (start_level - 0)%Z with start_level by lia.
  replace (start_level + level - start_level)%Z with level by lia.
  lia.
Qed.

End WaveletRun.

(** ** [generateAngles] *)

Section Angles.

Lemma in_range (a b x : Z) : In x (range a b) <-> (a <= x < b)%Z.
Proof.
  unfold range. rewrite in_map_iff. split.
  - intros (n & <- & Hn). apply in_seq in Hn. lia.
  - intros H. exists (Z.to_nat (x - a)). split; [lia|].
    apply in_seq. lia.
Qed.

Lemma range_NoDup (a b : Z) : NoDup (range a b).
Proof.
  unfold range. apply NoDup_map_NoDup_ForallPairs; [|apply seq_NoDup].
  intros n m _ _ E. lia.
Qed.

Lemma in_angles_of (d z : Z) (a : angle) :
  In a (angles_of d z)
  <-> a = (0, 0, z)%Z
      \/ exists y, (- d <= y <= d)%Z
           /\ (a = (0, z, y)%Z
               \/ exists x, (- d <= x <= d)%Z /\ a = (z, y, x)).
Proof.
  unfold angles_of. cbn [In]. rewrite in_flat_map. split.
  - intros [<-|(y & Hy & H)]; [now left | right].
    apply in_range in Hy. exists y. split; [lia|].
    destruct H as [<-|H]; [now left | right].
    apply in_map_iff in H. destruct H as (x & <- & Hx).
    apply in_range in Hx. exists x. split; [lia | reflexivity].
  - intros [->|(y & Hy & H)]; [now left | right].
    exists y. split; [apply in_range; lia|].
    destruct H as [->|(x & Hx & ->)]; [now left | right].
    apply in_map_iff. exists x. split; [reflexivity | apply in_range; lia].
Qed.

Lemma in_all_angles (d : Z) (a : angle) :
  In a (all_angles d) <-> forward a /\ within d a.
Proof.
  unfold all_angles. rewrite in_flat_map. destruct a as [[a0 a1] a2].
  cbn [forward within]. split.
  - intros (z & Hz & H). apply in_range in Hz. apply in_angles_of in H.
    destruct H as [[= -> -> ->]|(y & Hy & [[= -> -> ->]|(x & Hx & [= -> -> ->])])];
      lia.
  - intros [F (H0 & H1 & H2)].
    destruct F as [F|[[-> F]|(-> & -> & F)]].
    + exists a0. split; [apply in_range; lia|]. apply in_angles_of.
      right. exists a1. split; [lia|]. right. exists a2. split; [lia|].
      reflexivity.
    + exists a1. split; [apply in_range; lia|]. apply in_angles_of.
      right. exists a2. split; [lia|]. now left.
    + exists a2. split; [apply in_range; lia|]. apply in_angles_of.
      now left.
Qed.

Lemma fits_margin (size a : angle) :
  negb (margin size a <=? 0)%Z = true <-> fits size a.
Proof.
  destruct size as [[s0 s1] s2], a as [[a0 a1] a2]. cbn [margin fits].
  rewrite negb_true_iff, Z.leb_gt. lia.
Qed.

Lemma all_angles_not_empty (d : Z) : (1 <= d)%Z -> all_angles d <> [].
Proof.
  intros Hd E.
  assert (I : In (0, 0, 1)%Z (all_angles d))
    by (apply in_all_angles; cbn; lia).
  now rewrite E in I.
Qed.

Lemma generateAngles_ok (size : angle) (d : Z) :
  (1 <= d)%Z ->
  generateAngles size d
  = Ok (filter (fun a => negb (margin size a <=? 0)%Z) (all_angles d)).
Proof.
  intros Hd. unfold generateAngles.
  pose proof (all_angles_not_empty d Hd) as N.
  now destruct (all_angles d) as [|a0 l] eqn:E.
Qed.

Lemma in_kept_angles (size : angle) (d : Z) (a : angle) :
  In a (filter (fun a => negb (margin size a <=? 0)%Z) (all_angles d))
  <-> forward a /\ within d a /\ fits size a.
Proof. rewrite filter_In, in_all_angles, fits_margin. tauto. Qed.

(** For a distance of at least 1, [generateAngles] returns exactly the
    offsets of at most that distance along every axis whose first non-zero
    component is positive and which are smaller, along every axis, than
    the size. *)
Theorem generateAngles_returns_the_forward_offsets (size : angle) (d : Z) :
  (1 <= d)%Z ->
  exists angles,
    generateAngles size d = Ok angles
    /\ forall a, In a angles <-> forward a /\ within d a /\ fits size a.
Proof.
  intros Hd. eexists. split; [apply (generateAngles_ok size d Hd)|].
  intros a. apply in_kept_angles.
Qed.

Lemma NoDup_flat_map_disjoint {X Y} (f : X -> list Y) (l : list X) :
  NoDup l ->
  (forall x, In x l -> NoDup (f x)) ->
  (forall x y a, In x l -> In y l -> In a (f x) -> In a (f y) -> x = y) ->
  NoDup (flat_map f l).
Proof.
  intros Hl Hf Hd. induction Hl as [|x l Hx _ IH]; cbn [flat_map].
  - constructor.
  - apply NoDup_app.
    + apply Hf. now left.
    + apply IH.
      * intros y Hy. apply Hf. now right.
      * intros y z a Hy Hz. apply Hd; now right.
    + intros a Ha Hin. apply in_flat_map in Hin.
      destruct Hin as (y & Hy & Hay).
      assert (x = y) by (apply (Hd x y a); [now left | now right | easy..]).
      now subst.
Qed.

Lemma angles_of_NoDup (d z : Z) : (1 <= z)%Z -> NoDup (angles_of d z).
Proof.
  intros Hz. unfold angles_of. constructor.
  - rewrite in_flat_map. intros (y & _ & [E|H]).
    + injection E as E. lia.
    + apply in_map_iff in H. destruct H as (x & E & _).
      injection E as E. lia.
  - apply NoDup_flat_map_disjoint.
    + apply range_NoDup.
    + intros y _. constructor.
      * rewrite in_map_iff. intros (x & E & _). injection E as E. lia.
      * apply NoDup_map_NoDup_ForallPairs; [|apply range_NoDup].
        now intros x x' _ _ [= ->].
    + intros y y' a _ _ H H'. cbn [In] in H, H'.
      rewrite in_map_iff in H, H'.
      destruct H as [<-|(x & <- & _)], H' as [E|(x' & E & _)];
        injection E as E; lia.
Qed.

Lemma all_angles_NoDup (d : Z) : NoDup (all_angles d).
Proof.
  unfold all_angles. apply NoDup_flat_map_disjoint.
  - apply range_NoDup.
  - intros z Hz. apply in_range in Hz. apply angles_of_NoDup. lia.
  - intros z z' [[a0 a1] a2] Hz Hz' H H'.
    apply in_range in Hz, Hz'. apply in_angles_of in H, H'.
    destruct H as [E|(y & _ & [E|(x & _ & E)])],
             H' as [E'|(y' & _ & [E'|(x' & _ & E')])];
      rewrite E in E';
      pose proof (f_equal (fun p : angle => fst (fst p)) E') as E0;
      pose proof (f_equal (fun p : angle => snd (fst p)) E') as E1;
      pose proof (f_equal (fun p : angle => snd p) E') as E2;
      cbn in E0, E1, E2; lia.
Qed.

(** No angle is returned twice. *)
Theorem generateAngles_has_no_duplicate (size : angle) (d : Z)
  (angles : list angle) :
  generateAngles size d = Ok angles -> NoDup angles.
Proof.
  unfold generateAngles. destruct (all_angles d) as [|a0 l] eqn:E;
    [discriminate|].
  intros H.
  assert (F : angles = filter (fun a => negb (margin size a <=? 0)%Z)
                              (all_angles d))
    by (rewrite E; congruence).
  rewrite F. apply NoDup_filter, all_angles_NoDup.
Qed.

Lemma forward_opposite (a : angle) :
  a <> (0, 0, 0)%Z -> (forward a <-> ~ forward (opposite a)).
Proof.
  destruct a as [[a0 a1] a2]. cbn [forward opposite]. intros N.
  assert (a0 <> 0 \/ a1 <> 0 \/ a2 <> 0)%Z.
  { destruct (Z.eq_dec a0 0) as [->|]; [|now left].
    destruct (Z.eq_dec a1 0) as [->|]; [|right; now left].
    destruct (Z.eq_dec a2 0) as [->|]; [now destruct N | right; now right]. }
  lia.
Qed.

(** Of a non-zero offset within the distance and the size and of its
    opposite, exactly one is returned; the zero offset never is. *)
Theorem generateAngles_one_of_each_direction (size : angle) (d : Z)
  (a : angle) :
  (1 <= d)%Z -> within d a -> fits size a ->
  exists angles,
    generateAngles size d = Ok angles
    /\ ~ In (0, 0, 0)%Z angles
    /\ (a <> (0, 0, 0)%Z ->
        (In a angles /\ ~ In (opposite a) angles)
        \/ (~ In a angles /\ In (opposite a) angles)).
Proof.
  intros Hd Hw Hf.
  assert (X : exists angles,
             generateAngles size d = Ok angles
             /\ forall b, In b angles
                          <-> forward b /\ within d b /\ fits size b).
  { eexists. split; [apply (generateAngles_ok size d Hd)|].
    intros b. apply in_kept_angles. }
  destruct X as (angles & E & M).
  exists angles. split; [exact E|]. split.
  - rewrite M. cbn. lia.
  - intros N. rewrite !M.
    assert (Wo : within d (opposite a))
      by (destruct a as [[a0 a1] a2]; cbn in *; lia).
    assert (Fo : fits size (opposite a))
      by (destruct size as [[s0 s1] s2], a as [[a0 a1] a2]; cbn in *; lia).
    pose proof (forward_opposite a N) as FO.
    destruct a as [[a0 a1] a2].
    assert (Dec : forward (a0, a1, a2) \/ ~ forward (a0, a1, a2))
      by (cbn; lia).
    assert (Dec' : forward (opposite (a0, a1, a2))
                   \/ ~ forward (opposite (a0, a1, a2)))
      by (cbn; lia).
    tauto.
Qed.

Lemma length_flat_map_const {X Y} (f : X -> list Y) (l : list X) (c : nat) :
  (forall x, length (f x) = c) -> length (flat_map f l) = length l * c.
Proof.
  intros Hf. induction l as [|x l IH]; [reflexivity|].
  cbn [flat_map length]. rewrite length_app, Hf, IH. lia.
Qed.

(** When every component of the size exceeds the distance [d >= 1], no
    angle is deleted and [d (1 + (2d+1) + (2d+1)^2)] angles are returned:
    13 for [d = 1], 62 for [d = 2]. *)
Theorem generateAngles_count (size : angle) (d : Z) :
  (1 <= d)%Z -> fits size (d, d, d) ->
  exists angles,
    generateAngles size d = Ok angles
    /\ angles = all_angles d
    /\ Z.of_nat (length angles)
       = (d * (1 + (2 * d + 1) + (2 * d + 1) * (2 * d + 1)))%Z.
Proof.
  intros Hd Hf. unfold generateAngles.
  pose proof (all_angles_not_empty d Hd) as N.
  destruct (all_angles d) as [|a0 l] eqn:E; [easy|]. rewrite <- E.
  eexists. split; [reflexivity|].
  assert (K : filter (fun a => negb (margin size a <=? 0)%Z) (all_angles d)
              = all_angles d).
  { apply forallb_filter_id, forallb_forall. intros a Ha.
    apply fits_margin. apply in_all_angles in Ha. destruct Ha as [_ Ha].
    destruct size as [[s0 s1] s2], a as [[a0' a1] a2]. cbn in *. lia. }
  split; [exact K|]. rewrite K. unfold all_angles.
  rewrite (length_flat_map_const _ _
             (1 + Z.to_nat (2 * d + 1) * (1 + Z.to_nat (2 * d + 1)))).
  - rewrite range_length. nia.
  - intros z. unfold angles_of. cbn [length].
    rewrite (length_flat_map_const _ _ (1 + Z.to_nat (2 * d + 1))).
    + rewrite range_length.
      replace (d + 1 - - d)%Z with (2 * d + 1)%Z by lia. reflexivity.
    + intros y. cbn [length]. rewrite length_map, range_length.
      replace (d + 1 - - d)%Z with (2 * d + 1)%Z by lia. reflexivity.
Qed.

(** A distance below 1 leaves the list of angles empty, and the
    subtraction from [size] raises. *)
Theorem generateAngles_without_distance_raises (size : angle) (d : Z) :
  (d <= 0)%Z ->
  generateAngles size d
  = Raise (ValueError "operands could not be broadcast together").
Proof.
  intros Hd. unfold generateAngles, all_angles, range.
  now replace (Z.to_nat (d + 1 - 1)) with 0 by lia.
Qed.

End Angles.

(** ** [getHistogram] and [binImage] *)

Section Binning.

Open Scope Z_scope.

Context {NA : NumpyArange}.

Variables (binwidth : positive) (dt : dtype).

Let B : Z := Z.pos binwidth.

Lemma in_dtype_true (v : Z) :
  dtype_min dt <= v <= dtype_max dt -> in_dtype dt v = true.
Proof.
  intros H. unfold in_dtype. apply andb_true_intro.
  split; apply Z.leb_le; lia.
Qed.

Lemma dtype_min_nonpos : dtype_min dt <= 0.
Proof. destruct dt; cbn; lia. Qed.

(** A value of the type is what it wraps to. *)
Lemma wrap_id (v : Z) :
  dtype_min dt <= v <= dtype_max dt -> wrap dt v = v.
Proof.
  intros H. unfold wrap. rewrite Z.mod_small; [lia|].
  destruct dt; cbn in *; lia.
Qed.

Lemma fold_left_min_spec (rest : list Z) (v : Z) :
  In (fold_left Z.min rest v) (v :: rest)
  /\ Forall (fun x => fold_left Z.min rest v <= x) (v :: rest).
Proof.
  revert v. induction rest as [|y rest IH]; intros v; cbn [fold_left].
  - split; [now left | repeat constructor; lia].
  - destruct (IH (Z.min v y)) as [I F]. split.
    + destruct I as [I|I]; [|right; now right].
      rewrite <- I. destruct (Z.min_spec v y) as [[_ ->]|[_ ->]];
        [now left | right; now left].
    + inversion F as [|? ? F1 F2]; subst.
      constructor; [lia|]. constructor; [lia | assumption].
Qed.

Lemma fold_left_max_spec (rest : list Z) (v : Z) :
  In (fold_left Z.max rest v) (v :: rest)
  /\ Forall (fun x => x <= fold_left Z.max rest v) (v :: rest).
Proof.
  revert v. induction rest as [|y rest IH]; intros v; cbn [fold_left].
  - split; [now left | repeat constructor; lia].
  - destruct (IH (Z.max v y)) as [I F]. split.
    + destruct I as [I|I]; [|right; now right].
      rewrite <- I. destruct (Z.max_spec v y) as [[_ ->]|[_ ->]];
        [right; now left | now left].
    + inversion F as [|? ? F1 F2]; subst.
      constructor; [lia|]. constructor; [lia | assumption].
Qed.

Lemma py_min_eq (values : list Z) (mn : Z) :
  In mn values -> Forall (fun v => mn <= v) values ->
  py_min values = Returned mn.
Proof.
  intros I F. destruct values as [|v rest]; [easy|]. cbn [py_min]. f_equal.
  destruct (fold_left_min_spec rest v) as [I' F'].
  rewrite Forall_forall in F, F'. pose proof (F _ I'). pose proof (F' _ I).
  lia.
Qed.

Lemma py_max_eq (values : list Z) (mx : Z) :
  In mx values -> Forall (fun v => v <= mx) values ->
  py_max values = Returned mx.
Proof.
  intros I F. destruct values as [|v rest]; [easy|]. cbn [py_max]. f_equal.
  destruct (fold_left_max_spec rest v) as [I' F'].
  rewrite Forall_forall in F, F'. pose proof (F _ I'). pose proof (F' _ I).
  lia.
Qed.

Lemma extremes_exist (values : list Z) :
  values <> [] ->
  exists mn mx,
    In mn values /\ In mx values
    /\ Forall (fun v => mn <= v <= mx) values.
Proof.
  destruct values as [|v rest]; [easy|]. intros _.
  destruct (fold_left_min_spec rest v) as [I1 F1].
  destruct (fold_left_max_spec rest v) as [I2 F2].
  exists (fold_left Z.min rest v), (fold_left Z.max rest v).
  repeat split; try assumption.
  rewrite Forall_forall in *. intros x Hx. split; auto.
Qed.

Local Abbreviation edges_from := (grid binwidth).

Lemma grid_length (low : Z) (m : nat) : length (edges_from low m) = m.
Proof. unfold grid. now rewrite length_map, length_seq. Qed.

Lemma grid_S (low : Z) (m : nat) :
  edges_from low (S m) = edges_from low m ++ [low + Z.of_nat m * B].
Proof. unfold grid. now rewrite seq_S, map_app. Qed.

Lemma nth_grid (low : Z) (m i : nat) :
  (i < m)%nat -> nth i (edges_from low m) 0 = low + Z.of_nat i * B.
Proof.
  intros Hi. unfold grid.
  rewrite (nth_indep _ 0 (low + Z.of_nat 0 * B))
    by now rewrite length_map, length_seq.
  now rewrite (map_nth (fun n => low + Z.of_nat n * B)), seq_nth.
Qed.

Lemma B_pos : 0 < B.
Proof. unfold B. lia. Qed.

(** The number of edges of a grid at most [v]. *)
Lemma grid_count (low v : Z) (m : nat) :
  low <= v ->
  Z.of_nat (length (filter (fun e => e <=? v) (edges_from low m)))
  = Z.min (Z.of_nat m) ((v - low) / B + 1).
Proof.
  intros Hv. pose proof B_pos as HB.
  assert (Q : B * ((v - low) / B) <= v - low < B * ((v - low) / B) + B).
  { pose proof (Z.div_mod (v - low) B ltac:(lia)).
    pose proof (Z.mod_pos_bound (v - low) B HB). lia. }
  induction m as [|m IH]; [cbn; pose proof (Z.div_pos (v - low) B); lia|].
  rewrite grid_S, filter_app, length_app, Nat2Z.inj_add, IH. cbn [filter].
  destruct (Z.leb_spec (low + Z.of_nat m * B) v) as [L|G]; cbn [length]; nia.
Qed.

Lemma increasing_grid (low : Z) (m : nat) :
  increasing (edges_from low m) = true.
Proof.
  pose proof B_pos as HB. unfold grid. generalize 0%nat.
  induction m as [|m IH]; intros k; [reflexivity|].
  cbn [seq map]. destruct m as [|m]; [reflexivity|].
  specialize (IH (S k)). cbn [seq map] in IH |- *. cbn [increasing].
  cbn [increasing] in IH. rewrite IH, andb_true_r. apply Z.leb_le. lia.
Qed.

Section Region.

Variables (values : list Z) (mn mx : Z).
Hypothesis Hmn : In mn values.
Hypothesis Hmx : In mx values.
Hypothesis Hbounds : Forall (fun v => mn <= v <= mx) values.
Hypothesis Hfit : no_wrap dt binwidth mn mx.

Let low : Z := mn - mn mod B.
Let nb : nat := Z.to_nat (1 + (mx - low - 1) / B).

Lemma low_spec : low <= mn < low + B.
Proof.
  pose proof (Z.mod_pos_bound mn B B_pos). unfold low. lia.
Qed.

Lemma mn_le_mx : mn <= mx.
Proof. rewrite Forall_forall in Hbounds. apply (Hbounds mn Hmn). Qed.

Lemma nb_spec :
  B * ((mx - low - 1) / B) <= mx - low - 1 < B * ((mx - low - 1) / B) + B.
Proof.
  pose proof B_pos as HB.
  pose proof (Z.div_mod (mx - low - 1) B ltac:(lia)).
  pose proof (Z.mod_pos_bound (mx - low - 1) B HB). lia.
Qed.

Lemma nb_bounds :
  low < mx -> B * (Z.of_nat nb - 1) < mx - low <= B * Z.of_nat nb.
Proof.
  intros H. pose proof nb_spec. pose proof B_pos. unfold nb.
  assert (0 <= (mx - low - 1) / B) by (apply Z.div_pos; lia).
  rewrite Z2Nat.id by lia. lia.
Qed.

Lemma nb_zero : mx = low -> nb = 0%nat.
Proof.
  intros E. unfold nb. rewrite E.
  replace (low - low - 1) with (-1) by lia.
  pose proof B_pos.
  assert ((-1) / B = -1).
  { symmetry. apply (Z.div_unique_pos (-1) B (-1) (B - 1)); lia. }
  lia.
Qed.

Lemma nb_positive : low < mx -> (1 <= nb)%nat.
Proof. intros H. pose proof (nb_bounds H). pose proof B_pos. nia. Qed.

Lemma arange_eq : arange low (mx + B) binwidth = edges_from low (S nb).
Proof.
  unfold arange. f_equal. fold B.
  replace (mx + B - low + B - 1) with (mx - low - 1 + 2 * B) by lia.
  rewrite Z.div_add by (pose proof B_pos; lia).
  pose proof nb_spec. pose proof mn_le_mx. pose proof low_spec.
  pose proof B_pos. unfold nb.
  assert (-1 <= (mx - low - 1) / B) by nia.
  lia.
Qed.

Lemma flat_iff : flat_on_an_edge binwidth values <-> mx = low.
Proof.
  pose proof low_spec. pose proof mn_le_mx. pose proof B_pos. split.
  - intros (c & F & M). rewrite Forall_forall in F.
    pose proof (F _ Hmn). pose proof (F _ Hmx). subst mn mx.
    unfold low. fold B in M. lia.
  - intros E. exists mn. split.
    + rewrite Forall_forall in *. intros v Hv.
      pose proof (Hbounds v Hv). lia.
    + fold B. unfold low in *. lia.
Qed.

(** Up to the call of [numpy.histogram], when nothing wraps around. *)
Lemma getHistogram_edges_eq :
  getHistogram dt binwidth values
  = if (length (edges_from low (S nb)) =? 1)%nat then
      Failed (PyTypeError "object of type 'int' has no len()")
    else numpy_histogram values (edges_from low (S nb)).
Proof.
  destruct Hfit as (F1 & F2 & F3). unfold lower_bound in F1, F3.
  fold B in F1, F2, F3. fold low in F1, F3.
  pose proof low_spec. pose proof mn_le_mx. pose proof B_pos.
  pose proof dtype_min_nonpos.
  unfold getHistogram.
  rewrite (py_min_eq values mn)
    by (try assumption; revert Hbounds; apply Forall_impl; intros; lia).
  cbn [and_then]. unfold python_int. fold B.
  rewrite (in_dtype_true B) by lia. cbn [and_then].
  rewrite (py_max_eq values mx)
    by (try assumption; revert Hbounds; apply Forall_impl; intros; lia).
  cbn [and_then]. fold low.
  rewrite (wrap_id low), (wrap_id (mx + B)) by lia.
  unfold numpy_arange. rewrite (in_dtype_true (mx + B - low)) by lia.
  cbn [and_then]. now rewrite arange_eq.
Qed.

Lemma getHistogram_eq :
  low < mx ->
  getHistogram dt binwidth values
  = Returned
      (map (fun i => Z.of_nat
                       (length (filter (in_bin (edges_from low (S nb)) i)
                                       values)))
           (seq 0 nb),
       edges_from low (S nb)).
Proof.
  intros H. rewrite getHistogram_edges_eq, grid_length.
  pose proof (nb_positive H).
  destruct (Nat.eqb_spec (S nb) 1) as [E|_]; [lia|].
  unfold numpy_histogram. rewrite increasing_grid, grid_length.
  now replace (S nb - 1)%nat with nb by lia.
Qed.

Lemma getHistogram_flat :
  mx = low ->
  getHistogram dt binwidth values
  = Failed (PyTypeError "object of type 'int' has no len()").
Proof.
  intros E. rewrite getHistogram_edges_eq, grid_length, (nb_zero E).
  reflexivity.
Qed.

(** The number of bins is a value of the type. *)
Lemma nb_fits : low < mx -> Z.of_nat nb <= dtype_max dt.
Proof.
  intros H. destruct Hfit as (F1 & F2 & F3). unfold lower_bound in F1, F3.
  fold B in F2, F3. fold low in F1, F3.
  pose proof (nb_bounds H). pose proof B_pos. nia.
Qed.

(** A value of the region is in bin [i] of the histogram exactly when its
    level is [i + 1]. *)
Lemma in_bin_level (v : Z) (i : nat) :
  low < mx -> mn <= v <= mx -> (i < nb)%nat ->
  in_bin (edges_from low (S nb)) i v
  = (level_of binwidth mn nb v =? Z.of_nat i + 1).
Proof.
  intros H Hv Hi. pose proof (nb_bounds H) as NB. pose proof low_spec.
  pose proof B_pos as HB. unfold in_bin, level_of. fold B. fold low.
  rewrite !nth_grid, grid_length by lia.
  assert (Q : B * ((v - low) / B) <= v - low < B * ((v - low) / B) + B).
  { pose proof (Z.div_mod (v - low) B ltac:(lia)).
    pose proof (Z.mod_pos_bound (v - low) B HB). lia. }
  destruct (Nat.eqb_spec (S (S i)) (S nb)) as [E|N].
  - destruct (Z.leb_spec (low + Z.of_nat i * B) v),
             (Z.leb_spec v (low + Z.of_nat (S i) * B)),
             (Z.eqb_spec (Z.min (Z.of_nat nb) ((v - low) / B + 1))
                         (Z.of_nat i + 1));
      cbn [andb]; try reflexivity; exfalso; nia.
  - destruct (Z.leb_spec (low + Z.of_nat i * B) v),
             (Z.ltb_spec v (low + Z.of_nat (S i) * B)),
             (Z.eqb_spec (Z.min (Z.of_nat nb) ((v - low) / B + 1))
                         (Z.of_nat i + 1));
      cbn [andb]; try reflexivity; exfalso; nia.
Qed.

Lemma level_bounds (v : Z) :
  low < mx -> mn <= v <= mx ->
  1 <= level_of binwidth mn nb v <= Z.of_nat nb.
Proof.
  intros H Hv. pose proof (nb_positive H). pose proof low_spec.
  pose proof B_pos. unfold level_of. fold B. fold low.
  assert (0 <= (v - low) / B) by (apply Z.div_pos; lia). lia.
Qed.

End Region.

Lemma total_app (a b : list Z) : total (a ++ b) = total a + total b.
Proof.
  unfold total. induction a as [|x a IH]; cbn [app fold_right]; lia.
Qed.

Lemma count_up_to (f : Z -> Z) (l : list Z) (k : nat) :
  total (map (fun i => Z.of_nat
                         (length (filter (fun v => f v =? Z.of_nat i + 1) l)))
             (seq 0 k))
  = Z.of_nat
      (length (filter (fun v => (1 <=? f v) && (f v <=? Z.of_nat k)) l)).
Proof.
  induction k as [|k IH].
  - cbn [seq map total fold_right]. induction l as [|x l IHl]; [reflexivity|].
    cbn [filter].
    destruct (Z.leb_spec 1 (f x)), (Z.leb_spec (f x) (Z.of_nat 0));
      cbn [andb]; try exact IHl. lia.
  - rewrite seq_S, map_app, total_app, IH. cbn [map total fold_right Nat.add].
    clear IH. induction l as [|x l IHl]; [reflexivity|]. cbn [filter].
    destruct (Z.leb_spec 1 (f x)), (Z.leb_spec (f x) (Z.of_nat k)),
             (Z.leb_spec (f x) (Z.of_nat (S k))),
             (Z.eqb_spec (f x) (Z.of_nat k + 1));
      cbn [andb length]; lia.
Qed.

(** [getHistogram] raises on an empty array of values; when no operation
    on scalars wraps around, it raises on values all equal to one multiple
    of the bin width, and returns on every other array. *)
Theorem getHistogram_failures (values : list Z) :
  (values = [] ->
   getHistogram dt binwidth values
   = Failed (PyValueError "min() arg is an empty sequence"))
  /\ (forall mn mx,
        In mn values -> In mx values ->
        Forall (fun v => mn <= v <= mx) values ->
        no_wrap dt binwidth mn mx ->
        flat_on_an_edge binwidth values ->
        getHistogram dt binwidth values
        = Failed (PyTypeError "object of type 'int' has no len()"))
  /\ (forall mn mx,
        In mn values -> In mx values ->
        Forall (fun v => mn <= v <= mx) values ->
        no_wrap dt binwidth mn mx ->
        ~ flat_on_an_edge binwidth values ->
        exists hist edges,
          getHistogram dt binwidth values = Returned (hist, edges)).
Proof.
  split; [now intros ->|]. split.
  - intros mn mx I1 I2 Bd Fit F.
    apply (getHistogram_flat values mn mx I1 I2 Bd Fit).
    now apply (flat_iff values mn mx I1 I2 Bd).
  - intros mn mx I1 I2 Bd Fit F.
    eexists _, _. apply (getHistogram_eq values mn mx I1 I2 Bd Fit).
    pose proof (low_spec mn mx). pose proof (mn_le_mx values mn mx I1 Bd).
    pose proof (flat_iff values mn mx I1 I2 Bd) as FI. cbv zeta in *.
    destruct (Z.eq_dec mx (mn - mn mod B)) as [E|NE]; [|lia].
    now destruct F; apply FI.
Qed.

(** When no operation on scalars wraps around and the values are not one
    value on an edge, [getHistogram] returns at least one bin; its edges
    start at the multiple of the bin width at or below the smallest value,
    are one bin width apart, and the last one is the first of them at or
    above the largest value. *)
Theorem getHistogram_edges (values : list Z) (mn mx : Z) :
  In mn values -> In mx values ->
  Forall (fun v => mn <= v <= mx) values ->
  no_wrap dt binwidth mn mx ->
  ~ flat_on_an_edge binwidth values ->
  exists hist edges,
    getHistogram dt binwidth values = Returned (hist, edges)
    /\ (1 <= length hist)%nat
    /\ edges = grid binwidth (lower_bound binwidth mn) (S (length hist))
    /\ lower_bound binwidth mn <= mn < lower_bound binwidth mn + B
    /\ lower_bound binwidth mn + (Z.of_nat (length hist) - 1) * B < mx
       <= lower_bound binwidth mn + Z.of_nat (length hist) * B.
Proof.
  intros I1 I2 Bd Fit F. unfold lower_bound. fold B.
  pose proof (low_spec mn mx) as LS.
  pose proof (mn_le_mx values mn mx I1 Bd) as LE.
  pose proof (flat_iff values mn mx I1 I2 Bd) as FI. cbv zeta in *.
  assert (H : mn - mn mod B < mx).
  { destruct (Z.eq_dec mx (mn - mn mod B)) as [E|NE]; [|lia].
    now destruct F; apply FI. }
  eexists _, _.
  split; [apply (getHistogram_eq values mn mx I1 I2 Bd Fit H)|].
  rewrite length_map, length_seq.
  split; [apply (nb_positive mn mx H)|].
  split; [reflexivity|]. split; [exact LS|].
  pose proof (nb_bounds mn mx H). lia.
Qed.

(** When no operation on scalars wraps around, the histogram counts every
    value once: bin [i] holds the number of values of level [i + 1], and
    the counts add up to the number of values. *)
Theorem getHistogram_counts_every_value (values : list Z) (mn mx : Z) :
  In mn values -> In mx values ->
  Forall (fun v => mn <= v <= mx) values ->
  no_wrap dt binwidth mn mx ->
  ~ flat_on_an_edge binwidth values ->
  exists hist edges,
    getHistogram dt binwidth values = Returned (hist, edges)
    /\ (forall i, (i < length hist)%nat ->
          nth i hist 0
          = count_level binwidth mn (length hist) values (Z.of_nat i + 1))
    /\ total hist = Z.of_nat (length values).
Proof.
  intros I1 I2 Bd Fit F.
  pose proof (low_spec mn mx) as LS.
  pose proof (mn_le_mx values mn mx I1 Bd) as LE.
  pose proof (flat_iff values mn mx I1 I2 Bd) as FI. cbv zeta in *.
  assert (H : mn - mn mod B < mx).
  { destruct (Z.eq_dec mx (mn - mn mod B)) as [E|NE]; [|lia].
    now destruct F; apply FI. }
  set (nb := Z.to_nat (1 + (mx - (mn - mn mod B) - 1) / B)).
  assert (E : map (fun i => Z.of_nat
                     (length (filter
                                (in_bin (edges_from (mn - mn mod B) (S nb)) i)
                                values)))
                  (seq 0 nb)
              = map (fun i => count_level binwidth mn nb values
                                (Z.of_nat i + 1))
                    (seq 0 nb)).
  { apply map_ext_in. intros i Hi. apply in_seq in Hi.
    unfold count_level. do 2 f_equal. apply filter_ext_in. intros v Hv.
    rewrite Forall_forall in Bd.
    apply (in_bin_level mn mx v i H (Bd v Hv)). lia. }
  eexists _, _.
  split; [apply (getHistogram_eq values mn mx I1 I2 Bd Fit H)|].
  fold nb. rewrite E, length_map, length_seq. split.
  - intros i Hi.
    rewrite (nth_indep _ 0 (count_level binwidth mn nb values
                              (Z.of_nat 0 + 1)))
      by now rewrite length_map, length_seq.
    now rewrite (map_nth (fun i => count_level binwidth mn nb values
                                     (Z.of_nat i + 1))), seq_nth.
  - unfold count_level.
    rewrite (count_up_to (level_of binwidth mn nb) values nb).
    f_equal. f_equal. apply forallb_filter_id, forallb_forall.
    intros v Hv. rewrite Forall_forall in Bd.
    pose proof (level_bounds mn mx v H (Bd v Hv)) as LB.
    fold nb in LB.
    apply andb_true_intro. split; apply Z.leb_le; lia.
Qed.

(** *** [binImage] *)

Lemma set_nth_length (l : list Z) (p : nat) (v : Z) :
  length (set_nth l p v) = length l.
Proof.
  revert p. induction l as [|x l IH]; intros [|p]; cbn; try reflexivity.
  now rewrite IH.
Qed.

Lemma nth_set_nth (l : list Z) (p q : nat) (v : Z) :
  (q < length l)%nat ->
  nth q (set_nth l p v) 0 = if (q =? p)%nat then v else nth q l 0.
Proof.
  revert p q. induction l as [|x l IH]; intros p q Hq; [cbn in Hq; lia|].
  destruct p as [|p], q as [|q]; cbn [set_nth nth Nat.eqb]; try reflexivity.
  apply IH. cbn in Hq. lia.
Qed.

Lemma put_at_cons (m : list Z) (c : nat) (cs : list nat) (g : nat -> Z) :
  put_at m (c :: cs) (map g (c :: cs))
  = put_at (set_nth m c (g c)) cs (map g cs).
Proof. reflexivity. Qed.

Lemma put_at_spec (cs : list nat) (g : nat -> Z) (m : list Z) :
  length (put_at m cs (map g cs)) = length m
  /\ forall q, (q < length m)%nat ->
       nth q (put_at m cs (map g cs)) 0
       = if existsb (Nat.eqb q) cs then g q else nth q m 0.
Proof.
  revert m. induction cs as [|c cs IH]; intros m.
  - split; [reflexivity | now intros].
  - rewrite put_at_cons. destruct (IH (set_nth m c (g c))) as [L N].
    rewrite set_nth_length in L, N. split; [exact L|].
    intros q Hq. rewrite (N q Hq), nth_set_nth by assumption.
    cbn [existsb]. destruct (Nat.eqb_spec q c) as [->|_];
      cbn [orb]; now destruct (existsb _ cs).
Qed.

Lemma existsb_eqb_In (q : nat) (cs : list nat) :
  existsb (Nat.eqb q) cs = true <-> In q cs.
Proof.
  rewrite existsb_exists. split.
  - intros (x & Hx & E). apply Nat.eqb_eq in E. now subst.
  - intros H. exists q. split; [assumption | apply Nat.eqb_refl].
Qed.

Lemma take_at_eq (matrix : list Z) (cs : list nat) :
  Forall (fun p => (p < length matrix)%nat) cs ->
  take_at matrix cs = Returned (region matrix cs).
Proof.
  intros F. unfold take_at.
  replace (forallb (fun p => (p <? length matrix)%nat) cs) with true;
    [reflexivity|].
  symmetry. apply forallb_forall. rewrite Forall_forall in F.
  intros p Hp. apply Nat.ltb_lt. now apply F.
Qed.

Lemma increasing_snoc (l : list Z) (y x : Z) :
  increasing (l ++ [y]) = true -> y <= x -> increasing (l ++ [x]) = true.
Proof.
  intros H Hyx. induction l as [|a l IH]; [reflexivity|].
  destruct l as [|b l].
  - cbn in *. rewrite andb_true_r in *. apply Z.leb_le in H.
    apply Z.leb_le. lia.
  - cbn [app increasing] in *. apply andb_prop in H. destruct H as [H1 H2].
    rewrite H1. cbn [andb]. now apply IH.
Qed.

Lemma increment_last_grid (low : Z) (nb : nat) :
  increment_last (edges_from low (S nb))
  = Returned (edges_from low nb ++ [low + Z.of_nat nb * B + 1]).
Proof.
  unfold increment_last. rewrite grid_S, rev_unit.
  now rewrite rev_involutive.
Qed.

Lemma digitize_grid (values : list Z) (mn mx : Z) :
  Forall (fun v => mn <= v <= mx) values ->
  mn - mn mod B < mx ->
  let nb := Z.to_nat (1 + (mx - (mn - mn mod B) - 1) / B) in
  digitize values
    (edges_from (mn - mn mod B) nb
     ++ [mn - mn mod B + Z.of_nat nb * B + 1])
  = Returned (map (level_of binwidth mn nb) values).
Proof.
  intros Bd H nb. unfold digitize.
  rewrite (increasing_snoc _ (mn - mn mod B + Z.of_nat nb * B))
    by first [ rewrite <- grid_S; apply increasing_grid | lia ].
  f_equal. apply map_ext_in. intros v Hv. rewrite Forall_forall in Bd.
  pose proof (Bd v Hv). pose proof (low_spec mn mx) as LS.
  pose proof (nb_bounds mn mx H) as NB. cbv zeta in *. fold nb in NB.
  rewrite filter_app, length_app, Nat2Z.inj_add, grid_count by lia.
  cbn [filter].
  destruct (Z.leb_spec (mn - mn mod B + Z.of_nat nb * B + 1) v);
    [lia|]. cbn [length]. unfold level_of. fold B. lia.
Qed.

(** What [binImage] returns on a region that is in the matrix and is not
    one value on an edge, when nothing wraps around. *)
Lemma binImage_eq (matrix : list Z) (cs : list nat) (mn mx : Z) :
  Forall (fun p => (p < length matrix)%nat) cs ->
  In mn (region matrix cs) -> In mx (region matrix cs) ->
  Forall (fun v => mn <= v <= mx) (region matrix cs) ->
  no_wrap dt binwidth mn mx ->
  mn - mn mod B < mx ->
  let low := mn - mn mod B in
  let nb := Z.to_nat (1 + (mx - low - 1) / B) in
  binImage dt binwidth matrix cs
  = Returned
      (put_at matrix cs
              (map (fun p => level_of binwidth mn nb (nth p matrix 0)) cs),
       (map (fun i => Z.of_nat
                        (length (filter (in_bin (edges_from low (S nb)) i)
                                        (region matrix cs))))
            (seq 0 nb),
        edges_from low nb ++ [low + Z.of_nat nb * B + 1])).
Proof.
  intros F I1 I2 Bd Fit H low nb. unfold binImage.
  rewrite (take_at_eq matrix cs F). cbn [and_then].
  rewrite (getHistogram_eq (region matrix cs) mn mx I1 I2 Bd Fit H).
  cbn [and_then fst snd]. fold low. fold nb. rewrite increment_last_grid.
  cbn [and_then].
  pose proof (digitize_grid (region matrix cs) mn mx Bd H) as D.
  cbv zeta in D. fold low in D. fold nb in D. rewrite D. cbn [and_then].
  do 2 f_equal. unfold region. rewrite !map_map. f_equal.
  apply map_ext_in. intros p Hp. apply wrap_id.
  assert (Hv : mn <= nth p matrix 0 <= mx).
  { rewrite Forall_forall in Bd. apply Bd. unfold region.
    now apply (in_map (fun p => nth p matrix 0)). }
  pose proof (level_bounds mn mx (nth p matrix 0) H Hv) as LB.
  pose proof (nb_fits mn mx Fit H) as NF. pose proof dtype_min_nonpos.
  cbv zeta in LB, NF. fold low in LB, NF. fold nb in LB, NF. lia.
Qed.

Section BinnedRegion.

Variables (matrix : list Z) (cs : list nat) (mn mx : Z).
Hypothesis Hrange : Forall (fun p => (p < length matrix)%nat) cs.
Hypothesis Hmn : In mn (region matrix cs).
Hypothesis Hmx : In mx (region matrix cs).
Hypothesis Hbounds : Forall (fun v => mn <= v <= mx) (region matrix cs).
Hypothesis Hfit : no_wrap dt binwidth mn mx.
Hypothesis Hnot_flat : ~ flat_on_an_edge binwidth (region matrix cs).

Let low : Z := lower_bound binwidth mn.
Let nb : nat := Z.to_nat (1 + (mx - low - 1) / B).
Let binned : list Z :=
  put_at matrix cs (map (fun p => level_of binwidth mn nb (nth p matrix 0)) cs).
Let hist : list Z :=
  map (fun i => count_level binwidth mn nb (region matrix cs)
                  (Z.of_nat i + 1))
      (seq 0 nb).

Lemma region_not_flat : low < mx.
Proof.
  pose proof (low_spec mn mx) as LS.
  pose proof (mn_le_mx _ mn mx Hmn Hbounds) as LE.
  pose proof (flat_iff _ mn mx Hmn Hmx Hbounds) as FI. cbv zeta in *.
  unfold low, lower_bound. fold B. clear binned hist nb.
  destruct (Z.eq_dec mx (mn - mn mod B)) as [E|NE]; [|clear low; lia].
  now destruct Hnot_flat; apply FI.
Qed.

Lemma binImage_returns :
  binImage dt binwidth matrix cs
  = Returned (binned, (hist, edges_from low nb ++ [low + Z.of_nat nb * B + 1])).
Proof.
  pose proof region_not_flat as H. unfold low, lower_bound in H. fold B in H.
  rewrite (binImage_eq matrix cs mn mx Hrange Hmn Hmx Hbounds Hfit H).
  cbv zeta. fold B. do 2 f_equal. f_equal.
  apply map_ext_in. intros i Hi. apply in_seq in Hi.
  unfold count_level. do 2 f_equal. apply filter_ext_in. intros v Hv.
  rewrite Forall_forall in Hbounds.
  apply (in_bin_level mn mx v i H (Hbounds v Hv)).
  unfold nb, low, lower_bound in Hi. fold B in Hi. lia.
Qed.

Lemma hist_length : length hist = nb.
Proof. unfold hist. now rewrite length_map, length_seq. Qed.

Lemma binned_length : length binned = length matrix.
Proof. apply put_at_spec. Qed.

Lemma binned_inside (p : nat) :
  In p cs -> nth p binned 0 = level_of binwidth mn nb (nth p matrix 0).
Proof.
  intros Hp. rewrite Forall_forall in Hrange.
  unfold binned.
  rewrite (proj2 (put_at_spec cs _ matrix) p (Hrange p Hp)).
  now rewrite (proj2 (existsb_eqb_In p cs) Hp).
Qed.

Lemma binned_outside (p : nat) :
  ~ In p cs -> nth p binned 0 = nth p matrix 0.
Proof.
  intros Hp. destruct (Nat.lt_ge_cases p (length matrix)) as [L|G].
  - unfold binned. rewrite (proj2 (put_at_spec cs _ matrix) p L).
    destruct (existsb (Nat.eqb p) cs) eqn:E; [|reflexivity].
    now apply existsb_eqb_In in E.
  - rewrite !nth_overflow; [reflexivity | lia | rewrite binned_length; lia].
Qed.

Lemma region_value (p : nat) : In p cs -> mn <= nth p matrix 0 <= mx.
Proof.
  intros Hp. rewrite Forall_forall in Hbounds. apply Hbounds.
  unfold region. now apply (in_map (fun p => nth p matrix 0)).
Qed.

End BinnedRegion.

(** On a region inside the matrix that is not one value on an edge, when
    no operation on scalars wraps around, [binImage] returns the matrix with every voxel of the region replaced
    by its level, [min(bins, (v - low) / binwidth + 1)], and every other
    voxel unchanged. *)
Theorem binImage_replaces_the_region_by_levels
  (matrix : list Z) (cs : list nat) (mn mx : Z) :
  Forall (fun p => (p < length matrix)%nat) cs ->
  In mn (region matrix cs) -> In mx (region matrix cs) ->
  Forall (fun v => mn <= v <= mx) (region matrix cs) ->
  no_wrap dt binwidth mn mx ->
  ~ flat_on_an_edge binwidth (region matrix cs) ->
  exists binned hist edges,
    binImage dt binwidth matrix cs = Returned (binned, (hist, edges))
    /\ length binned = length matrix
    /\ (forall p, In p cs ->
          nth p binned 0
          = level_of binwidth mn (length hist) (nth p matrix 0))
    /\ (forall p, ~ In p cs -> nth p binned 0 = nth p matrix 0).
Proof.
  intros F I1 I2 Bd Fit NF. eexists _, _, _.
  split; [apply (binImage_returns matrix cs mn mx F I1 I2 Bd Fit NF)|].
  rewrite hist_length.
  split; [apply (binned_length matrix cs)|]. split.
  - intros p Hp. now apply (binned_inside matrix cs mn mx F).
  - intros p Hp. now apply (binned_outside matrix cs).
Qed.

(** The levels of the region run from 1 to the number of bins: a smallest
    voxel gets 1, a largest one the number of bins, and a voxel that is not
    above another one does not get a higher level. *)
Theorem binImage_levels_keep_the_order
  (matrix : list Z) (cs : list nat) (mn mx : Z) :
  Forall (fun p => (p < length matrix)%nat) cs ->
  In mn (region matrix cs) -> In mx (region matrix cs) ->
  Forall (fun v => mn <= v <= mx) (region matrix cs) ->
  no_wrap dt binwidth mn mx ->
  ~ flat_on_an_edge binwidth (region matrix cs) ->
  exists binned hist edges,
    binImage dt binwidth matrix cs = Returned (binned, (hist, edges))
    /\ (forall p, In p cs ->
          1 <= nth p binned 0 <= Z.of_nat (length hist))
    /\ (forall p, In p cs -> nth p matrix 0 = mn -> nth p binned 0 = 1)
    /\ (forall p, In p cs -> nth p matrix 0 = mx ->
          nth p binned 0 = Z.of_nat (length hist))
    /\ (forall p q, In p cs -> In q cs ->
          nth p matrix 0 <= nth q matrix 0 ->
          nth p binned 0 <= nth q binned 0).
Proof.
  intros F I1 I2 Bd Fit NF. eexists _, _, _.
  split; [apply (binImage_returns matrix cs mn mx F I1 I2 Bd Fit NF)|].
  rewrite hist_length.
  pose proof (region_not_flat matrix cs mn mx I1 I2 Bd Fit NF) as H.
  unfold lower_bound in H. fold B in H.
  pose proof (nb_bounds mn mx H) as NB. pose proof (nb_positive mn mx H) as NP.
  pose proof (low_spec mn mx) as LS. pose proof B_pos as HB.
  pose proof (mn_le_mx _ mn mx I1 Bd) as LE. cbv zeta in *.
  unfold lower_bound. fold B.
  set (nb := Z.to_nat (1 + (mx - (mn - mn mod B) - 1) / B)) in *.
  assert (Q : forall v, B * ((v - (mn - mn mod B)) / B)
                        <= v - (mn - mn mod B)
                        < B * ((v - (mn - mn mod B)) / B) + B).
  { intros v. pose proof (Z.div_mod (v - (mn - mn mod B)) B ltac:(lia)).
    pose proof (Z.mod_pos_bound (v - (mn - mn mod B)) B HB). lia. }
  assert (In_ : forall p, In p cs ->
            nth p (put_at matrix cs
                     (map (fun p => level_of binwidth mn nb (nth p matrix 0))
                          cs)) 0
            = level_of binwidth mn nb (nth p matrix 0)).
  { intros p Hp. now apply (binned_inside matrix cs mn mx F). }
  repeat split.
  - rewrite (In_ p) by assumption.
    pose proof (level_bounds mn mx _ H (region_value matrix cs mn mx Bd p H0)).
    fold nb in H1. lia.
  - rewrite (In_ p) by assumption.
    pose proof (level_bounds mn mx _ H (region_value matrix cs mn mx Bd p H0)).
    fold nb in H1. lia.
  - intros p Hp E. rewrite (In_ p Hp), E. unfold level_of. fold B.
    pose proof (Q mn). nia.
  - intros p Hp E. rewrite (In_ p Hp), E. unfold level_of. fold B.
    pose proof (Q mx). nia.
  - intros p q Hp Hq Hpq. rewrite (In_ p Hp), (In_ q Hq).
    unfold level_of. fold B.
    pose proof (Z.div_le_mono (nth p matrix 0 - (mn - mn mod B))
                  (nth q matrix 0 - (mn - mn mod B)) B HB ltac:(lia)).
    lia.
Qed.

Lemma filter_map_length {X} (f : X -> Z) (g : Z -> bool) (l : list X) :
  length (filter g (map f l)) = length (filter (fun x => g (f x)) l).
Proof.
  induction l as [|x l IH]; [reflexivity|]. cbn [map filter].
  destruct (g (f x)); cbn [length]; now rewrite IH.
Qed.

(** The histogram returned with the binned matrix agrees with it: bin [i]
    holds the number of coordinates whose voxel got level [i + 1], the
    counts add up to the number of coordinates, and the edges are those of
    [getHistogram] with the last one moved up by 1. *)
Theorem binImage_histogram_agrees_with_the_levels
  (matrix : list Z) (cs : list nat) (mn mx : Z) :
  Forall (fun p => (p < length matrix)%nat) cs ->
  In mn (region matrix cs) -> In mx (region matrix cs) ->
  Forall (fun v => mn <= v <= mx) (region matrix cs) ->
  no_wrap dt binwidth mn mx ->
  ~ flat_on_an_edge binwidth (region matrix cs) ->
  exists binned hist edges,
    binImage dt binwidth matrix cs = Returned (binned, (hist, edges))
    /\ (forall i, (i < length hist)%nat ->
          nth i hist 0
          = Z.of_nat
              (length (filter (fun p => nth p binned 0 =? Z.of_nat i + 1)
                              cs)))
    /\ total hist = Z.of_nat (length cs)
    /\ edges
       = grid binwidth (lower_bound binwidth mn) (length hist)
         ++ [lower_bound binwidth mn + Z.of_nat (length hist) * B + 1].
Proof.
  intros F I1 I2 Bd Fit NF. eexists _, _, _.
  split; [apply (binImage_returns matrix cs mn mx F I1 I2 Bd Fit NF)|].
  rewrite hist_length.
  pose proof (region_not_flat matrix cs mn mx I1 I2 Bd Fit NF) as H.
  unfold lower_bound in H. fold B in H.
  set (nb := Z.to_nat (1 + (mx - lower_bound binwidth mn - 1) / B)) in *.
  split; [|split; [|reflexivity]].
  - intros i Hi.
    rewrite (nth_indep _ 0 (count_level binwidth mn nb (region matrix cs)
                              (Z.of_nat 0 + 1)))
      by now rewrite length_map, length_seq.
    rewrite (map_nth (fun i => count_level binwidth mn nb (region matrix cs)
                                 (Z.of_nat i + 1))), seq_nth by assumption.
    unfold count_level, region. rewrite filter_map_length. do 2 f_equal.
    apply filter_ext_in. intros p Hp. cbn [Nat.add]. subst nb.
    now rewrite (binned_inside matrix cs mn mx F p Hp).
  - unfold count_level.
    rewrite (count_up_to (level_of binwidth mn nb) (region matrix cs) nb).
    rewrite <- (length_map (fun p => nth p matrix 0) cs).
    fold (region matrix cs). f_equal. f_equal. apply forallb_filter_id, forallb_forall.
    intros v Hv. rewrite Forall_forall in Bd.
    pose proof (level_bounds mn mx v H (Bd v Hv)) as LB.
    unfold nb, lower_bound. fold B.
    apply andb_true_intro. split; apply Z.leb_le; lia.
Qed.

(** [binImage] raises an index error when a coordinate is outside the
    matrix, a value error on an empty region, and, when no operation on
    scalars wraps around, a type error on a region of one value that is a
    multiple of the bin width. *)
Theorem binImage_failures (matrix : list Z) (cs : list nat) :
  (~ Forall (fun p => (p < length matrix)%nat) cs ->
   binImage dt binwidth matrix cs
   = Failed (PyIndexError "index out of bounds"))
  /\ (cs = [] ->
      binImage dt binwidth matrix cs
      = Failed (PyValueError "min() arg is an empty sequence"))
  /\ (forall mn mx,
        Forall (fun p => (p < length matrix)%nat) cs ->
        In mn (region matrix cs) -> In mx (region matrix cs) ->
        Forall (fun v => mn <= v <= mx) (region matrix cs) ->
        no_wrap dt binwidth mn mx ->
        flat_on_an_edge binwidth (region matrix cs) ->
        binImage dt binwidth matrix cs
        = Failed (PyTypeError "object of type 'int' has no len()")).
Proof.
  split; [|split].
  - intros NF. unfold binImage, take_at.
    destruct (forallb (fun p => (p <? length matrix)%nat) cs) eqn:E;
      [|reflexivity].
    destruct NF. apply Forall_forall. intros p Hp.
    rewrite forallb_forall in E. now apply Nat.ltb_lt, E.
  - intros ->. reflexivity.
  - intros mn mx F I1 I2 Bd Fit Fl. unfold binImage.
    rewrite (take_at_eq matrix cs F). cbn [and_then].
    rewrite (getHistogram_flat (region matrix cs) mn mx I1 I2 Bd Fit);
      [reflexivity|].
    now apply (flat_iff (region matrix cs) mn mx I1 I2 Bd).
Qed.

End Binning.

(** ** The claims on the integer Haar instance *)

Import IntHaar.

Lemma correlate_length (taps x : list Z) :
  length (correlate taps x) = length x.
Proof. unfold correlate. now rewrite length_map, length_seq. Qed.

Lemma int_haar_swt_length (w : Wavelet) (x : list Sample) :
  Nat.even (length x) = true ->
  length (swt_cA w x) = length x /\ length (swt_cD w x) = length x.
Proof. intros _. split; apply correlate_length. Qed.

Example str_of_nat_12 : str_of_nat 12 = "12"%string.
Proof. reflexivity. Qed.

Example identifiers_of_two_levels :
  map item_identifier
      (fst (exhaust (getWaveletImage volume_2_2_3 (kw_haar 2 1))))
  = ["wavelet-HHH"; "wavelet-HHL"; "wavelet-HLH"; "wavelet-HLL";
     "wavelet-LHH"; "wavelet-LHL"; "wavelet-LLH";
     "wavelet2-HHH"; "wavelet2-HHL"; "wavelet2-HLH"; "wavelet2-HLL";
     "wavelet2-LHH"; "wavelet2-LHL"; "wavelet2-LLH"; "wavelet2-LLL"]%string.
Proof. vm_compute. reflexivity. Qed.

Example zero_volume_gives_zero_volumes :
  snd (exhaust (getWaveletImage zeros_4_4_4 (kw_haar 1 0))) = None
  /\ map (fun x : item => flat (pixels (item_volume x)))
         (fst (exhaust (getWaveletImage zeros_4_4_4 (kw_haar 1 0))))
     = repeat (repeat 0%Z 64) 8.
Proof. split; vm_compute; reflexivity. Qed.

Example odd_first_dimension_5_4_6 :
  shape (padded volume_5_4_6) = [6; 4; 6]
  /\ map (fun x : item => shape (pixels (item_volume x)))
         (fst (exhaust (getWaveletImage volume_5_4_6 (kw_haar 1 0))))
     = repeat [5; 4; 6] 8.
Proof. split; vm_compute; reflexivity. Qed.

Example unknown_wavelet_raises :
  exhaust (getWaveletImage volume_2_2_3
             (mk_kwargs (Some (WaveletName "no such wavelet")) None None []))
  = ([], Some (ValueError "Invalid wavelet name.")).
Proof. vm_compute. reflexivity. Qed.

Lemma volume_2_2_3_valid : valid_shape (shape (GetArrayFromImage volume_2_2_3)).
Proof. exists 2, 2, 3. repeat split; lia. Defined.

Lemma emitted_volumes_keep_shape_and_metadata_witness :
  snd (exhaust (getWaveletImage volume_2_2_3 (kw_haar 2 1))) = None
  /\ fst (exhaust (getWaveletImage volume_2_2_3 (kw_haar 2 1))) <> []
  /\ Forall (fun x : item =>
               shape (pixels (item_volume x)) = [2; 2; 3]
               /\ length (flat (pixels (item_volume x))) = 12
               /\ info (item_volume x) = [7; 8; 9; 2; 2; 3]%Z)
            (fst (exhaust (getWaveletImage volume_2_2_3 (kw_haar 2 1)))).
Proof.
  apply (emitted_volumes_keep_shape_and_metadata int_haar_swt_length
           volume_2_2_3 (kw_haar 2 1) haar).
  - exact volume_2_2_3_valid.
  - reflexivity.
Defined.

Lemma level_count_law_witness :
  exists details approx,
    exhaust (getWaveletImage volume_2_2_3 (kw_haar 2 1))
    = (details ++ [approx], None)
    /\ Z.of_nat (length (details ++ [approx])) = 15%Z
    /\ length details = 14
    /\ details
       = flat_map (fun m => map (detail_item volume_2_2_3 haar
                                   (kw_haar 2 1) 1 m) detail_bands)
                  (seq 0 2)
    /\ approx = approximation_item volume_2_2_3 haar (kw_haar 2 1) 1 2.
Proof.
  apply (level_count_law int_haar_swt_length volume_2_2_3 (kw_haar 2 1) haar).
  - exact volume_2_2_3_valid.
  - reflexivity.
  - cbn. lia.
Defined.

Lemma subband_completeness_witness :
  exists approx levels,
    outcome (_swt3 volume_2_2_3 (WaveletName "haar") 2 1)
    = Ok (approx, levels)
    /\ length levels = 2
    /\ Forall (fun wl : dict Image =>
                 Permutation (map fst wl) seven_labels
                 /\ NoDup (map fst wl)
                 /\ ~ In "LLL"%string (map fst wl))
              levels
    /\ (forall m, m < 2 ->
          let data := working volume_2_2_3 haar (1 + m) in
          nth m levels []
          = [("HHH"%string,
              emitted volume_2_2_3 (subband haar High High High data));
             ("HHL"%string,
              emitted volume_2_2_3 (subband haar High High Low data));
             ("HLH"%string,
              emitted volume_2_2_3 (subband haar High Low High data));
             ("HLL"%string,
              emitted volume_2_2_3 (subband haar High Low Low data));
             ("LHH"%string,
              emitted volume_2_2_3 (subband haar Low High High data));
             ("LHL"%string,
              emitted volume_2_2_3 (subband haar Low High Low data));
             ("LLH"%string,
              emitted volume_2_2_3 (subband haar Low Low High data))])
    /\ (forall n, working volume_2_2_3 haar (S n)
                  = subband haar Low Low Low (working volume_2_2_3 haar n))
    /\ approx = emitted volume_2_2_3 (working volume_2_2_3 haar 3).
Proof.
  apply (subband_completeness int_haar_swt_length volume_2_2_3
           (WaveletName "haar") haar 2 1).
  - exact volume_2_2_3_valid.
  - reflexivity.
Defined.

Lemma naming_law_witness :
  Z.of_nat 2 = 2%Z
  /\ map item_identifier
       (fst (exhaust (getWaveletImage volume_2_2_3 (kw_haar 2 1))))
     = flat_map
         (fun idx =>
            map (fun l => if idx =? 1 then ("wavelet-" ++ l)%string
                          else ("wavelet" ++ str_of_nat idx ++ "-" ++ l)%string)
                seven_labels)
         (seq 1 2)
       ++ ["wavelet2-LLL"%string].
Proof.
  apply (naming_law int_haar_swt_length volume_2_2_3 (kw_haar 2 1) haar).
  - exact volume_2_2_3_valid.
  - reflexivity.
  - cbn. lia.
Defined.

Lemma padded_volume_2_2_3_wf : wf3 2 2 4 (padded volume_2_2_3).
Proof. split; reflexivity. Defined.

Lemma even_shape_2_2_4 : even_shape 2 2 4.
Proof. repeat split; lia. Defined.

Lemma composition_order_and_labels_witness :
  let data := padded volume_2_2_3 in
  let D_i := along_i (swt_cD haar) in let A_i := along_i (swt_cA haar) in
  let D_j := along_j (swt_cD haar) in let A_j := along_j (swt_cA haar) in
  let D_k := along_k (swt_cD haar) in let A_k := along_k (swt_cA haar) in
  (outcome (_decompose_i data haar) = Ok (D_i data, A_i data)
   /\ outcome (_decompose_j data haar) = Ok (D_j data, A_j data)
   /\ outcome (_decompose_k data haar) = Ok (D_k data, A_k data))
  /\ (forall f k j i, k < 2 -> j < 2 -> i < 4 ->
        get3 (along_i f data) k j i = nth i (f (line_i data k j)) zero
        /\ get3 (along_j f data) k j i = nth j (f (line_j data k i)) zero
        /\ get3 (along_k f data) k j i = nth k (f (line_k data j i)) zero)
  /\ outcome (warmup_body data haar) = Ok (A_k (A_j (A_i data)))
  /\ outcome (emission_body data haar [2; 2; 3] volume_2_2_3)
     = Ok (A_k (A_j (A_i data)),
           [("HHH"%string, emitted volume_2_2_3 (D_k (D_j (D_i data))));
            ("HHL"%string, emitted volume_2_2_3 (A_k (D_j (D_i data))));
            ("HLH"%string, emitted volume_2_2_3 (D_k (A_j (D_i data))));
            ("HLL"%string, emitted volume_2_2_3 (A_k (A_j (D_i data))));
            ("LHH"%string, emitted volume_2_2_3 (D_k (D_j (A_i data))));
            ("LHL"%string, emitted volume_2_2_3 (A_k (D_j (A_i data))));
            ("LLH"%string, emitted volume_2_2_3 (D_k (A_j (A_i data))))]).
Proof.
  apply (composition_order_and_labels int_haar_swt_length 2 2 4
           (padded volume_2_2_3) haar volume_2_2_3).
  - exact padded_volume_2_2_3_wf.
  - exact even_shape_2_2_4.
Defined.

Lemma shape_error_witness :
  outcome (_swt3 image_2_3 (WaveletName "haar") 2 1)
  = Raise (ValueError "Expected 3D data array")
  /\ calls_of (_swt3 image_2_3 (WaveletName "haar") 2 1) = []
  /\ exhaust (getWaveletImage image_2_3 (kw_haar 2 1))
     = ([], Some (ValueError "Expected 3D data array")).
Proof.
  apply (shape_error image_2_3 (kw_haar 2 1) (WaveletName "haar") 2 1).
  cbn. lia.
Defined.

Lemma generator_raises_on_first_next_witness :
  getWaveletImage image_2_3 (kw_haar 2 1) = Created image_2_3 (kw_haar 2 1)
  /\ next (getWaveletImage image_2_3 (kw_haar 2 1))
     = (Raised (ValueError "Expected 3D data array"), Finished)
  /\ fst (exhaust (getWaveletImage image_2_3 (kw_haar 2 1))) = []
  /\ next (snd (next (getWaveletImage image_2_3 (kw_haar 2 1))))
     = (StopIteration, Finished).
Proof.
  apply (generator_raises_on_first_next image_2_3 (kw_haar 2 1)).
  cbn. lia.
Defined.

Lemma lines_passed_are_even_witness :
  Forall (fun dim => Nat.even dim = true) (adjust_shape [2; 2; 3])
  /\ (forall w n, shape (working volume_2_2_3 w n) = adjust_shape [2; 2; 3])
  /\ even_calls (_swt3 volume_2_2_3 (WaveletName "haar") 2 1)
  /\ outcome (_swt3 volume_2_2_3 (WaveletName "haar") 2 1)
     <> Raise (ValueError "Length of data must be even.").
Proof.
  apply (lines_passed_are_even int_haar_swt_length volume_2_2_3
           (WaveletName "haar") 2 1).
  exact volume_2_2_3_valid.
Defined.

(** C1: on the [2 x 2 x 3] volume holding 1 to 12 the odd last dimension is
    enlarged by appending zeros to the buffer, so the input sample of place
    (0, 1, 0), which is 4, is at (0, 0, 3) of the padded volume, whose place
    (0, 1, 0) holds 5; and the emitted approximation holds at (0, 1, 0) the
    value 39 that the transform computed at (0, 0, 3), not the 33 it computed
    at (0, 1, 0). *)
Theorem resize_padding_misaligns_samples :
  exists H L LH LL LLH LLL approx levels,
    outcome (_decompose_i (padded volume_2_2_3) haar) = Ok (H, L)
    /\ outcome (_decompose_j L haar) = Ok (LH, LL)
    /\ outcome (_decompose_k LL haar) = Ok (LLH, LLL)
    /\ outcome (_swt3 volume_2_2_3 (WaveletName "haar") 1 0)
       = Ok (approx, levels)
    /\ shape (padded volume_2_2_3) = [2; 2; 4]
    /\ get3 (pixels volume_2_2_3) 0 1 0 = 4%Z
    /\ get3 (padded volume_2_2_3) 0 1 0 = 5%Z
    /\ get3 (padded volume_2_2_3) 0 0 3 = 4%Z
    /\ get3 LLL 0 1 0 = 33%Z
    /\ get3 LLL 0 0 3 = 39%Z
    /\ get3 (pixels approx) 0 1 0 = 39%Z.
Proof.
  do 8 eexists.
  repeat match goal with |- _ /\ _ => split end;
    try (vm_compute; reflexivity).
Qed.

(** ** The further properties on concrete inputs *)

Lemma correlate_zeros (taps : list Z) (n : nat) :
  correlate taps (repeat 0%Z n) = repeat 0%Z n.
Proof.
  unfold correlate. rewrite repeat_length.
  transitivity (map (fun _ : nat => 0%Z) (seq 0 n)).
  - apply map_ext. intros m.
    induction (seq 0 (length taps)) as [|t l IH]; [reflexivity|].
    cbn [map fold_right]. rewrite IH, nth_repeat. lia.
  - generalize 0. induction n as [|n IH]; intros b; cbn [seq map repeat];
      [reflexivity | f_equal; apply IH].
Qed.

Lemma int_haar_swt_zero (w : Wavelet) (n : nat) :
  swt_cA w (repeat zero n) = repeat zero n
  /\ swt_cD w (repeat zero n) = repeat zero n.
Proof. split; apply correlate_zeros. Qed.

Lemma trim_undoes_padding_witness :
  emitted volume_2_2_3 (padded volume_2_2_3) = volume_2_2_3.
Proof. apply (trim_undoes_padding volume_2_2_3). reflexivity. Defined.

Lemma no_level_yields_the_approximation_only_witness :
  exhaust (getWaveletImage volume_2_2_3 (kw_haar 0 1))
  = ([(emitted volume_2_2_3 (working volume_2_2_3 haar 1),
       "wavelet0-LLL"%string, kw_haar 0 1)],
     None).
Proof.
  apply (no_level_yields_the_approximation_only int_haar_swt_length
           volume_2_2_3 (kw_haar 0 1) haar).
  - exact volume_2_2_3_valid.
  - reflexivity.
  - cbn. lia.
Defined.

Lemma unknown_wavelet_raises_before_any_transform_witness :
  _swt3 volume_2_2_3 (WaveletName "haar9") 1 0
  = ([], Raise (ValueError "Invalid wavelet name."))
  /\ next (getWaveletImage volume_2_2_3
             (mk_kwargs (Some (WaveletName "haar9")) None None []))
     = (Raised (ValueError "Invalid wavelet name."), Finished)
  /\ exhaust (getWaveletImage volume_2_2_3
                (mk_kwargs (Some (WaveletName "haar9")) None None []))
     = ([], Some (ValueError "Invalid wavelet name.")).
Proof.
  apply (unknown_wavelet_raises_before_any_transform volume_2_2_3
           (mk_kwargs (Some (WaveletName "haar9")) None None []) "haar9");
    reflexivity.
Defined.

Lemma more_levels_extend_the_run_witness :
  length (fst (exhaust (getWaveletImage volume_2_2_3 (kw_haar 1 1)))) = 8
  /\ firstn 7
       (map observable
            (fst (exhaust (getWaveletImage volume_2_2_3 (kw_haar 1 1)))))
     = firstn 7
         (map observable
              (fst (exhaust (getWaveletImage volume_2_2_3 (kw_haar 3 1))))).
Proof.
  apply (more_levels_extend_the_run int_haar_swt_length volume_2_2_3
           (kw_haar 1 1) (kw_haar 3 1) haar).
  - exact volume_2_2_3_valid.
  - reflexivity.
  - reflexivity.
  - reflexivity.
  - cbn. lia.
Defined.

Lemma odd_extent_is_refused_witness :
  outcome (decompose_along axis_i (pixels volume_2_2_3) haar)
  = Raise (ValueError "Length of data must be even.")
  /\ length (calls_of (decompose_along axis_i (pixels volume_2_2_3) haar)) = 1.
Proof.
  apply (odd_extent_is_refused axis_i 2 2 3 (pixels volume_2_2_3) haar).
  - split; reflexivity.
  - lia.
  - lia.
  - lia.
  - reflexivity.
Defined.

Lemma identifiers_are_distinct_witness :
  snd (exhaust (getWaveletImage volume_2_2_3 (kw_haar 2 1))) = None
  /\ NoDup (map item_identifier
                (fst (exhaust (getWaveletImage volume_2_2_3 (kw_haar 2 1))))).
Proof.
  apply (identifiers_are_distinct int_haar_swt_length volume_2_2_3
           (kw_haar 2 1) haar).
  - exact volume_2_2_3_valid.
  - reflexivity.
Defined.

Lemma samples_stay_in_place_when_inner_dimensions_even_witness :
  let arrays := working_arrays volume_5_4_6 haar 0 1 in
  (forall k j i, k < 6 -> j < 4 -> i < 6 ->
     get3 (padded volume_5_4_6) k j i
     = if k <? 5 then get3 (GetArrayFromImage volume_5_4_6) k j i else 0%Z)
  /\ map item_volume (fst (exhaust (getWaveletImage volume_5_4_6 (kw_haar 1 0))))
     = map (emitted volume_5_4_6) arrays
  /\ Forall (fun a => forall k j i, k < 5 -> j < 4 -> i < 6 ->
               get3 (pixels (emitted volume_5_4_6 a)) k j i = get3 a k j i)
            arrays.
Proof.
  apply (samples_stay_in_place_when_inner_dimensions_even
           int_haar_swt_length volume_5_4_6 (kw_haar 1 0) haar 5 4 6).
  - reflexivity.
  - reflexivity.
  - lia.
  - lia.
  - lia.
  - reflexivity.
  - reflexivity.
  - reflexivity.
Defined.

Lemma zero_volume_gives_zero_volumes_only_witness :
  snd (exhaust (getWaveletImage zeros_4_4_4 (kw_haar 2 1))) = None
  /\ Forall (fun x : item => pixels (item_volume x) = zeros3 4 4 4)
            (fst (exhaust (getWaveletImage zeros_4_4_4 (kw_haar 2 1)))).
Proof.
  apply (zero_volume_gives_zero_volumes_only int_haar_swt_length
           int_haar_swt_zero zeros_4_4_4 (kw_haar 2 1) haar 4 4 4).
  - reflexivity.
  - lia.
  - lia.
  - lia.
  - reflexivity.
  - reflexivity.
Defined.

Lemma number_of_lines_transformed_witness :
  length (calls_of (_swt3 volume_2_2_3 (WaveletName "haar") 2 1))
  = 1 * warmup_lines 2 2 4 + 2 * emission_lines 2 2 4.
Proof.
  apply (number_of_lines_transformed int_haar_swt_length volume_2_2_3
           (WaveletName "haar") haar 2 1 2 2 3).
  - reflexivity.
  - lia.
  - lia.
  - lia.
  - reflexivity.
Defined.

Section OnIntegers.

Import EmptyArange.

Local Open Scope Z_scope.

Lemma generateAngles_returns_the_forward_offsets_witness :
  exists angles,
    generateAngles (5, 5, 1) 1 = Ok angles
    /\ forall a, In a angles <-> forward a /\ within 1 a /\ fits (5, 5, 1) a.
Proof.
  apply (generateAngles_returns_the_forward_offsets (5, 5, 1) 1). lia.
Defined.

Lemma generateAngles_has_no_duplicate_witness :
  NoDup [(1, -1, 0); (0, 1, 0); (1, 0, 0); (1, 1, 0)].
Proof.
  apply (generateAngles_has_no_duplicate (5, 5, 1) 1). reflexivity.
Defined.

Lemma generateAngles_one_of_each_direction_witness :
  exists angles,
    generateAngles (5, 5, 5) 1 = Ok angles
    /\ ~ In (0, 0, 0) angles
    /\ ((-1, 1, 0) <> (0, 0, 0) ->
        (In (-1, 1, 0) angles /\ ~ In (opposite (-1, 1, 0)) angles)
        \/ (~ In (-1, 1, 0) angles /\ In (opposite (-1, 1, 0)) angles)).
Proof.
  apply (generateAngles_one_of_each_direction (5, 5, 5) 1 (-1, 1, 0)).
  - lia.
  - cbn. lia.
  - cbn. lia.
Defined.

Lemma generateAngles_count_witness :
  exists angles,
    generateAngles (5, 5, 5) 2 = Ok angles
    /\ angles = all_angles 2
    /\ Z.of_nat (length angles) = 62.
Proof.
  apply (generateAngles_count (5, 5, 5) 2).
  - lia.
  - cbn. lia.
Defined.

Lemma generateAngles_without_distance_raises_witness :
  generateAngles (5, 5, 5) 0
  = Raise (ValueError "operands could not be broadcast together").
Proof. apply (generateAngles_without_distance_raises (5, 5, 5) 0). lia. Defined.

Lemma region_3_to_99_not_flat :
  ~ flat_on_an_edge 25 (region [3; 10; 24; 26; 49; 50; 75; 99; 7]
                               [0; 1; 2; 3; 4; 5; 6; 7]%nat).
Proof.
  intros (c & F & _). cbn in F.
  inversion F as [|? ? E1 F1]. inversion F1 as [|? ? E2 _]. lia.
Defined.

Lemma no_wrap_3_to_99 : no_wrap int16 25 3 99.
Proof. unfold no_wrap, lower_bound. cbn. lia. Defined.

Lemma no_wrap_50 : no_wrap uint8 25 50 50.
Proof. unfold no_wrap, lower_bound. cbn. lia. Defined.

Lemma getHistogram_edges_witness :
  exists hist edges,
    getHistogram int16 25 [3; 10; 24; 26; 49; 50; 75; 99]
    = Returned (hist, edges)
    /\ (1 <= length hist)%nat
    /\ edges = grid 25 (lower_bound 25 3) (S (length hist))
    /\ lower_bound 25 3 <= 3 < lower_bound 25 3 + 25
    /\ lower_bound 25 3 + (Z.of_nat (length hist) - 1) * 25 < 99
       <= lower_bound 25 3 + Z.of_nat (length hist) * 25.
Proof.
  apply (getHistogram_edges 25 int16 [3; 10; 24; 26; 49; 50; 75; 99] 3 99).
  - cbn. auto 20.
  - cbn. auto 20.
  - repeat constructor; lia.
  - exact no_wrap_3_to_99.
  - exact region_3_to_99_not_flat.
Defined.

Lemma getHistogram_counts_every_value_witness :
  exists hist edges,
    getHistogram int16 25 [3; 10; 24; 26; 49; 50; 75; 99]
    = Returned (hist, edges)
    /\ (forall i, (i < length hist)%nat ->
          nth i hist 0
          = count_level 25 3 (length hist) [3; 10; 24; 26; 49; 50; 75; 99]
              (Z.of_nat i + 1))
    /\ total hist = Z.of_nat 8.
Proof.
  apply (getHistogram_counts_every_value 25 int16
           [3; 10; 24; 26; 49; 50; 75; 99] 3 99).
  - cbn. auto 20.
  - cbn. auto 20.
  - repeat constructor; lia.
  - exact no_wrap_3_to_99.
  - exact region_3_to_99_not_flat.
Defined.

Lemma binImage_replaces_the_region_by_levels_witness :
  let matrix := [3; 10; 24; 26; 49; 50; 75; 99; 7] in
  let cs := [0; 1; 2; 3; 4; 5; 6; 7]%nat in
  exists binned hist edges,
    binImage int16 25 matrix cs = Returned (binned, (hist, edges))
    /\ length binned = length matrix
    /\ (forall p, In p cs ->
          nth p binned 0 = level_of 25 3 (length hist) (nth p matrix 0))
    /\ (forall p, ~ In p cs -> nth p binned 0 = nth p matrix 0).
Proof.
  apply (binImage_replaces_the_region_by_levels 25 int16
           [3; 10; 24; 26; 49; 50; 75; 99; 7]
           [0; 1; 2; 3; 4; 5; 6; 7]%nat 3 99).
  - repeat constructor; cbn; lia.
  - cbn. auto 20.
  - cbn. auto 20.
  - repeat constructor; cbn; lia.
  - exact no_wrap_3_to_99.
  - exact region_3_to_99_not_flat.
Defined.

Lemma binImage_levels_keep_the_order_witness :
  let matrix := [3; 10; 24; 26; 49; 50; 75; 99; 7] in
  let cs := [0; 1; 2; 3; 4; 5; 6; 7]%nat in
  exists binned hist edges,
    binImage int16 25 matrix cs = Returned (binned, (hist, edges))
    /\ (forall p, In p cs ->
          1 <= nth p binned 0 <= Z.of_nat (length hist))
    /\ (forall p, In p cs -> nth p matrix 0 = 3 -> nth p binned 0 = 1)
    /\ (forall p, In p cs -> nth p matrix 0 = 99 ->
          nth p binned 0 = Z.of_nat (length hist))
    /\ (forall p q, In p cs -> In q cs ->
          nth p matrix 0 <= nth q matrix 0 ->
          nth p binned 0 <= nth q binned 0).
Proof.
  apply (binImage_levels_keep_the_order 25 int16
           [3; 10; 24; 26; 49; 50; 75; 99; 7]
           [0; 1; 2; 3; 4; 5; 6; 7]%nat 3 99).
  - repeat constructor; cbn; lia.
  - cbn. auto 20.
  - cbn. auto 20.
  - repeat constructor; cbn; lia.
  - exact no_wrap_3_to_99.
  - exact region_3_to_99_not_flat.
Defined.

Lemma binImage_histogram_agrees_with_the_levels_witness :
  let matrix := [3; 10; 24; 26; 49; 50; 75; 99; 7] in
  let cs := [0; 1; 2; 3; 4; 5; 6; 7]%nat in
  exists binned hist edges,
    binImage int16 25 matrix cs = Returned (binned, (hist, edges))
    /\ (forall i, (i < length hist)%nat ->
          nth i hist 0
          = Z.of_nat
              (length (filter (fun p => nth p binned 0 =? Z.of_nat i + 1)
                              cs)))
    /\ total hist = Z.of_nat (length cs)
    /\ edges
       = grid 25 (lower_bound 25 3) (length hist)
         ++ [lower_bound 25 3 + Z.of_nat (length hist) * 25 + 1].
Proof.
  apply (binImage_histogram_agrees_with_the_levels 25 int16
           [3; 10; 24; 26; 49; 50; 75; 99; 7]
           [0; 1; 2; 3; 4; 5; 6; 7]%nat 3 99).
  - repeat constructor; cbn; lia.
  - cbn. auto 20.
  - cbn. auto 20.
  - repeat constructor; cbn; lia.
  - exact no_wrap_3_to_99.
  - exact region_3_to_99_not_flat.
Defined.

Lemma getHistogram_failures_witness :
  getHistogram uint8 25 []
  = Failed (PyValueError "min() arg is an empty sequence")
  /\ getHistogram uint8 25 [50; 50]
     = Failed (PyTypeError "object of type 'int' has no len()")
  /\ exists hist edges,
       getHistogram int16 25 [3; 10; 24; 26; 49; 50; 75; 99]
       = Returned (hist, edges).
Proof.
  split; [|split].
  - apply (proj1 (getHistogram_failures 25 uint8 [])). reflexivity.
  - apply (proj1 (proj2 (getHistogram_failures 25 uint8 [50; 50])) 50 50).
    + cbn. auto.
    + cbn. auto.
    + repeat constructor; lia.
    + exact no_wrap_50.
    + exists 50. split; [repeat constructor | reflexivity].
  - apply (proj2 (proj2 (getHistogram_failures 25 int16
                           [3; 10; 24; 26; 49; 50; 75; 99])) 3 99).
    + cbn. auto 20.
    + cbn. auto 20.
    + repeat constructor; lia.
    + exact no_wrap_3_to_99.
    + exact region_3_to_99_not_flat.
Defined.

Lemma binImage_failures_witness :
  binImage uint8 25 [3; 10] [5%nat]
  = Failed (PyIndexError "index out of bounds")
  /\ binImage uint8 25 [3; 10] []
     = Failed (PyValueError "min() arg is an empty sequence")
  /\ binImage uint8 25 [50; 50; 7] [0; 1]%nat
     = Failed (PyTypeError "object of type 'int' has no len()").
Proof.
  split; [|split].
  - apply (proj1 (binImage_failures 25 uint8 [3; 10] [5%nat])).
    intros F. inversion F as [|? ? H _]. cbn in H. lia.
  - apply (proj1 (proj2 (binImage_failures 25 uint8 [3; 10] []))).
    reflexivity.
  - apply (proj2 (proj2 (binImage_failures 25 uint8 [50; 50; 7]
                           [0; 1]%nat)) 50 50).
    + repeat constructor; cbn; lia.
    + cbn. auto.
    + cbn. auto.
    + repeat constructor; cbn; lia.
    + exact no_wrap_50.
    + exists 50. split; [repeat constructor | reflexivity].
Defined.

Example binImage_on_nine_voxels :
  binImage int16 25 [3; 10; 24; 26; 49; 50; 75; 99; 7]
                    [0; 1; 2; 3; 4; 5; 6; 7]%nat
  = Returned ([1; 1; 1; 2; 2; 3; 4; 4; 7],
              ([3; 2; 1; 2], [0; 25; 50; 75; 101])).
Proof. vm_compute. reflexivity. Qed.

(** Where the bound past the largest value wraps around: on 16-bit values
    from 3 to 32760 there is no edge and no bin, and [binImage] fails at
    the last edge; on 8-bit values from 3 to 250 there is one edge, and
    the logging call raises.  Neither depends on what is left open of
    [numpy.arange]. *)
Example getHistogram_past_int16 (NA : NumpyArange) :
  @getHistogram NA int16 25 [3; 32760] = Returned ([], []).
Proof. reflexivity. Qed.

Example binImage_past_int16 (NA : NumpyArange) :
  @binImage NA int16 25 [3; 32760] [0; 1]%nat
  = Failed (PyIndexError "index -1 is out of bounds").
Proof. reflexivity. Qed.

Example getHistogram_past_uint8 (NA : NumpyArange) :
  @getHistogram NA uint8 25 [3; 250]
  = Failed (PyTypeError "object of type 'int' has no len()").
Proof. reflexivity. Qed.

End OnIntegers.
